(** * manuarte-app-backend: the transactional quote / billing workflow

    A shallow embedding of the service layer of the back office
    (TypeScript over Sequelize and PostgreSQL) and the properties its
    specification states about it.

    - JavaScript values that may be missing are modelled by [js A]
      (undefined, null or a value); amounts and quantities (decimal
      columns) by exact rationals [Q], compared with [==]; the month
      offset of the top-sales report, which is any JavaScript number, by
      [JsNumber] (a finite value, NaN or an infinity).
    - [async] functions run sequentially: they are computations of the
      monad [M T], which threads the database [World T] and either returns
      a value or throws an [Error].
    - A Sequelize transaction is a working copy of the tables: statements
      issued with [{ transaction }] act on the copy, [commit] publishes it
      unless the database refuses the COMMIT, [rollback] drops it; a
      transaction that has been finished cannot be rolled back.
    - Models and services the verified files call but do not define
      (customer, quote item, shop, the model classes) are the fields of a
      class [Collaborators] in each module. *)

From Stdlib Require Import QArith.
From stdpp Require Import base option list gmap strings.

Set Default Proof Using "Type".
Local Open Scope string_scope.
Local Open Scope list_scope.

(** ** JavaScript values *)

Inductive js (A : Type) : Type :=
| undefined : js A
| null : js A
| val (a : A) : js A.
Arguments undefined {A}.
Arguments null {A}.
Arguments val {A} a.

(** [x ?? null] *)
Definition nullish_or_null {A} (x : js A) : option A :=
  match x with val a => Some a | _ => None end.

(** Truthiness of a string-valued expression: missing values and the empty
    string are falsy. *)
Definition truthy (x : js string) : bool :=
  match x with val s => negb (String.eqb s "") | _ => false end.

(** [x > 0] on a number-valued expression: [undefined > 0] and [null > 0]
    are false. *)
Definition gt_zero (x : js Q) : bool :=
  match x with val q => negb (Qle_bool q 0) | _ => false end.

(** [x || 0] on a number-valued expression. *)
Definition or_zero (x : js Q) : Q :=
  match x with val q => if Qeq_bool q 0 then 0%Q else q | _ => 0%Q end.

(** [xs?.length === 0] and [xs?.length > 0]: both are false when the list
    is missing. *)
Definition length_is_zero {A} (xs : js (list A)) : bool :=
  match xs with val [] => true | _ => false end.

Definition length_gt_zero {A} (xs : js (list A)) : bool :=
  match xs with val (_ :: _) => true | _ => false end.

(** The elements of a list that is known to be present. *)
Definition elements_of {A} (xs : js (list A)) : list A :=
  match xs with val l => l | _ => [] end.

(** What [Model.build] stores for an attribute: a missing value leaves the
    column at its default. *)
Definition built {A} (default : option A) (x : js A) : option A :=
  match x with undefined => default | null => None | val a => Some a end.

(** What [instance.update] stores for an attribute: Sequelize omits
    undefined values, so the column keeps what it had. *)
Definition assigned {A} (old : option A) (x : js A) : option A :=
  match x with undefined => old | null => None | val a => Some a end.

(** ** Errors and outcomes *)

(** A JavaScript [Error]; [parent_code] is [error.parent?.code], the
    PostgreSQL SQLSTATE carried by database errors. *)
Record Error := mkError { message : string; parent_code : option string }.

Definition plain_error (msg : string) : Error := mkError msg None.

(** SQLSTATE 23505, unique_violation. *)
Definition is_unique_violation (e : Error) : bool :=
  match parent_code e with Some c => String.eqb c "23505" | None => false end.

Inductive Outcome (A : Type) : Type :=
| Return (a : A)
| Throw (e : Error).
Arguments Return {A} a.
Arguments Throw {A} e.

(** The error taxonomy of the specification, read off the messages the
    services throw. *)
Inductive ErrorKind := ValidationError | NotFound | ConflictError | StorageError.

Definition error_kind (e : Error) : ErrorKind :=
  if is_unique_violation e then ConflictError
  else if String.eqb (message e) "Es necesario al menos 1 item para crear una cotización"
  then ValidationError
  else if String.eqb (message e) "La cotización debe tener al menos 1 item"
  then ValidationError
  else if String.eqb (message e) "Cotización no encontrada" then NotFound
  else if String.eqb (message e) "Cliente no encontrado" then NotFound
  else StorageError.

(** ** The database and its transaction *)

Inductive Event :=
| EvBegin
| EvStatement (table : string)
| EvCommit
| EvRollback
| EvLog (msg : string)
| EvCommitRefused.

(** [committed]: what every connection sees; [tx]: the working copy of the
    open transaction, if any; [trace]: what has happened so far, oldest
    first: transactions opened and closed (a COMMIT the database refused
    is [EvCommitRefused]), statements and calls that went through (by
    table), lines written by [console.error]. *)
Record World (T : Type) := mkWorld {
  committed : T;
  tx : option T;
  trace : list Event }.
Arguments mkWorld {T}.
Arguments committed {T}.
Arguments tx {T}.
Arguments trace {T}.

Definition M (T A : Type) : Type := World T -> Outcome A * World T.

Definition ret {T A} (a : A) : M T A := fun w => (Return a, w).
Definition throw {T A} (e : Error) : M T A := fun w => (Throw e, w).
Definition bind {T A B} (m : M T A) (k : A -> M T B) : M T B :=
  fun w => match m w with
           | (Return a, w') => k a w'
           | (Throw e, w') => (Throw e, w')
           end.
Definition try_catch {T A} (body : M T A) (handler : Error -> M T A) : M T A :=
  fun w => match body w with
           | (Return a, w') => (Return a, w')
           | (Throw e, w') => handler e w'
           end.

Declare Scope js_scope.
Delimit Scope js_scope with js.
Notation "x <- m ;; k" := (bind m (fun x => k))
  (at level 100, m at next level, right associativity) : js_scope.
Notation "m ;; k" := (bind m (fun _ => k))
  (at level 100, right associativity) : js_scope.
Local Open Scope js_scope.

Definition emit {T} (ev : Event) : M T unit :=
  fun w => (Return tt, mkWorld (committed w) (tx w) (trace w ++ [ev])).

Definition console_error {T} (msg : string) : M T unit := emit (EvLog msg).

(** [await sequelize.transaction()] *)
Definition sequelize_transaction {T} : M T unit :=
  fun w => (Return tt, mkWorld (committed w) (Some (committed w)) (trace w ++ [EvBegin])).

(** [transaction.finished]: how the last transaction of the trace has
    ended, if it has. Sequelize sets it to 'commit' in the [finally] of
    [commit()], also when the COMMIT was refused. *)
Definition finished (evs : list Event) : option string :=
  fold_left
    (fun state ev =>
       match ev with
       | EvBegin => None
       | EvCommit | EvCommitRefused => Some "commit"
       | EvRollback => Some "rollback"
       | _ => state
       end)
    evs None.

(** The error of [commit()] and [rollback()] on a transaction that is not
    open. *)
Definition finished_error (action : string) (state : option string) : Error :=
  match state with
  | Some s =>
      plain_error
        (String.append "Transaction cannot be "
           (String.append action
              (String.append " because it has been finished with state: " s)))
  | None =>
      plain_error
        (String.append "Transaction cannot be "
           (String.append action " because it never started"))
  end.

(** [await transaction.commit()]. [refused] is the database's answer to the
    COMMIT, given the working copy: an error when it refuses it (a deferred
    constraint, a serialization failure). Sequelize then re-throws the
    error with the transaction finished and nothing published. *)
Definition commit {T} (refused : T -> option Error) : M T unit :=
  fun w => match tx w with
           | Some t =>
               match refused t with
               | None => (Return tt, mkWorld t None (trace w ++ [EvCommit]))
               | Some e =>
                   (Throw e, mkWorld (committed w) None (trace w ++ [EvCommitRefused]))
               end
           | None => (Throw (finished_error "committed" (finished (trace w))), w)
           end.

(** [await transaction.rollback()]: it throws when the transaction has been
    finished already. *)
Definition rollback {T} : M T unit :=
  fun w => match tx w with
           | Some _ => (Return tt, mkWorld (committed w) None (trace w ++ [EvRollback]))
           | None => (Throw (finished_error "rolled back" (finished (trace w))), w)
           end.

(** A statement issued with [{ transaction }]: it reads and writes the
    working copy; a statement that fails changes nothing. *)
Definition in_tx {T A} (table : string) (stmt : T -> Outcome (A * T)) : M T A :=
  fun w => match tx w with
           | Some t =>
               match stmt t with
               | Return (a, t') =>
                   (Return a, mkWorld (committed w) (Some t') (trace w ++ [EvStatement table]))
               | Throw e => (Throw e, w)
               end
           | None => (Throw (plain_error "Transaction has been finished"), w)
           end.

(** A query issued with [{ transaction }] that only reads. *)
Definition read_tx {T A} (q : T -> Outcome A) : M T A :=
  fun w => match tx w with
           | Some t => (q t, w)
           | None => (Throw (plain_error "Transaction has been finished"), w)
           end.

(** Statements issued without a transaction act on the committed tables
    at once. *)
Definition query {T A} (q : T -> Outcome A) : M T A :=
  fun w => (q (committed w), w).

Definition autocommit {T A} (table : string) (stmt : T -> Outcome (A * T)) : M T A :=
  fun w => match stmt (committed w) with
           | Return (a, t') => (Return a, mkWorld t' (tx w) (trace w ++ [EvStatement table]))
           | Throw e => (Throw e, w)
           end.

(** A call that issues several statements without a transaction: each
    acts on the committed tables at once, so a call that fails leaves what
    its statements wrote before the failure. The trace records the call
    when it went through. *)
Definition unguarded {T A} (table : string) (call : T -> Outcome A * T) : M T A :=
  fun w => match call (committed w) with
           | (Return a, t') =>
               (Return a, mkWorld t' (tx w) (trace w ++ [EvStatement table]))
           | (Throw e, t') => (Throw e, mkWorld t' (tx w) (trace w))
           end.

(** [for (const x of xs) { await f(x) }] *)
Fixpoint for_of {T A} (xs : list A) (f : A -> M T unit) : M T unit :=
  match xs with
  | [] => ret tt
  | x :: rest => f x ;; for_of rest f
  end.

(** ** QuoteService (modules/quote/service.ts) *)

Module QuoteService.

Inductive QuoteStatus := ACCEPTED | PENDING | CANCELED | REVISION | OVERDUE.
Inductive Currency := COP | USD.

Record CreateQuoteItemDto := mkItem {
  item_id : js string;
  productVariantId : js string;
  name : string;
  quantity : Q;
  price : Q;
  totalPrice : Q;
  quoteId : js string }.

Record CreateQuoteDto := mkQuoteDto {
  shopSlug : js string;
  dto_shopId : js string;
  items : js (list CreateQuoteItemDto);
  dto_status : js QuoteStatus;
  dto_discountType : js string;
  dto_discount : js Q;
  dto_shipping : js Q;
  dto_requestedBy : js string;
  dto_currency : js Currency }.

Record UpdateQuoteDto := mkUpdateDto {
  base :> CreateQuoteDto;
  dto_id : string }.

(** The fields of [CreateCustomerDto] / [UpdateCustomerDto] the quote
    service reads. *)
Record CustomerDto := mkCustomerDto {
  dto_customerId : js string;
  fullName : js string;
  personId : js string }.

Record Shop := mkShop { shop_id : string; shop_currency : Currency }.

(** A row of the quote table: the attributes [create] builds and [update]
    assigns. *)
Record Quote := mkQuote {
  serialNumber : option string;
  customerId : option string;
  shopId : option string;
  status : option QuoteStatus;
  currency : option Currency;
  discountType : option string;
  discount : option Q;
  shipping : option Q;
  createdBy : option string;
  requestedBy : option string }.

Record NewQuoteSummary := mkNewSummary {
  new_id : string;
  new_serialNumber : option string;
  new_status : js QuoteStatus;
  new_customerId : option string;
  new_customerName : option string;
  new_shopId : string }.

Record UpdatedQuoteSummary := mkUpdatedSummary {
  upd_id : string;
  upd_serialNumber : option string;
  upd_status : js QuoteStatus;
  upd_customerId : js string;
  upd_customerName : js string;
  upd_shopId : js string }.

Inductive Response :=
| Message (status : Z) (msg : string)
| NewQuote (status : Z) (newQuote : NewQuoteSummary)
| UpdatedQuote (status : Z) (updatedQuote : UpdatedQuoteSummary).

Definition response_status (r : Response) : Z :=
  match r with Message s _ | NewQuote s _ | UpdatedQuote s _ => s end.

(** The code the quote service calls and does not define:
    the customer and quote-item services, the shop model, and the parts of
    the quote model that are decided by its definition and by the
    database. Each statement either fails with an error or yields its
    result and the new content of the table it owns. *)
Class Collaborators := {
  CustomerTable : Type;
  ItemTable : Type;
  CustomerInfo : Type;
  (** [customerService.create(data, transaction)]: [result.customer.id] *)
  customerService_create :
    CustomerDto -> CustomerTable -> Outcome (string * CustomerTable);
  (** [customerService.update(data, transaction)]: the customer, or null *)
  customerService_update :
    CustomerDto -> CustomerTable -> Outcome (option CustomerInfo * CustomerTable);
  (** [quoteItemService.create(item, transaction)] *)
  quoteItemService_create :
    CreateQuoteItemDto -> ItemTable -> Outcome (unit * ItemTable);
  (** [quoteItemService.updateItems(items, quoteId, transaction)] *)
  quoteItemService_updateItems :
    list CreateQuoteItemDto -> string -> ItemTable -> Outcome (unit * ItemTable);
  (** [ShopModel.findOne({ where: { slug } })] *)
  ShopModel_findOne : js string -> Outcome (option Shop);
  (** [newQuote.generateSerialNumber()] *)
  generateSerialNumber : Quote -> gmap string Quote -> Outcome string;
  (** the database's answer to the INSERT of [newQuote.save]: the primary
      key it generated, or an error *)
  quote_insert : Quote -> gmap string Quote -> Outcome string;
  (** the database's answer to the UPDATE of [quoteToUpdate.update] *)
  quote_update : string -> Quote -> gmap string Quote -> option Error;
  (** the database's answer to the COMMIT of a transaction that leaves
      these customers, quotes and quote items: its error when it refuses *)
  commit_error : CustomerTable -> gmap string Quote -> ItemTable -> option Error;
  (** column defaults of the quote model *)
  default_discountType : option string;
  default_discount : option Q;
  default_shipping : option Q;
  default_status : option QuoteStatus }.

Section Service.
Context `{Collaborators}.

Record Tables := mkTables {
  customers : CustomerTable;
  quotes : gmap string Quote;
  quoteItems : ItemTable }.

Definition on_customers {A} (f : CustomerTable -> Outcome (A * CustomerTable))
  (t : Tables) : Outcome (A * Tables) :=
  match f (customers t) with
  | Return (a, c) => Return (a, mkTables c (quotes t) (quoteItems t))
  | Throw e => Throw e
  end.

Definition on_items {A} (f : ItemTable -> Outcome (A * ItemTable))
  (t : Tables) : Outcome (A * Tables) :=
  match f (quoteItems t) with
  | Return (a, i) => Return (a, mkTables (customers t) (quotes t) i)
  | Throw e => Throw e
  end.

(** The database's answer to the COMMIT of the working copy [t]. *)
Definition commit_refused (t : Tables) : option Error :=
  commit_error (customers t) (quotes t) (quoteItems t).

(** [newQuote.save({ transaction })]: a primary key that is already taken
    is a unique violation. *)
Definition save (q : Quote) (t : Tables) : Outcome (string * Tables) :=
  match quote_insert q (quotes t) with
  | Return k =>
      match quotes t !! k with
      | Some _ => Throw (mkError "Validation error" (Some "23505"))
      | None => Return (k, mkTables (customers t) (<[k := q]> (quotes t)) (quoteItems t))
      end
  | Throw e => Throw e
  end.

(** [quoteModel.findByPk(id, { transaction })] *)
Definition findByPk (k : string) (t : Tables) : Outcome (option Quote) :=
  Return (quotes t !! k).

(** [quoteToUpdate.update(values, { transaction })] *)
Definition instance_update (k : string) (q : Quote) (t : Tables) : Outcome (unit * Tables) :=
  match quote_update k q (quotes t) with
  | Some e => Throw e
  | None => Return (tt, mkTables (customers t) (<[k := q]> (quotes t)) (quoteItems t))
  end.

(** [quoteModel.build({ customerId, shopId: shop.id, status, currency:
    shop.currency, discountType: discount > 0 ? discountType : null,
    discount, shipping, createdBy: requestedBy })] *)
Definition build (customer : option string) (shop : Shop) (quoteData : CreateQuoteDto)
  : Quote :=
  {| serialNumber := None;
     customerId := customer;
     shopId := Some (shop_id shop);
     status := built default_status (dto_status quoteData);
     currency := Some (shop_currency shop);
     discountType :=
       if gt_zero (dto_discount quoteData)
       then built default_discountType (dto_discountType quoteData) else None;
     discount := built default_discount (dto_discount quoteData);
     shipping := built default_shipping (dto_shipping quoteData);
     createdBy := nullish_or_null (dto_requestedBy quoteData);
     requestedBy := None |}.

(** the effect of [generateSerialNumber] on the instance *)
Definition with_serialNumber (serial : string) (q : Quote) : Quote :=
  {| serialNumber := Some serial;
     customerId := customerId q;
     shopId := shopId q;
     status := status q;
     currency := currency q;
     discountType := discountType q;
     discount := discount q;
     shipping := shipping q;
     createdBy := createdBy q;
     requestedBy := requestedBy q |}.

(** [{ ...item, id: undefined, productVariantId: item?.productVariantId,
    quoteId: newQuote.id }] *)
Definition item_of_quote (newQuote_id : string) (item : CreateQuoteItemDto)
  : CreateQuoteItemDto :=
  {| item_id := undefined;
     productVariantId := productVariantId item;
     name := name item;
     quantity := quantity item;
     price := price item;
     totalPrice := totalPrice item;
     quoteId := val newQuote_id |}.

(** the values [quoteToUpdate.update] is given, applied to the row read *)
Definition updated_row (old : Quote) (quoteData : UpdateQuoteDto)
  (customerData : CustomerDto) : Quote :=
  {| serialNumber := serialNumber old;
     customerId := assigned (customerId old) (dto_customerId customerData);
     shopId := shopId old;
     status := assigned (status old) (dto_status quoteData);
     currency := assigned (currency old) (dto_currency quoteData);
     discountType :=
       if gt_zero (dto_discount quoteData)
       then assigned (discountType old) (dto_discountType quoteData)
       else None;
     discount := Some (or_zero (dto_discount quoteData));
     shipping := assigned (shipping old) (dto_shipping quoteData);
     createdBy := createdBy old;
     requestedBy := assigned (requestedBy old) (dto_requestedBy quoteData) |}.

(** [if (quoteData?.items?.length === 0) throw new Error(...)] *)
Definition check_items (quoteData : CreateQuoteDto) : M Tables unit :=
  if length_is_zero (items quoteData)
  then throw (plain_error "Es necesario al menos 1 item para crear una cotización")
  else ret tt.

(** [let customerId = customerData?.customerId ?? null; if (...) { ... }
    else if (...) { ... }]: the value of [customerId] afterwards. *)
Definition resolve_customer (customerData : CustomerDto) : M Tables (option string) :=
  let customerId := nullish_or_null (dto_customerId customerData) in
  if truthy (fullName customerData) && negb (truthy (dto_customerId customerData))
  then
    new_customer_id <-
      in_tx "customer" (on_customers (customerService_create customerData)) ;;
    ret (Some new_customer_id)
  else if truthy (personId customerData)
  then
    in_tx "customer" (on_customers (customerService_update customerData)) ;;
    ret customerId
  else ret customerId.

(** [for (const item of quoteData.items) { await
    this.quoteItemService.create({ ... }, transaction) }] *)
Definition create_items (quoteData : CreateQuoteDto) (newQuote_id : string)
  : M Tables unit :=
  match items quoteData with
  | val its =>
      for_of its (fun item =>
        in_tx "quote_item"
          (on_items (quoteItemService_create (item_of_quote newQuote_id item))))
  | _ => throw (plain_error "quoteData.items is not iterable")
  end.

Definition create_body (quoteData : CreateQuoteDto) (customerData : CustomerDto)
  : M Tables Response :=
  check_items quoteData ;;
  customerId <- resolve_customer customerData ;;
  shop <- query (fun _ => ShopModel_findOne (shopSlug quoteData)) ;;
  match shop with
  | None => ret (Message 400 "Parece que la tienda no existe!")
  | Some shop =>
      let newQuote := build customerId shop quoteData in
      serial <- query (fun t => generateSerialNumber newQuote (quotes t)) ;;
      let newQuote := with_serialNumber serial newQuote in
      newQuote_id <- in_tx "quote" (save newQuote) ;;
      create_items quoteData newQuote_id ;;
      commit commit_refused ;;
      ret (NewQuote 201
             {| new_id := newQuote_id;
                new_serialNumber := serialNumber newQuote;
                new_status := dto_status quoteData;
                new_customerId := customerId;
                new_customerName := nullish_or_null (fullName customerData);
                new_shopId := shop_id shop |})
  end.

Definition create (quoteData : CreateQuoteDto) (customerData : CustomerDto)
  : M Tables Response :=
  sequelize_transaction ;;
  try_catch (create_body quoteData customerData)
    (fun error =>
       rollback ;;
       console_error "Error creando cotización" ;;
       throw error).

(** [if (customerData?.personId) { customerInfo = await
    this.customerService.update(...); if (!customerInfo) throw ... }] *)
Definition update_customer (customerData : CustomerDto) : M Tables unit :=
  if truthy (personId customerData)
  then
    customerInfo <-
      in_tx "customer" (on_customers (customerService_update customerData)) ;;
    match customerInfo with
    | None => throw (plain_error "Cliente no encontrado")
    | Some _ => ret tt
    end
  else ret tt.

(** [if (quoteData?.items?.length > 0) { await
    this.quoteItemService.updateItems(...) } else { throw ... }] *)
Definition replace_items (quoteData : UpdateQuoteDto) : M Tables unit :=
  if length_gt_zero (items quoteData)
  then
    in_tx "quote_item"
      (on_items (quoteItemService_updateItems (elements_of (items quoteData))
                   (dto_id quoteData)))
  else throw (plain_error "La cotización debe tener al menos 1 item").

Definition update_body (quoteData : UpdateQuoteDto) (customerData : CustomerDto)
  : M Tables Response :=
  update_customer customerData ;;
  quoteToUpdate <- read_tx (findByPk (dto_id quoteData)) ;;
  match quoteToUpdate with
  | None => throw (plain_error "Cotización no encontrada")
  | Some old =>
      in_tx "quote" (instance_update (dto_id quoteData)
        (updated_row old quoteData customerData)) ;;
      replace_items quoteData ;;
      commit commit_refused ;;
      ret (UpdatedQuote 200
             {| upd_id := dto_id quoteData;
                upd_serialNumber := serialNumber old;
                upd_status := dto_status quoteData;
                upd_customerId := dto_customerId customerData;
                upd_customerName := fullName customerData;
                upd_shopId := dto_shopId quoteData |})
  end.

Definition update (quoteData : UpdateQuoteDto) (customerData : CustomerDto)
  : M Tables Response :=
  sequelize_transaction ;;
  try_catch (update_body quoteData customerData)
    (fun error =>
       rollback ;;
       console_error "Error actualizando cotización" ;;
       throw error).

End Service.
End QuoteService.

(** ** UserService (modules/user/service.ts) *)

Module UserService.

Record CreateUserDto := mkUserDto {
  fullName : string;
  dni : string;
  roleId : string;
  shopId : string;
  email : string;
  password : string }.

Record UserRegistered := mkRegistered {
  reg_id : string;
  reg_email : string;
  reg_roleId : string;
  reg_shopId : string;
  reg_roleName : string;
  reg_personId : string;
  reg_fullName : string;
  reg_dni : string }.

(** [extraPermissions] is typed [string[]]; nothing in the service checks
    that the caller sent one. *)
Record SetPermissionsDto := mkSetPermissions {
  userId : string;
  extraPermissions : js (list string) }.

Inductive Response :=
| Message (status : Z) (msg : string)
| Registered (status : Z) (userRegistered : UserRegistered) (msg : string).

(** The person, user and role models; a created or found instance is
    represented by its id (its name for a role), [None] is a falsy result. *)
Class Collaborators := {
  Tables : Type;
  personModel_create : string -> string -> Tables -> Outcome (option string * Tables);
  userModel_create : CreateUserDto -> string -> Tables -> Outcome (option string * Tables);
  userModel_findByPk : string -> Tables -> Outcome (option string);
  roleModel_findByPk : string -> Tables -> Outcome (option string);
  (** [user.setExtraPermissions(extraPermissions)]: Sequelize reads the
      current permissions, deletes those to drop and inserts the new ones,
      as separate statements; the tables are those it leaves, also when it
      fails on the way *)
  setExtraPermissions : string -> js (list string) -> Tables -> Outcome unit * Tables;
  (** the database's answer to the COMMIT of a transaction that leaves
      these tables: its error when it refuses *)
  commit_error : Tables -> option Error }.

Section Service.
Context `{Collaborators}.

Definition getRoleName (id : string) : M Tables string :=
  try_catch
    (role <- query (roleModel_findByPk id) ;;
     match role with
     | None => throw (plain_error "Rol no encontrado")
     | Some role_name => ret role_name
     end)
    (fun error => console_error (message error) ;; throw error).

Definition register_body (userData : CreateUserDto) : M Tables Response :=
  person <- in_tx "person" (personModel_create (fullName userData) (dni userData)) ;;
  match person with
  | None => ret (Message 500 "Error creando usuario")
  | Some person_id =>
      user <- in_tx "user" (userModel_create userData person_id) ;;
      match user with
      | None => ret (Message 500 "Error creando usuario")
      | Some user_id =>
          roleName <- getRoleName (roleId userData) ;;
          commit commit_error ;;
          ret (Registered 201
                 {| reg_id := user_id;
                    reg_email := email userData;
                    reg_roleId := roleId userData;
                    reg_shopId := shopId userData;
                    reg_roleName := roleName;
                    reg_personId := person_id;
                    reg_fullName := fullName userData;
                    reg_dni := dni userData |}
                 "Usuario registrado con éxito")
      end
  end.

(** [error.message = ...] on a unique violation (SQLSTATE 23505). *)
Definition duplicate_user (error : Error) : Error :=
  if is_unique_violation error
  then mkError "Ya existe un usuario con este email o número de documento"
         (parent_code error)
  else error.

Definition register (userData : CreateUserDto) : M Tables Response :=
  sequelize_transaction ;;
  try_catch (register_body userData)
    (fun error =>
       rollback ;;
       console_error "***************** Error creando user: " ;;
       throw (duplicate_user error)).

(** [extraPermissions.length]: reading a property of undefined or null
    throws a TypeError (the text is V8's). *)
Definition length_of {A} (xs : js (list A)) : Outcome nat :=
  match xs with
  | val l => Return (length l)
  | undefined =>
      Throw (plain_error "Cannot read properties of undefined (reading 'length')")
  | null => Throw (plain_error "Cannot read properties of null (reading 'length')")
  end.

Definition setPermissions (dto : SetPermissionsDto) : M Tables Response :=
  try_catch
    (user <- query (userModel_findByPk (userId dto)) ;;
     match user with
     | None => ret (Message 404 "Usuario no encontrado")
     | Some user_id =>
         unguarded "user_permission"
           (setExtraPermissions user_id (extraPermissions dto)) ;;
         n <- query (fun _ => length_of (extraPermissions dto)) ;;
         ret (Message 200
                (if Nat.eqb n 0
                 then "Permisos eliminados con éxito"
                 else "Permisos actualizados con éxito"))
     end)
    (fun error =>
       console_error (message error) ;;
       ret (Message 500 "Error asignando permisos de usuario")).

End Service.
End UserService.

(** ** BillingItemService (second part of modules/product-category/controller.ts) *)

Module BillingItemService.

Inductive StockOperation := ADD | SUBTRACT.

(** The fields of [CreateBillingItemDto] the stock ledger reads. *)
Record CreateBillingItemDto := mkBillingItem {
  productVariantId : string;
  stockId : string;
  name : string;
  quantity : Q;
  totalPrice : Q }.

Record StockItem := mkStockItem {
  stock_quantity : Q;
  stock_price : Q;
  stock_currency : string }.

Class Collaborators := {
  ItemTable : Type;
  BillingItem : Type;
  (** [billingItemModel.create(billingItemData, { transaction })] *)
  billingItemModel_create :
    CreateBillingItemDto -> ItemTable -> Outcome (BillingItem * ItemTable);
  (** the errors [StockItemService.updateQuantity] throws when the stock
      item is missing and when the stock does not cover a deduction; their
      text is in the source that is missing *)
  stock_item_not_found : Error;
  insufficient_stock : Error }.

Section Service.
Context `{Collaborators}.

(** Stock items are keyed by (product variant, stock). *)
Record Tables := mkTables {
  billingItems : ItemTable;
  stockItems : gmap (string * string) StockItem }.

Definition on_items {A} (f : ItemTable -> Outcome (A * ItemTable))
  (t : Tables) : Outcome (A * Tables) :=
  match f (billingItems t) with
  | Return (a, i) => Return (a, mkTables i (stockItems t))
  | Throw e => Throw e
  end.

Definition signed (op : StockOperation) (q : Q) : Q :=
  match op with ADD => q | SUBTRACT => (- q)%Q end.

(** [x < 0] on quantities. *)
Definition negative (q : Q) : bool := negb (Qle_bool 0 q).

(** Modelled from the spec: [StockItemService.updateQuantity]
    (modules/stock-item/service.ts, whose source is missing). Section 4.1:
    look up the stock item row for (variant, stock); if absent, signal
    NotFound; apply the signed quantity (negative for a deduction,
    positive for a cancellation) and write the new quantity inside the
    caller's unit of work. Sections 3 and 8: the quantity never goes
    negative as the result of a deduction, that is of a negative signed
    quantity, whichever operation it comes from; the deduction fails
    instead and writes nothing. *)
Definition updateQuantity (data : CreateBillingItemDto) (op : StockOperation)
  (t : Tables) : Outcome (unit * Tables) :=
  let key := (productVariantId data, stockId data) in
  match stockItems t !! key with
  | None => Throw stock_item_not_found
  | Some item =>
      let delta := signed op (quantity data) in
      let quantity' := (stock_quantity item + delta)%Q in
      if negative delta && negative quantity'
      then Throw insufficient_stock
      else Return (tt, mkTables (billingItems t)
                         (<[key := mkStockItem quantity' (stock_price item)
                                     (stock_currency item)]>
                            (stockItems t)))
  end.

Definition create (billingItemData : CreateBillingItemDto) (deductFromStock : bool)
  : M Tables BillingItem :=
  try_catch
    (newBillingItem <-
       in_tx "billing_item" (on_items (billingItemModel_create billingItemData)) ;;
     if negb deductFromStock
     then ret newBillingItem
     else
       in_tx "stock_item" (updateQuantity billingItemData SUBTRACT) ;;
       ret newBillingItem)
    (fun error => console_error "Error creando items de factura" ;; throw error).

(** [{ ...billingItemData, stockId }] *)
Definition with_stockId (data : CreateBillingItemDto) (stock : string)
  : CreateBillingItemDto :=
  mkBillingItem (productVariantId data) stock (name data) (quantity data)
    (totalPrice data).

Definition cancel (billingItemData : CreateBillingItemDto) (stock : string)
  : M Tables unit :=
  try_catch
    (in_tx "stock_item" (updateQuantity (with_stockId billingItemData stock) ADD))
    (fun error => console_error "Error cancelando items de factura" ;; throw error).

End Service.
End BillingItemService.

(** ** BillingItemService.getMonthlySales *)

Module MonthlySales.
Local Open Scope Q_scope.

(** SQL numeric expressions: [None] is NULL, which every operator
    propagates. *)
Definition sql_op (f : Q -> Q -> Q) (x y : option Q) : option Q :=
  match x, y with Some a, Some b => Some (f a b) | _, _ => None end.

(** [NULLIF(x, 0)] *)
Definition nullif_zero (x : option Q) : option Q :=
  match x with Some a => if Qeq_bool a 0 then None else Some a | None => None end.

(** [SUM(...)]: NULL inputs are skipped; the sum of no input is NULL. *)
Fixpoint sql_sum (xs : list (option Q)) : option Q :=
  match xs with
  | [] => None
  | x :: rest =>
      match x, sql_sum rest with
      | Some a, Some b => Some (a + b)
      | Some a, None => Some a
      | None, s => s
      end
  end.

(** [Number(totalSales)]: [Number(null)] is 0. *)
Definition Number (x : option Q) : Q :=
  match x with Some a => a | None => 0 end.

(** The states of a billing; the query keeps [BillingStatus.PAID]. *)
Inductive BillingStatus := PENDING | PAID | CANCELED.

Definition is_paid (s : BillingStatus) : bool :=
  match s with PAID => true | _ => false end.

(** A billing item joined with its product variant. [createdMonth] is
    [DATE_PART('month', createdDate)], [variantDeleted] tells whether the
    variant's [deletedDate] is set. *)
Record BillingItem := mkItem {
  totalPrice : option Q;
  currency : string;
  createdMonth : Z;
  variantDeleted : bool }.

Record Billing := mkBilling {
  discountType : option string;
  discount : option Q;
  subtotal : option Q;
  shipping : option Q;
  status : BillingStatus;
  createdDate : Z;
  billingItems : list BillingItem }.

(** ["discountType" = 'PERCENTAGE']: true only for a non-null column with
    that value. *)
Definition is_type (discountType : option string) (name : string) : bool :=
  match discountType with Some t => String.eqb t name | None => false end.

(** The CASE expression under the SUM. *)
Definition discounted_price (b : Billing) (it : BillingItem) : option Q :=
  if is_type (discountType b) "PERCENTAGE"
  then sql_op Qmult (totalPrice it)
         (sql_op Qminus (Some 1) (sql_op Qdiv (discount b) (Some 100)))
  else if is_type (discountType b) "FIXED"
  then sql_op Qmult (totalPrice it)
         (sql_op Qminus (Some 1) (sql_op Qdiv (discount b) (nullif_zero (subtotal b))))
  else totalPrice it.

(** Items the inner join on a live product variant keeps. *)
Definition joined_items (b : Billing) : list BillingItem :=
  List.filter (fun it => negb (variantDeleted it)) (billingItems b).

Record RawSale := mkRaw {
  month : Z;
  raw_currency : string;
  totalSales : option Q }.

(** An entry of [formattedSales]: a JavaScript object, as the list of its
    own properties in the order they were set. The month and the totals of
    the currencies are properties of the same object. *)
Definition MonthData : Type := list (string * Q).

Record MonthlySalesData := mkSales {
  monthName : option string;
  COP : Q;
  USD : Q }.

Section Query.
Variables (startOfYear endOfYear : Z) (monthNames : list string).

(** [where: { createdDate: { [Op.between]: [startOfYear, endOfYear] },
    status: BillingStatus.PAID }] *)
Definition selected (b : Billing) : bool :=
  (startOfYear <=? createdDate b)%Z && (createdDate b <=? endOfYear)%Z
  && is_paid (status b).

(** The joined rows of the query, one per billing item. *)
Definition rows (billings : list Billing) : list (Billing * BillingItem) :=
  flat_map (fun b => if selected b then map (pair b) (joined_items b) else []) billings.

Definition in_group (m : Z) (c : string) (r : Billing * BillingItem) : bool :=
  (createdMonth r.2 =? m)%Z && String.eqb (currency r.2) c.

(** [SUM(CASE ...)] of the group (month, currency). *)
Definition group_total (rs : list (Billing * BillingItem)) (m : Z) (c : string)
  : option Q :=
  sql_sum (map (fun r => discounted_price r.1 r.2) (List.filter (in_group m c) rs)).

Fixpoint dedup (xs : list string) : list string :=
  match xs with
  | [] => []
  | x :: rest => x :: List.filter (fun y => negb (String.eqb x y)) (dedup rest)
  end.

(** The currencies that have a group in month [m]. *)
Definition currencies_of (rs : list (Billing * BillingItem)) (m : Z) : list string :=
  dedup (map (fun r => currency r.2)
           (List.filter (fun r => (createdMonth r.2 =? m)%Z) rs)).

(** GROUP BY month, currency ORDER BY month ASC; [DATE_PART('month', _)]
    ranges over 1..12. *)
Definition rawSales (billings : list Billing) : list RawSale :=
  let rs := rows billings in
  flat_map (fun m => map (fun c => mkRaw m c (group_total rs m c)) (currencies_of rs m))
    (map Z.of_nat (seq 1 12)).

(** Setting an own property of an object. *)
Fixpoint set_value (c : string) (v : Q) (values : list (string * Q)) : list (string * Q) :=
  match values with
  | [] => [(c, v)]
  | (c', v') :: rest =>
      if String.eqb c' c then (c, v) :: rest else (c', v') :: set_value c v rest
  end.

(** [monthData[currency] = Number(totalSales)]: whatever the key, [month]
    included, the property is set, except that the setter of
    [Object.prototype.__proto__] ignores a number. *)
Definition assign (key : string) (v : Q) (o : MonthData) : MonthData :=
  if String.eqb key "__proto__" then o else set_value key v o.

(** Reading a property; [None] is undefined. *)
Fixpoint get_value (c : string) (values : list (string * Q)) : option Q :=
  match values with
  | [] => None
  | (c', v) :: rest => if String.eqb c' c then Some v else get_value c rest
  end.

(** [entry.month === month] *)
Definition is_month (m : Z) (entry : MonthData) : bool :=
  match get_value "month" entry with
  | Some q => Qeq_bool q (inject_Z m)
  | None => false
  end.

(** One step of the [reduce]: find the entry of the month or push a new
    one, then set the currency's value in it. *)
Fixpoint add_sale (item : RawSale) (acc : list MonthData) : list MonthData :=
  match acc with
  | [] =>
      [assign (raw_currency item) (Number (totalSales item))
         [("month", inject_Z (month item))]]
  | entry :: rest =>
      if is_month (month item) entry
      then assign (raw_currency item) (Number (totalSales item)) entry :: rest
      else entry :: add_sale item rest
  end.

Definition formattedSales (sales : list RawSale) : list MonthData :=
  fold_left (fun acc item => add_sale item acc) sales [].

(** [item.COP ?? 0] *)
Definition value_or_zero (x : option Q) : Q :=
  match x with Some v => v | None => 0 end.

(** An array index: a whole number that is not negative. *)
Definition index_of (q : Q) : option nat :=
  let r := Qred q in
  if Pos.eqb (Qden r) 1 && (0 <=? Qnum r)%Z then Some (Z.to_nat (Qnum r)) else None.

(** [monthNames[item.month - 1]] *)
Definition month_name (item : MonthData) : option string :=
  match get_value "month" item with
  | Some q =>
      match index_of (q - 1) with
      | Some i => monthNames !! i
      | None => None
      end
  | None => None
  end.

Definition getMonthlySales (billings : list Billing) : list MonthlySalesData :=
  map (fun item =>
         {| monthName := month_name item;
            COP := value_or_zero (get_value "COP" item);
            USD := value_or_zero (get_value "USD" item) |})
    (formattedSales (rawSales billings)).

End Query.

(** What one document adds to the sum of its group: the SUM over its
    joined items. *)
Definition document_sales (b : Billing) : option Q :=
  sql_sum (map (discounted_price b) (joined_items b)).

(** The same, as the code computes it: the divisor of a FIXED discount is
    the stored subtotal, and a zero subtotal makes every addend NULL. *)
Definition code_discounted (base subtotal : Q) (discountType : option string)
  (discount : Q) : Q :=
  if is_type discountType "PERCENTAGE" then base * (1 - discount / 100)
  else if is_type discountType "FIXED"
  then if Qeq_bool subtotal 0 then 0 else base * (1 - discount / subtotal)
  else base.

(** [base]: the sum of the line-item totals. *)
Definition base (b : Billing) : Q :=
  fold_right (fun it acc => Number (totalPrice it) + acc) 0 (joined_items b).

(** The total rule of the specification (section 4.3), in its own words. *)
Definition spec_discounted (base : Q) (discountType : option string) (discount : Q) : Q :=
  if is_type discountType "PERCENTAGE" then base * (1 - discount / 100)
  else if is_type discountType "FIXED"
  then if Qeq_bool base 0 then base else base * (1 - discount / base)
  else base.

Definition spec_total (base : Q) (discountType : option string) (discount shipping : Q) : Q :=
  spec_discounted base discountType discount + shipping.

End MonthlySales.

(** ** HTTP handlers: the router's health check and ProductCategoryController *)

Module Http.

(** What a handler did with the request: sent a response, passed an error
    to [next], or neither. *)
Inductive Reaction :=
| Sent (status : Z) (body : string)
| Next (error : Error)
| NoResponse.

(** [router.get('/api/v1/ping', ...)]; [authenticate] is the result of
    [sequelize.authenticate()]. *)
Definition ping {T} (authenticate : Outcome unit) : M T Reaction :=
  try_catch
    (query (fun _ => authenticate) ;;
     ret (Sent 200 "{apiSays: 'Server status is OK!', PostgreSays: 'Database connection is OK!'}"))
    (fun error => console_error (message error) ;; ret NoResponse).

(** [ProductCategoryController.create]; [service_create] is
    [productCategoryService.create({ name, requestedBy })]. *)
Definition ProductCategoryController_create {T} (service_create : M T string)
  : M T Reaction :=
  try_catch
    (newProductCategory <- service_create ;;
     ret (Sent 201 newProductCategory))
    (fun error => ret (Next error)).

End Http.

(** ** The catch blocks of the service methods *)

Module Catalogue.

(** The shapes of [catch (error) { ... }] in the services. [log] is the
    fixed text given to [console.error]; [None] stands for
    [console.error(error)]. *)
Inductive CatchBlock :=
| LogRethrow (log : option string)
| RollbackLogRethrow (log : option string)
| RollbackLogTranslateRethrow (log : option string) (duplicate_message : string)
| LogReturn (status : Z) (msg : string).

Definition log_line (log : option string) (e : Error) : string :=
  match log with Some s => s | None => message e end.

(** [error.message = duplicate_message] when the error is a unique
    violation. *)
Definition translate (duplicate_message : string) (e : Error) : Error :=
  if is_unique_violation e then mkError duplicate_message (parent_code e) else e.

(** Running a catch block; [reply] builds the [{ status, message }] result. *)
Definition run_catch {T R} (reply : Z -> string -> R) (c : CatchBlock) (e : Error)
  : M T R :=
  match c with
  | LogRethrow log => console_error (log_line log e) ;; throw e
  | RollbackLogRethrow log => rollback ;; console_error (log_line log e) ;; throw e
  | RollbackLogTranslateRethrow log dup =>
      rollback ;; console_error (log_line log e) ;; throw (translate dup e)
  | LogReturn status msg => console_error (log_line None e) ;; ret (reply status msg)
  end.

Inductive ServiceOp :=
| City_search | City_getById
| User_getAll | User_getRoles | User_register | User_update | User_delete
| User_setPermissions | User_getAssignablePermissions | User_getRoleName
| ProductVariant_getAll | ProductVariant_create | ProductVariant_update
| ProductVariant_delete | ProductVariant_searchProductVariantStockInfo
| ProductVariant_count
| BillingItem_create | BillingItem_cancel | BillingItem_getMonthlySales
| BillingItem_getTopSalesProducts
| BillingItem_getGroupByCurrencyAndProductCategoryGroup
| Quote_getAll | Quote_getOne | Quote_create | Quote_update | Quote_delete.

(** The catch block of each service method, as written in the source. *)
Definition catch_block (op : ServiceOp) : CatchBlock :=
  match op with
  | City_search | City_getById => LogRethrow None
  | User_getAll => LogRethrow (Some "ServiceError obteniendo usuarios:")
  | User_getRoles => LogRethrow None
  | User_register =>
      RollbackLogTranslateRethrow (Some "***************** Error creando user: ")
        "Ya existe un usuario con este email o número de documento"
  | User_update =>
      RollbackLogTranslateRethrow (Some "***************** Error editando user: ")
        "Ya existe un usuario con este número de documento"
  | User_delete => RollbackLogRethrow None
  | User_setPermissions => LogReturn 500 "Error asignando permisos de usuario"
  | User_getAssignablePermissions | User_getRoleName => LogRethrow None
  | ProductVariant_getAll =>
      LogRethrow (Some "ServiceError obteniendo presentaciones de productos: ")
  | ProductVariant_create =>
      LogRethrow (Some "ServiceError creando presentación de producto: ")
  | ProductVariant_update =>
      LogRethrow (Some "ServiceError actualizando presentación de producto: ")
  | ProductVariant_delete =>
      LogRethrow (Some "ServiceError eliminando presentación del producto: ")
  | ProductVariant_searchProductVariantStockInfo => LogRethrow None
  | ProductVariant_count =>
      LogRethrow (Some "ServiceError en el conteo de presentaciones del producto: ")
  | BillingItem_create => LogRethrow (Some "Error creando items de factura")
  | BillingItem_cancel => LogRethrow (Some "Error cancelando items de factura")
  | BillingItem_getMonthlySales =>
      LogRethrow (Some "ServiceError obteniendo ventas por mes: ")
  | BillingItem_getTopSalesProducts
  | BillingItem_getGroupByCurrencyAndProductCategoryGroup => LogRethrow None
  | Quote_getAll => LogRethrow (Some "Error obteniendo cotizaciones")
  | Quote_getOne => LogRethrow (Some "Error obteniendo cotización")
  | Quote_create => RollbackLogRethrow (Some "Error creando cotización")
  | Quote_update => RollbackLogRethrow (Some "Error actualizando cotización")
  | Quote_delete => LogRethrow (Some "Error eliminando cotización")
  end.

(** [try { body } catch (error) { ... }] of a service method. *)
Definition service {T R} (reply : Z -> string -> R) (op : ServiceOp) (body : M T R)
  : M T R :=
  try_catch body (run_catch reply (catch_block op)).

End Catalogue.

(** ** QuoteService.delete *)

Module QuoteDeletion.
Import QuoteService.

(** What the deletion of a quote depends on besides the quote table: the
    database's verdict on the DELETE, and what the schema does to the
    quote's items when the row goes (its ON DELETE rule). *)
Class Schema `{Collaborators} := {
  destroy_error : string -> gmap string Quote -> option Error;
  on_delete_items : string -> ItemTable -> ItemTable }.

Section Service.
Context `{Schema}.

(** [quoteModel.destroy({ where: { id } })]: the number of rows deleted;
    [id] is the primary key, so at most one. *)
Definition destroy (k : string) (t : Tables) : Outcome (Z * Tables) :=
  match destroy_error k (quotes t) with
  | Some e => Throw e
  | None =>
      match quotes t !! k with
      | Some _ =>
          Return (1%Z, mkTables (customers t) (base.delete k (quotes t))
                         (on_delete_items k (quoteItems t)))
      | None => Return (0%Z, t)
      end
  end.

Definition delete (id : string) : M Tables Response :=
  try_catch
    (result <- autocommit "quote" (destroy id) ;;
     if (result =? 1)%Z
     then ret (Message 200 "Cotización eliminada con éxito")
     else ret (Message 404 "Cotización no encontrada"))
    (fun error => console_error "Error eliminando cotización" ;; throw error).

End Service.
End QuoteDeletion.

(** ** UserService.update, delete and getAssignablePermissions *)

Module UserMaintenance.
Import UserService.

Record UpdateUserDto := mkUpdateUser {
  upd_personId : string;
  upd_fullName : string;
  upd_dni : string;
  upd_roleId : string;
  upd_shopId : string;
  upd_email : string;
  upd_password : string }.

Record Permission := mkPermission { permission_id : string; permission_name : string }.

Inductive Response :=
| Message (status : Z) (msg : string)
| Updated (status : Z) (updatedUser : UserRegistered) (msg : string)
| Assignable (status : Z) (assignablePermissions : list Permission).

(** The statements of the person, user and permission models these
    methods issue; a found instance is represented by its id. *)
Class Models `{Collaborators} := {
  (** [personModel.findByPk(personId)] *)
  personModel_findByPk : string -> Tables -> Outcome (option string);
  (** [userModel.findOne({ where: { personId } })] *)
  userModel_findOne : string -> Tables -> Outcome (option string);
  (** [personToUpdate.update({ fullName, dni }, { transaction })] *)
  person_update : string -> string -> string -> Tables -> Outcome (unit * Tables);
  (** [userToUpdate.update({ roleId, shopId, email, password },
      { transaction })] *)
  user_update : string -> UpdateUserDto -> Tables -> Outcome (unit * Tables);
  (** [personModel.destroy({ where: { id: personId }, transaction })] *)
  personModel_destroy : string -> Tables -> Outcome (Z * Tables);
  (** [userModel.destroy({ where: { personId }, transaction })] *)
  userModel_destroy : string -> Tables -> Outcome (Z * Tables);
  (** [userModel.findByPk(userId)], read for its [roleId] *)
  user_roleId : string -> Tables -> Outcome (option string);
  (** the rows of the permission table *)
  permission_rows : Tables -> Outcome (list Permission) }.

(** ASCII lower case, for the case-insensitive [ILIKE]. *)
Definition lower_ascii (c : Ascii.ascii) : Ascii.ascii :=
  let n := Ascii.nat_of_ascii c in
  if Nat.leb 65 n && Nat.leb n 90 then Ascii.ascii_of_nat (n + 32) else c.

Fixpoint lower (s : string) : string :=
  match s with
  | EmptyString => EmptyString
  | String c rest => String (lower_ascii c) (lower rest)
  end.

Fixpoint contains (word s : string) : bool :=
  if String.prefix word s then true
  else match s with
       | EmptyString => false
       | String _ rest => contains word rest
       end.

(** [name ILIKE '%word%'], for a word without wildcard characters. *)
Definition ilike (word name : string) : bool :=
  contains (lower word) (lower name).

(** [ITEMS_PERMISSIONS_BY_ROLE.cajero] *)
Definition cajero_items : list string := ["product"; "customer"; "direct-enter"].

(** The [where] of the permission query: the name matches one of the
    conditions ([ILIKE '%item%'] and [NOT ILIKE '%search%']) and is not
    'customer-delete'. *)
Definition assignable (name : string) : bool :=
  existsb (fun item => ilike item name && negb (ilike "search" name)) cajero_items
  && negb (String.eqb name "customer-delete").

Section Service.
Context `{Models}.

Definition duplicate_dni (error : Error) : Error :=
  if is_unique_violation error
  then mkError "Ya existe un usuario con este número de documento" (parent_code error)
  else error.

Definition update_body (userData : UpdateUserDto) : M Tables Response :=
  personToUpdate <- query (personModel_findByPk (upd_personId userData)) ;;
  userToUpdate <- query (userModel_findOne (upd_personId userData)) ;;
  match userToUpdate, personToUpdate with
  | Some user_id, Some person_id =>
      in_tx "person"
        (person_update person_id (upd_fullName userData) (upd_dni userData)) ;;
      in_tx "user" (user_update user_id userData) ;;
      roleName <- getRoleName (upd_roleId userData) ;;
      commit commit_error ;;
      ret (Updated 200
             {| reg_id := user_id;
                reg_email := upd_email userData;
                reg_roleId := upd_roleId userData;
                reg_shopId := upd_shopId userData;
                reg_roleName := roleName;
                reg_personId := person_id;
                reg_fullName := upd_fullName userData;
                reg_dni := upd_dni userData |}
             "Usuario actualizado con éxito")
  | _, _ => ret (Message 404 "Usuario no encontrado")
  end.

Definition update (userData : UpdateUserDto) : M Tables Response :=
  sequelize_transaction ;;
  try_catch (update_body userData)
    (fun error =>
       rollback ;;
       console_error "***************** Error editando user: " ;;
       throw (duplicate_dni error)).

Definition delete_body (personId : string) : M Tables Response :=
  in_tx "person" (personModel_destroy personId) ;;
  userDeleted <- in_tx "user" (userModel_destroy personId) ;;
  if (userDeleted =? 1)%Z
  then commit commit_error ;; ret (Message 200 "Usuario eliminado con éxito")
  else ret (Message 404 "Usuario no encontrado").

Definition delete (personId : string) : M Tables Response :=
  sequelize_transaction ;;
  try_catch (delete_body personId)
    (fun error =>
       rollback ;;
       console_error (message error) ;;
       throw error).

Definition getAssignablePermissions (userId : string) : M Tables Response :=
  try_catch
    (user <- query (user_roleId userId) ;;
     match user with
     | None => ret (Message 404 "Usuario no encontrado")
     | Some roleId =>
         roleName <- getRoleName roleId ;;
         if negb (String.eqb roleName "cajero")
         then ret (Assignable 204 [])
         else
           rows <- query (permission_rows) ;;
           ret (Assignable 200
                  (List.filter (fun p => assignable (permission_name p)) rows))
     end)
    (fun error => console_error (message error) ;; throw error).

End Service.
End UserMaintenance.

(** ** The year of the monthly report *)

Module ReportYear.

Definition msPerDay : Z := 86400000.

(** ECMAScript's DayFromYear: the day number of 1 January of year [y]. *)
Definition DayFromYear (y : Z) : Z :=
  (365 * (y - 1970) + (y - 1969) / 4 - (y - 1901) / 100 + (y - 1601) / 400)%Z.

(** [new Date(year, 0, date)]: the local time value, in milliseconds, of
    00:00 on day [date] of January; MakeDay adds [date - 1] to the day of
    the first of the month, so day 0 is the day before 1 January. *)
Definition january (year date : Z) : Z :=
  ((DayFromYear year + (date - 1)) * msPerDay)%Z.

(** [new Date(currentYear, 0, 1)] *)
Definition startOfYear (currentYear : Z) : Z := january currentYear 1.

(** [new Date(currentYear + 1, 0, 0)] *)
Definition endOfYear (currentYear : Z) : Z := january (currentYear + 1) 0.

End ReportYear.

(** ** BillingItemService.getTopSalesProducts *)

Module TopSales.

(** A JavaScript number: a finite value, NaN or an infinity. *)
Inductive JsNumber := Finite (q : Q) | NaN | PlusInfinity | MinusInfinity.

(** ToIntegerOrInfinity on a finite number: truncation towards zero. *)
Definition truncate (q : Q) : Z := Z.quot (Qnum q) (Z.pos (Qden q)).

(** MakeFullYear: a year from 0 to 99 stands for 1900 to 1999. *)
Definition MakeFullYear (y : Z) : Z :=
  if (0 <=? y)%Z && (y <=? 99)%Z then (1900 + y)%Z else y.

Definition isLeapYear (y : Z) : bool :=
  (y mod 4 =? 0)%Z && (negb (y mod 100 =? 0)%Z || (y mod 400 =? 0)%Z).

(** The days from 1 January to the first of month [m] (0 to 11). *)
Definition DayWithinYear (leap : bool) (m : Z) : Z :=
  (nth (Z.to_nat m) [0; 31; 59; 90; 120; 151; 181; 212; 243; 273; 304; 334] 0
   + (if leap && (2 <=? m)%Z then 1 else 0))%Z.

(** TimeClip: a time value more than 8.64e15 ms from the epoch is no
    date. *)
Definition maxTime : Z := 8640000000000000.

(** A row of the grouped query, and the row after [formatResults]. *)
Record GroupRow := mkGroupRow {
  raw_groupId : string;
  raw_groupName : string;
  raw_totalQuantity : string }.

Record TopRow := mkTopRow {
  productCategoryGroupId : string;
  productCategoryGroupName : string;
  totalQuantity : JsNumber }.

(** [top_year] is [None] when the year is NaN, [top_month] when the month
    name is undefined. *)
Record TopSalesProducts := mkTop {
  top_month : option string;
  top_year : option Z;
  topCOP : list TopRow;
  topUSD : list TopRow }.

Section Service.
Context {T : Type}.
Variables (monthNames : list string) (parseFloat : string -> JsNumber).
(** The offset of the server's time zone from UTC, in milliseconds, taken
    as fixed. *)
Variable LocalTZA : Z.
(** [currentMonth + offset], the sum of two doubles. *)
Variable plus : Z -> JsNumber -> JsNumber.
(** [this.getGroupByCurrencyAndProductCategoryGroup(currency, targetYear,
    targetMonth)]; [None] is NaN. *)
Variable getGroup : string -> option Z -> option Z -> M T (list GroupRow).

(** [new Date(currentYear, month, 1)] read back with [getFullYear()] and
    [getMonth()]: MakeDay truncates the month and carries what is outside
    0..11 into the year; a month that is not finite, or a day outside the
    range of time values, gives the invalid Date, whose year and month are
    NaN ([None]). *)
Definition targetDate (currentYear : Z) (month : JsNumber) : option (Z * Z) :=
  match month with
  | Finite q =>
      let m := truncate q in
      let ym := (MakeFullYear currentYear + m / 12)%Z in
      let mn := (m mod 12)%Z in
      let day := (ReportYear.DayFromYear ym + DayWithinYear (isLeapYear ym) mn)%Z in
      if (Z.abs (day * ReportYear.msPerDay - LocalTZA) <=? maxTime)%Z
      then Some (ym, mn)
      else None
  | _ => None
  end.

Definition formatResults (data : list GroupRow) : list TopRow :=
  map (fun item =>
         {| productCategoryGroupId := raw_groupId item;
            productCategoryGroupName := raw_groupName item;
            totalQuantity := parseFloat (raw_totalQuantity item) |})
    data.

(** [monthNames[targetMonth]] *)
Definition name_of (targetMonth : option Z) : option string :=
  match targetMonth with
  | Some m => monthNames !! Z.to_nat m
  | None => None
  end.

(** [currentYear] and [currentMonth] are those of [new Date()]; [offset]
    is [None] when the argument is left out ([offset: number = 0]). *)
Definition getTopSalesProducts (currentYear currentMonth : Z)
  (offset : option JsNumber) : M T TopSalesProducts :=
  try_catch
    (let offset := match offset with Some n => n | None => Finite 0 end in
     let target := targetDate currentYear (plus currentMonth offset) in
     let targetYear := option_map fst target in
     let targetMonth := option_map snd target in
     topCOP <- getGroup "COP" targetYear targetMonth ;;
     topUSD <- getGroup "USD" targetYear targetMonth ;;
     ret {| top_month := name_of targetMonth;
            top_year := targetYear;
            topCOP := formatResults topCOP;
            topUSD := formatResults topUSD |})
    (fun error => console_error (message error) ;; throw error).

End Service.
End TopSales.

(** ** Concrete collaborators, used to run the services on examples *)

Module Scenario.
Import QuoteService.

Definition belongs_to (k : string) (it : CreateQuoteItemDto) : bool :=
  match quoteId it with val q => String.eqb q k | _ => false end.

(** Customers are kept as the list of their ids; items as the list of rows
    inserted ([updateItems] replaces the rows of the quote); the only shop
    has the slug "manuarte". [insert] is the database's answer to the INSERT
    of the quote, [refusal] its answer to the COMMIT. *)
Definition quote_db (insert : Outcome string) (refusal : option Error)
  : QuoteService.Collaborators :=
  {| CustomerTable := list string;
     ItemTable := list CreateQuoteItemDto;
     CustomerInfo := string;
     customerService_create := fun _ tbl => Return ("customer-1", tbl ++ ["customer-1"]);
     customerService_update := fun data tbl =>
       match personId data with
       | val p => Return (if existsb (String.eqb p) tbl then Some p else None, tbl)
       | _ => Return (None, tbl)
       end;
     quoteItemService_create := fun item tbl => Return (tt, tbl ++ [item]);
     quoteItemService_updateItems := fun its k tbl =>
       Return (tt, List.filter (fun it => negb (belongs_to k it)) tbl
                   ++ map (item_of_quote k) its);
     ShopModel_findOne := fun slug =>
       match slug with
       | val "manuarte" => Return (Some (mkShop "shop-1" COP))
       | _ => Return None
       end;
     generateSerialNumber := fun _ _ => Return "COT-0001";
     quote_insert := fun _ _ => insert;
     quote_update := fun _ _ _ => None;
     commit_error := fun _ _ _ => refusal;
     default_discountType := None;
     default_discount := Some 0%Q;
     default_shipping := Some 0%Q;
     default_status := Some PENDING |}.

(** A database that accepts every COMMIT. *)
Definition quote_env (insert : Outcome string) : QuoteService.Collaborators :=
  quote_db insert None.

Definition env : QuoteService.Collaborators := quote_env (Return "quote-1").

(** The database refuses the COMMIT (SQLSTATE 40001, serialization
    failure). *)
Definition serialization_failure : Error :=
  mkError "could not serialize access due to concurrent update" (Some "40001").

Definition env_refusing : QuoteService.Collaborators :=
  quote_db (Return "quote-1") (Some serialization_failure).

Definition unique_violation : Error :=
  mkError "duplicate key value violates unique constraint" (Some "23505").

Definition env_duplicate : QuoteService.Collaborators :=
  quote_env (Throw unique_violation).

(** An empty database with no transaction open. *)
Definition world0 (insert : Outcome string) : World (@Tables (quote_env insert)) :=
  mkWorld (@mkTables (quote_env insert) [] ∅ []) None [].

Definition empty_world : World (@Tables env) := world0 (Return "quote-1").

(** The same over the database that refuses the COMMIT. *)
Definition refusing_world : World (@Tables env_refusing) :=
  mkWorld (@mkTables env_refusing [] ∅ []) None [].

(** The same with one customer on file. *)
Definition known_customer_world : World (@Tables env) :=
  mkWorld (@mkTables env ["customer-1"] ∅ []) None [].

Definition item1 : CreateQuoteItemDto :=
  mkItem undefined (val "variant-A") "A" 2 100 200 undefined.

Definition no_customer : CustomerDto := mkCustomerDto undefined undefined undefined.
Definition new_customer : CustomerDto := mkCustomerDto undefined (val "Ana") undefined.
Definition person_only : CustomerDto := mkCustomerDto undefined undefined (val "customer-1").

(** A customer on file, named by its customerId, with its name and person. *)
Definition known_customer : CustomerDto :=
  mkCustomerDto (val "customer-1") (val "Ana") (val "customer-1").

(** A request that clears the customer, and one that names another. *)
Definition cleared_customer : CustomerDto := mkCustomerDto null undefined undefined.
Definition other_customer : CustomerDto :=
  mkCustomerDto (val "customer-2") undefined undefined.

Definition quote_dto (slug : string) (its : list CreateQuoteItemDto) (disc : Q)
  : CreateQuoteDto :=
  mkQuoteDto (val slug) undefined (val its) (val PENDING) (val "PERCENTAGE")
    (val disc) (val 5%Q) (val "user-1") undefined.

End Scenario.

Module UpdateScenario.
Import QuoteService Scenario.

(** A stored quote without discount, as "quote-1". *)
Definition stored_quote : Quote :=
  {| serialNumber := Some "COT-0001";
     customerId := None;
     shopId := Some "shop-1";
     status := Some PENDING;
     currency := Some COP;
     discountType := None;
     discount := Some 0%Q;
     shipping := Some 0%Q;
     createdBy := Some "user-1";
     requestedBy := None |}.

Definition world1 : World (@Tables env) :=
  mkWorld (@mkTables env ["customer-1"] {["quote-1" := stored_quote]} [item1]) None [].

(** The stored quote, owned by the customer on file. *)
Definition owned_quote : Quote :=
  {| serialNumber := Some "COT-0001";
     customerId := Some "customer-1";
     shopId := Some "shop-1";
     status := Some PENDING;
     currency := Some COP;
     discountType := None;
     discount := Some 0%Q;
     shipping := Some 0%Q;
     createdBy := Some "user-1";
     requestedBy := None |}.

Definition world2 : World (@Tables env) :=
  mkWorld (@mkTables env ["customer-1"] {["quote-1" := owned_quote]} [item1]) None [].

(** The same over the database that refuses the COMMIT. *)
Definition refusing_world1 : World (@Tables env_refusing) :=
  mkWorld (@mkTables env_refusing ["customer-1"] {["quote-1" := stored_quote]} [item1])
    None [].

Definition update_dto (k : string) (its : list CreateQuoteItemDto) (disc : Q)
  : UpdateQuoteDto :=
  mkUpdateDto (quote_dto "manuarte" its disc) k.

End UpdateScenario.

Module UserScenario.
Import UserService.

(** [insert_user] is the database's answer to the INSERT of the user,
    [role] the name of the only role (if any), [refusal] the database's
    answer to the COMMIT. *)
Definition user_db (insert_user : Outcome (option string)) (role : option string)
  (refusal : option Error) : UserService.Collaborators :=
  {| Tables := list string;
     personModel_create := fun _ _ tbl => Return (Some "person-1", tbl ++ ["person-1"]);
     userModel_create := fun _ _ tbl =>
       match insert_user with
       | Return user => Return (user, tbl ++ ["user-1"])
       | Throw e => Throw e
       end;
     userModel_findByPk := fun k tbl =>
       Return (if existsb (String.eqb k) tbl then Some k else None);
     roleModel_findByPk := fun _ _ => Return role;
     setExtraPermissions := fun _ _ tbl => (Return tt, tbl);
     commit_error := fun _ => refusal |}.

(** Every user is a cashier, and every COMMIT is accepted. *)
Definition user_env (insert_user : Outcome (option string)) : UserService.Collaborators :=
  user_db insert_user (Some "cajero") None.

Definition duplicate_email : Error :=
  mkError "duplicate key value violates unique constraint" (Some "23505").

Definition connection_lost : Error :=
  mkError "Connection terminated unexpectedly" None.

Definition user_dto : CreateUserDto :=
  mkUserDto "Ana" "1020" "role-1" "shop-1" "ana@example.com" "secret".

Definition user_world (insert_user : Outcome (option string))
  : World (@Tables (user_env insert_user)) :=
  mkWorld [] None [].

End UserScenario.

Module BillingScenario.
Import BillingItemService.

Definition billing_env : BillingItemService.Collaborators :=
  {| ItemTable := list CreateBillingItemDto;
     BillingItem := CreateBillingItemDto;
     billingItemModel_create := fun data tbl => Return (data, tbl ++ [data]);
     stock_item_not_found := plain_error "Item de stock no encontrado";
     insufficient_stock := plain_error "Stock insuficiente" |}.

Definition sold : CreateBillingItemDto :=
  mkBillingItem "variant-A" "stock-1" "A" 2 200.

Definition stock : @Tables billing_env :=
  @mkTables billing_env []
    {[ ("variant-A", "stock-1") := mkStockItem 10 100 "COP" ]}.

(** A billing transaction is open and has written nothing yet. *)
Definition billing_world : World (@Tables billing_env) :=
  mkWorld stock (Some stock) [EvBegin].

End BillingScenario.

Module SalesScenario.
Import MonthlySales.

Definition monthNames : list string :=
  ["Enero"; "Febrero"; "Marzo"; "Abril"; "Mayo"; "Junio"; "Julio"; "Agosto";
   "Septiembre"; "Octubre"; "Noviembre"; "Diciembre"].

(** The billing of the specification's scenario: one item of 2 x 100,
    10 percent discount, shipping 5; paid in March. *)
Definition billing1 : Billing :=
  mkBilling (Some "PERCENTAGE") (Some 10%Q) (Some 200%Q) (Some 5%Q) PAID 50
    [mkItem (Some 200%Q) "COP" 3 false].

(** Two items of 100, a FIXED discount of 50 on the subtotal of 200, no
    shipping; the product variant of the second item has been deleted
    since. *)
Definition billing2 : Billing :=
  mkBilling (Some "FIXED") (Some 50%Q) (Some 200%Q) (Some 0%Q) PAID 50
    [mkItem (Some 100%Q) "COP" 3 false; mkItem (Some 100%Q) "COP" 3 true].

End SalesScenario.

Module DeletionScenario.
Import QuoteService QuoteDeletion Scenario.

Definition drop_items (k : string) (tbl : list CreateQuoteItemDto)
  : list CreateQuoteItemDto :=
  List.filter (fun it => negb (belongs_to k it)) tbl.

(** The DELETE always passes, and the items of the quote go with the row. *)
Definition schema : @QuoteDeletion.Schema env :=
  @QuoteDeletion.Build_Schema env (fun _ _ => None) drop_items.

(** A request without discount and without an item list. *)
Definition no_item_list : CreateQuoteDto :=
  mkQuoteDto (val "manuarte") undefined undefined (val PENDING) undefined
    undefined undefined (val "user-1") undefined.

(** A person the customer service does not know. *)
Definition ghost : CustomerDto := mkCustomerDto undefined undefined (val "ghost").

End DeletionScenario.

Module MaintenanceScenario.
Import UserService UserMaintenance UserScenario.

Definition registered : UserService.Collaborators := user_env (Return (Some "user-1")).

(** The same collaborators with an empty role table. *)
Definition no_role : UserService.Collaborators :=
  user_db (Return (Some "user-1")) None None.

(** The same collaborators where every user is an administrator. *)
Definition administrators : UserService.Collaborators :=
  user_db (Return (Some "user-1")) (Some "admin") None.

(** The same collaborators over a database that refuses the COMMIT. *)
Definition refusing : UserService.Collaborators :=
  user_db (Return (Some "user-1")) (Some "cajero")
    (Some Scenario.serialization_failure).

Definition permissions : list Permission :=
  [mkPermission "1" "product-create"; mkPermission "2" "product-search";
   mkPermission "3" "customer-delete"; mkPermission "4" "Customer-Update";
   mkPermission "5" "billing-create"].

Definition without (k : string) (tbl : list string) : list string :=
  List.filter (fun x => negb (String.eqb k x)) tbl.

(** The tables hold the ids of the rows; the user of person "person-1" is
    "user-1". *)
Definition find (k : string) (tbl : list string) : Outcome (option string) :=
  Return (if existsb (String.eqb k) tbl then Some k else None).

Definition user_of (k : string) (tbl : list string) : option string :=
  if String.eqb k "person-1" && existsb (String.eqb "user-1") tbl
  then Some "user-1" else None.

Definition destroy_person (k : string) (tbl : list string)
  : Outcome (Z * list string) :=
  Return (if existsb (String.eqb k) tbl then 1%Z else 0%Z, without k tbl).

Definition destroy_user (k : string) (tbl : list string)
  : Outcome (Z * list string) :=
  match user_of k tbl with
  | Some user => Return (1%Z, without user tbl)
  | None => Return (0%Z, tbl)
  end.

Definition role_of (k : string) (tbl : list string) : Outcome (option string) :=
  Return (if existsb (String.eqb k) tbl then Some "role-1" else None).

(** The tables hold the ids of the rows; the user of person "person-1" is
    "user-1". *)
Definition models_of (role : option string) (refusal : option Error)
  : @UserMaintenance.Models (user_db (Return (Some "user-1")) role refusal) :=
  @UserMaintenance.Build_Models (user_db (Return (Some "user-1")) role refusal)
    find
    (fun k tbl => Return (user_of k tbl))
    (fun _ _ _ (tbl : list string) => Return (tt, tbl))
    (fun _ _ (tbl : list string) => Return (tt, tbl))
    destroy_person
    destroy_user
    role_of
    (fun _ => Return permissions).

Definition models : @UserMaintenance.Models registered := models_of (Some "cajero") None.

Definition staff_world : World (@Tables registered) :=
  mkWorld ["person-1"; "user-1"] None [].

Definition administrators_world : World (@Tables administrators) :=
  mkWorld ["person-1"; "user-1"] None [].

Definition refusing_staff_world : World (@Tables refusing) :=
  mkWorld ["person-1"; "user-1"] None [].

(** Collaborators whose INSERT of the user gives no instance. *)
Definition no_instance : UserService.Collaborators :=
  user_db (Return None) (Some "cajero") None.

Definition update_dto (person : string) : UpdateUserDto :=
  mkUpdateUser person "Ana" "1020" "role-1" "shop-1" "ana@example.com" "secret".

End MaintenanceScenario.

Module TopSalesScenario.
Import TopSales.

(** The grouped query answers with one row for COP and none for USD. *)
Definition getGroup (c : string) (y m : option Z) : M unit (list GroupRow) :=
  ret (if String.eqb c "COP" then [mkGroupRow "group-1" "Aretes" "12.5"] else []).

Definition parseFloat (s : string) : JsNumber :=
  if String.eqb s "12.5" then Finite 12.5%Q else NaN.

(** The sum of a month and an offset, for operands whose sum a double
    holds exactly. *)
Definition plus (m : Z) (n : JsNumber) : JsNumber :=
  match n with
  | Finite q => Finite (inject_Z m + q)
  | other => other
  end.

(** The server runs at UTC-5. *)
Definition LocalTZA : Z := -18000000.

Definition idle : World unit := mkWorld tt None [].

End TopSalesScenario.

Module StockScenario.
Import BillingItemService.

(** An item of a variant that has no stock row. *)
Definition unstocked : CreateBillingItemDto :=
  mkBillingItem "variant-B" "stock-1" "B" 1 50.

(** A sale of 25 units of the variant that has 10 in stock. *)
Definition oversold : CreateBillingItemDto :=
  mkBillingItem "variant-A" "stock-1" "A" 25 2500.

End StockScenario.

Module ReportScenario.
Import MonthlySales.

(** A paid billing of March with one item in euros. *)
Definition euro_billing : Billing :=
  mkBilling None (Some 0%Q) (Some 80%Q) (Some 0%Q) PAID 50
    [mkItem (Some 80%Q) "EUR" 3 false].

(** A billing of [billing1]'s content paid at noon of 31 December 2024. *)
Definition new_years_eve : Billing :=
  mkBilling (Some "PERCENTAGE") (Some 10%Q) (Some 200%Q) (Some 5%Q) PAID
    (ReportYear.january 2025 1 - 43200000)
    [mkItem (Some 200%Q) "COP" 12 false].

End ReportScenario.

(** * Predicates used in the statements *)

Section Discipline.
Context {T : Type}.

(** [m] leaves the committed tables alone and the transaction open. *)
Definition keeps_open {A} (m : M T A) : Prop :=
  forall w, is_Some (tx w) ->
    committed (m w).2 = committed w /\ is_Some (tx (m w).2).

(** When [m] throws, the committed tables are as before and the
    transaction is still open. *)
Definition fails_open {A} (m : M T A) : Prop :=
  forall w e w', is_Some (tx w) -> m w = (Throw e, w') ->
    committed w' = committed w /\ is_Some (tx w').

(** The world is the one a refused COMMIT leaves: no transaction open,
    and the refusal is the last thing that happened. *)
Definition commit_was_refused (w : World T) : Prop :=
  tx w = None /\ exists before, trace w = before ++ [EvCommitRefused].

(** When [m] throws, the committed tables are as before, and the
    transaction is still open unless the failure is a refused COMMIT. *)
Definition fails_settled {A} (m : M T A) : Prop :=
  forall w e w', is_Some (tx w) -> m w = (Throw e, w') ->
    committed w' = committed w /\ (is_Some (tx w') \/ commit_was_refused w').

(** What [rollback()] throws on a transaction that [commit()] has
    finished. *)
Definition rollback_after_commit : Error :=
  plain_error
    "Transaction cannot be rolled back because it has been finished with state: commit".

End Discipline.

Module QuoteSpec.
Import QuoteService.
Section Predicates.
Context `{QuoteService.Collaborators}.

(** How [create] resolves the customer: from the customer table [c0] it
    reaches [c1] and the document gets [cid] as its customer. *)
Definition resolved_customer (cd : CustomerDto) (c0 : CustomerTable)
  (cid : option string) (c1 : CustomerTable) : Prop :=
  if truthy (fullName cd) && negb (truthy (dto_customerId cd))
  then exists k, customerService_create cd c0 = Return (k, c1) /\ cid = Some k
  else if truthy (personId cd)
  then (exists info, customerService_update cd c0 = Return (info, c1))
       /\ cid = nullish_or_null (dto_customerId cd)
  else c1 = c0 /\ cid = nullish_or_null (dto_customerId cd).

(** A string-valued field of a request is present when it holds a string
    that is not empty, and absent when it is undefined, null or the empty
    string. *)
Definition present (x : js string) : Prop := exists s, x = val s /\ s <> "".

Definition absent (x : js string) : Prop := x = undefined \/ x = null \/ x = val "".

(** The discount type is null whenever the discount is zero; it is set
    only if the discount is positive. *)
Definition discount_invariant (q : Quote) : Prop :=
  (forall d, discount q = Some d -> (d == 0)%Q -> discountType q = None) /\
  (discountType q <> None -> exists d, discount q = Some d /\ (0 < d)%Q).

(** The outcome signals NotFound: an error of that kind is thrown, or a
    result with status 404 is returned. *)
Definition signals_NotFound (o : Outcome Response) : Prop :=
  match o with
  | Throw e => error_kind e = NotFound
  | Return r => response_status r = 404%Z
  end.

(** The customer step of [update] does not throw in the working copy [t]. *)
Definition customer_update_returns (cd : CustomerDto) (t : Tables) : Prop :=
  truthy (personId cd) = false \/
  exists info c1, customerService_update cd (customers t) = Return (info, c1).

(** The customer step of [update] finds its customer. *)
Definition customer_update_found (cd : CustomerDto) (t : Tables) : Prop :=
  truthy (personId cd) = false \/
  exists info c1, customerService_update cd (customers t) = Return (Some info, c1).

End Predicates.
End QuoteSpec.

Module QuoteItemsSpec.
Import QuoteService.
Section Predicates.
Context `{QuoteService.Collaborators}.

(** The row of an item of the request as it is to be stored for quote
    [k]: the item's variant, name, quantity and prices, no id of its own,
    and [k] as its quote. *)
Definition stored_item (k : string) (it : CreateQuoteItemDto) : CreateQuoteItemDto :=
  mkItem undefined (productVariantId it) (name it) (quantity it) (price it)
    (totalPrice it) (val k).

(** The item table after [quoteItemService.create] has been called, in
    order, on the row to be stored for each item of the list; [None] if a
    call fails. *)
Fixpoint items_after (k : string) (its : list CreateQuoteItemDto) (tbl : ItemTable)
  : option ItemTable :=
  match its with
  | [] => Some tbl
  | it :: rest =>
      match quoteItemService_create (stored_item k it) tbl with
      | Return (_, tbl') => items_after k rest tbl'
      | Throw _ => None
      end
  end.

End Predicates.
End QuoteItemsSpec.

Module SalesSpec.
Import MonthlySales.

(** The months [DATE_PART('month', _)] can give, in ascending order. *)
Definition months : list Z := map Z.of_nat (seq 1 12).

(** Some joined row falls in month [m]. *)
Definition has_sales (rs : list (Billing * BillingItem)) (m : Z) : bool :=
  existsb (fun r => (createdMonth r.2 =? m)%Z) rs.

(** The report written as a table: one line per month with sales, in
    ascending order, with the sums of the groups (month, COP) and
    (month, USD). *)
Definition monthly_table (startOfYear endOfYear : Z) (monthNames : list string)
  (billings : list Billing) : list MonthlySalesData :=
  let rs := rows startOfYear endOfYear billings in
  map (fun m =>
         {| monthName := monthNames !! Z.to_nat (m - 1);
            COP := Number (group_total rs m "COP");
            USD := Number (group_total rs m "USD") |})
    (List.filter (has_sales rs) months).

(** The entry the [reduce] builds for month [m] when no currency is named
    'month': the month, then the sum of each currency that has a group in
    that month, in the order of the rows ('__proto__' leaves none). *)
Definition month_entry (rs : list (Billing * BillingItem)) (m : Z) : MonthData :=
  ("month", inject_Z m)
  :: map (fun c => (c, Number (group_total rs m c)))
       (List.filter (fun c => negb (String.eqb c "__proto__")) (currencies_of rs m)).

End SalesSpec.

(** * Properties *)

(** ** Transaction discipline of monadic code *)

Section DisciplineLemmas.
Context {T : Type}.

Lemma keeps_open_ret {A} (a : A) : keeps_open (@ret T A a).
Proof. intros w Hw; simpl; auto. Qed.

Lemma keeps_open_throw {A} (e : Error) : keeps_open (@throw T A e).
Proof. intros w Hw; simpl; auto. Qed.

Lemma keeps_open_emit (ev : Event) : keeps_open (@emit T ev).
Proof. intros w Hw; simpl; auto. Qed.

Lemma keeps_open_pure {A} (o : Outcome A) : keeps_open (fun w : World T => (o, w)).
Proof. intros w Hw; simpl; auto. Qed.

Lemma keeps_open_query {A} (q : T -> Outcome A) : keeps_open (query q).
Proof. intros w Hw; simpl; auto. Qed.

Lemma keeps_open_read_tx {A} (q : T -> Outcome A) : keeps_open (read_tx q).
Proof. intros w [t Ht]; unfold read_tx; rewrite Ht; simpl; rewrite Ht; eauto. Qed.

Lemma keeps_open_in_tx {A} (table : string) (stmt : T -> Outcome (A * T)) :
  keeps_open (in_tx table stmt).
Proof.
  intros w [t Ht]; unfold in_tx; rewrite Ht.
  destruct (stmt t) as [[a t']|e]; simpl; rewrite ?Ht; eauto.
Qed.

Lemma keeps_open_bind {A B} (m : M T A) (k : A -> M T B) :
  keeps_open m -> (forall a, keeps_open (k a)) -> keeps_open (bind m k).
Proof.
  intros Hm Hk w Hw; unfold bind.
  destruct (Hm w Hw) as [Hc Ho].
  destruct (m w) as [[a|e] w1]; simpl in *; auto.
  destruct (Hk a w1 Ho) as [Hc' Ho']; split; congruence.
Qed.

Lemma keeps_open_for_of {A} (xs : list A) (f : A -> M T unit) :
  (forall x, keeps_open (f x)) -> keeps_open (for_of xs f).
Proof.
  intros Hf; induction xs as [|x xs IH]; simpl.
  - apply keeps_open_ret.
  - apply keeps_open_bind; auto.
Qed.

Lemma fails_open_of_keeps_open {A} (m : M T A) : keeps_open m -> fails_open m.
Proof.
  intros Hm w e w' Hw Heq; specialize (Hm w Hw); rewrite Heq in Hm; exact Hm.
Qed.

Lemma fails_open_bind {A B} (m : M T A) (k : A -> M T B) :
  keeps_open m -> (forall a, fails_open (k a)) -> fails_open (bind m k).
Proof.
  intros Hm Hk w e w' Hw; unfold bind.
  destruct (Hm w Hw) as [Hc Ho].
  destruct (m w) as [[a|e1] w1] eqn:Hmw; simpl in *.
  - intros Hka. destruct (Hk a w1 e w' Ho Hka); split; congruence.
  - intros [= <- <-]; auto.
Qed.

Lemma fails_settled_of_fails_open {A} (m : M T A) : fails_open m -> fails_settled m.
Proof.
  intros Hm w e w' Hw Heq. destruct (Hm w e w' Hw Heq); auto.
Qed.

Lemma fails_settled_bind {A B} (m : M T A) (k : A -> M T B) :
  keeps_open m -> (forall a, fails_settled (k a)) -> fails_settled (bind m k).
Proof.
  intros Hm Hk w e w' Hw; unfold bind.
  destruct (Hm w Hw) as [Hc Ho].
  destruct (m w) as [[a|e1] w1] eqn:Hmw; simpl in *.
  - intros Hka. destruct (Hk a w1 e w' Ho Hka) as [Hc' Ht]. split; [congruence|exact Ht].
  - intros [= <- <-]; auto.
Qed.

(** The closing [await transaction.commit(); return r] throws only when
    the database refuses the COMMIT, and then nothing is published. *)
Lemma fails_settled_commit_ret {A} (refused : T -> option Error) (r : A) :
  fails_settled (commit refused ;; ret r).
Proof.
  intros w e w' [t Ht]; unfold bind, commit; rewrite Ht.
  destruct (refused t) as [e0|]; simpl; [|discriminate].
  intros [= <- <-]. simpl. split; [reflexivity|]. right. split; [reflexivity|eauto].
Qed.

Lemma finished_refused (before : list Event) :
  finished (before ++ [EvCommitRefused]) = Some "commit".
Proof. unfold finished. rewrite fold_left_app. reflexivity. Qed.

(** After a refused COMMIT, [rollback()] throws and changes nothing. *)
Lemma rollback_refused (w : World T) :
  commit_was_refused w -> rollback w = (Throw (A := unit) rollback_after_commit, w).
Proof.
  intros [Ht [before Htr]]. unfold rollback. rewrite Ht, Htr, finished_refused.
  reflexivity.
Qed.

(** [catch (error) { await transaction.rollback(); console.error(...);
    throw f(error) }] around a body: when the body fails with the
    transaction open, the rollback is issued, the line is logged and the
    error thrown is the body's (after [f]); when the body fails at a
    refused COMMIT, [rollback()] throws in its turn, and its error is
    what is thrown, with nothing logged. Either way the committed tables
    are those at the start and no transaction stays open. *)
Lemma rollback_handler {A} (body : M T A) (log : Error -> string) (f : Error -> Error)
  (w : World T) (e : Error) (w' : World T) :
  fails_settled body -> is_Some (tx w) ->
  try_catch body
    (fun error => rollback ;; console_error (log error) ;; throw (f error)) w
    = (Throw e, w') ->
  exists e0 w1,
    body w = (Throw e0, w1) /\
    committed w' = committed w /\ tx w' = None /\
    ((is_Some (tx w1) /\ e = f e0 /\
      trace w' = trace w1 ++ [EvRollback; EvLog (log e0)]) \/
     (commit_was_refused w1 /\ e = rollback_after_commit /\ w' = w1)).
Proof.
  intros Hb Hw; unfold try_catch.
  destruct (body w) as [[a|e0] w1] eqn:Hbw; [discriminate|].
  destruct (Hb w e0 w1 Hw Hbw) as [Hc [[t Ht]|Href]].
  - unfold bind, rollback, console_error, emit, throw; rewrite Ht; simpl.
    intros [= <- <-]; exists e0, w1; simpl.
    rewrite <- app_assoc. split; [reflexivity|]. split; [exact Hc|].
    split; [reflexivity|]. left. rewrite Ht. eauto.
  - unfold bind. rewrite (rollback_refused w1 Href).
    intros [= <- <-]. exists e0, w1.
    split; [reflexivity|]. split; [exact Hc|]. split; [apply Href|]. right. auto.
Qed.

(** A catch block that rolls back never returns a value. *)
Lemma rollback_handler_throws {A} (log : string) (error : Error) (w : World T)
  (r : A) (w' : World T) :
  (rollback ;; console_error log ;; throw error)%js w <> (Return r, w').
Proof.
  unfold bind, rollback, console_error, emit, throw.
  destruct (tx w); simpl; discriminate.
Qed.

End DisciplineLemmas.

Ltac keeps_open_tac :=
  repeat first
    [ apply keeps_open_ret | apply keeps_open_throw | apply keeps_open_emit
    | apply keeps_open_in_tx | apply keeps_open_read_tx | apply keeps_open_query
    | apply keeps_open_pure
    | apply keeps_open_for_of; intros
    | apply keeps_open_bind; [|intros]
    | match goal with
      | |- keeps_open (match ?x with _ => _ end) => destruct x
      | |- keeps_open (if ?b then _ else _) => destruct b
      end ].

Ltac fails_open_tac :=
  repeat first
    [ apply fails_open_bind; [solve [keeps_open_tac] | intros]
    | match goal with
      | |- fails_open (match ?x with _ => _ end) => destruct x
      | |- fails_open (if ?b then _ else _) => destruct b
      end
    | apply fails_open_of_keeps_open; solve [keeps_open_tac] ].

Ltac fails_settled_tac :=
  repeat first
    [ apply fails_settled_commit_ret
    | apply fails_settled_bind; [solve [keeps_open_tac] | intros]
    | match goal with
      | |- fails_settled (match ?x with _ => _ end) => destruct x
      | |- fails_settled (if ?b then _ else _) => destruct b
      end
    | apply fails_settled_of_fails_open, fails_open_of_keeps_open;
      solve [keeps_open_tac] ].

(** ** QuoteService: rollback on failure *)

Section QuoteProperties.
Import QuoteService QuoteSpec.
Context `{QuoteService.Collaborators}.

Lemma create_body_fails_settled (quoteData : CreateQuoteDto) (customerData : CustomerDto) :
  fails_settled (create_body quoteData customerData).
Proof.
  unfold create_body, check_items, resolve_customer, create_items; fails_settled_tac.
Qed.

Lemma update_body_fails_settled (quoteData : UpdateQuoteDto) (customerData : CustomerDto) :
  fails_settled (update_body quoteData customerData).
Proof.
  unfold update_body, update_customer, replace_items; fails_settled_tac.
Qed.

(** Inserting the items touches neither the quote nor the customer table. *)
Lemma for_of_items_frame (its : list CreateQuoteItemDto)
  (g : CreateQuoteItemDto -> CreateQuoteItemDto) (w : World Tables)
  (o : Outcome unit) (w' : World Tables) :
  for_of its
    (fun item => in_tx "quote_item" (on_items (quoteItemService_create (g item)))) w
    = (o, w') ->
  committed w' = committed w /\
  forall t, tx w = Some t ->
    exists t', tx w' = Some t' /\ quotes t' = quotes t /\ customers t' = customers t.
Proof.
  revert w; induction its as [|it its IH]; intros w; simpl.
  - intros [= <- <-]; eauto.
  - unfold bind at 1, in_tx at 1.
    destruct (tx w) as [t|] eqn:Ht.
    + unfold on_items at 1.
      destruct (quoteItemService_create (g it) (quoteItems t)) as [[[] i]|e].
      * intros Hrest. apply IH in Hrest as [Hc Hf]; simpl in *.
        split; [exact Hc|]. intros t0 [= <-].
        destruct (Hf _ eq_refl) as (t' & ? & ? & ?); eauto.
      * intros [= <- <-]; split; [reflexivity|]. intros t0 [= <-]. rewrite Ht; eauto.
    + intros [= <- <-]; split; [reflexivity|]. intros; congruence.
Qed.

Lemma resolve_customer_return (cd : CustomerDto) (w : World Tables) (t : Tables)
  (cid : option string) (w' : World Tables) :
  tx w = Some t ->
  resolve_customer cd w = (Return cid, w') ->
  exists c1, resolved_customer cd (customers t) cid c1 /\
    committed w' = committed w /\
    tx w' = Some (mkTables c1 (quotes t) (quoteItems t)).
Proof.
  intros Ht. unfold resolve_customer, resolved_customer.
  destruct (truthy (fullName cd) && negb (truthy (dto_customerId cd))).
  - unfold bind, in_tx, on_customers; rewrite Ht.
    destruct (customerService_create cd (customers t)) as [[k c1]|e]; [|discriminate].
    intros [= <- <-]; simpl; eauto 6.
  - destruct (truthy (personId cd)).
    + unfold bind, in_tx, on_customers; rewrite Ht.
      destruct (customerService_update cd (customers t)) as [[info c1]|e]; [|discriminate].
      intros [= <- <-]; simpl; eauto 8.
    + intros [= <- <-]. exists (customers t). rewrite Ht. destruct t; auto.
Qed.

(** Resolving the customer touches only the customer table of the working
    copy, whether it succeeds or throws. *)
Lemma resolve_customer_frame (cd : CustomerDto) (w : World Tables) (t : Tables)
  (o : Outcome (option string)) (w' : World Tables) :
  tx w = Some t ->
  resolve_customer cd w = (o, w') ->
  committed w' = committed w /\
  exists t', tx w' = Some t' /\ quotes t' = quotes t /\ quoteItems t' = quoteItems t.
Proof.
  intros Ht. unfold resolve_customer.
  destruct (truthy (fullName cd) && negb (truthy (dto_customerId cd))).
  - unfold bind, in_tx, on_customers; rewrite Ht.
    destruct (customerService_create cd (customers t)) as [[k c1]|e];
      intros [= <- <-]; simpl; rewrite ?Ht; eauto 6.
  - destruct (truthy (personId cd)).
    + unfold bind, in_tx, on_customers; rewrite Ht.
      destruct (customerService_update cd (customers t)) as [[info c1]|e];
        intros [= <- <-]; simpl; rewrite ?Ht; eauto 8.
    + intros [= <- <-]. rewrite Ht; eauto.
Qed.

(** What a returning [create] has done: either the shop was missing, or
    the customer was resolved, the row built, given its serial number
    and inserted under a fresh key, and the transaction committed. *)
Lemma create_return_inv (qd : CreateQuoteDto) (cd : CustomerDto) (w : World Tables)
  (r : Response) (w' : World Tables) :
  create qd cd w = (Return r, w') ->
  (r = Message 400 "Parece que la tienda no existe!"
   /\ ShopModel_findOne (shopSlug qd) = Return None) \/
  exists shop cid c1 serial k,
    ShopModel_findOne (shopSlug qd) = Return (Some shop) /\
    resolved_customer cd (customers (committed w)) cid c1 /\
    generateSerialNumber (build cid shop qd) (quotes (committed w)) = Return serial /\
    quotes (committed w) !! k = None /\
    quotes (committed w')
      = <[k := with_serialNumber serial (build cid shop qd)]> (quotes (committed w)) /\
    customers (committed w') = c1 /\
    tx w' = None /\
    r = NewQuote 201
          {| new_id := k;
             new_serialNumber := Some serial;
             new_status := dto_status qd;
             new_customerId := cid;
             new_customerName := nullish_or_null (fullName cd);
             new_shopId := shop_id shop |}.
Proof.
  unfold create, bind at 1, sequelize_transaction, try_catch.
  set (w0 := mkWorld (committed w) (Some (committed w)) (trace w ++ [EvBegin])).
  destruct (create_body qd cd w0) as [[r0|e] w1] eqn:Hbody.
  2:{ intros Hh; exfalso; revert Hh; apply rollback_handler_throws. }
  intros [= -> ->].
  revert Hbody. unfold create_body.
  unfold bind at 1, check_items.
  destruct (length_is_zero (items qd)); [discriminate|]. cbn [ret].
  unfold bind at 1.
  destruct (resolve_customer cd w0) as [[cid|e] wa] eqn:Hres; [|discriminate].
  destruct (resolve_customer_return cd w0 _ cid wa eq_refl Hres) as (c1 & Hrc & Hca & Hta).
  unfold bind at 1, query at 1.
  destruct (ShopModel_findOne (shopSlug qd)) as [[shop|]|e]; [| |discriminate].
  2:{ intros [= <- <-]; left; auto. }
  unfold bind at 1, query at 1.
  rewrite Hca. cbn [committed w0].
  destruct (generateSerialNumber (build cid shop qd) (quotes (committed w)))
    as [serial|e] eqn:Hserial; [|discriminate].
  unfold bind at 1, in_tx at 1. rewrite Hta. unfold save. cbn [quotes customers quoteItems].
  destruct (quote_insert _ _) as [k|e]; [|discriminate].
  destruct (quotes (committed w) !! k) eqn:Hk; [discriminate|].
  unfold bind at 1.
  match goal with |- context [create_items qd k ?wb] => set (wb' := wb) end.
  destruct (create_items qd k wb') as [[[]|e] wc] eqn:Hitems; [|discriminate].
  unfold create_items in Hitems.
  destruct (items qd) as [| |its]; [discriminate..|].
  apply for_of_items_frame in Hitems as [Hcc Hfc].
  destruct (Hfc _ eq_refl) as (tc & Htc & Hq & Hcu).
  unfold bind, commit, ret; rewrite Htc.
  destruct (commit_refused tc); [discriminate|].
  intros [= <- <-]. right.
  exists shop, cid, c1, serial, k. cbn [committed tx].
  rewrite Hq, Hcu. cbn. auto 10.
Qed.

(** A [create] that throws has committed nothing and leaves no transaction
    open. Its body has failed: with the transaction open, and then the
    rollback is issued, the line logged and the body's error thrown; or at
    a COMMIT the database refused, and then the error thrown is that of
    [rollback()]. *)
Lemma create_failure_rolls_back (qd : CreateQuoteDto) (cd : CustomerDto)
  (w : World Tables) (e : Error) (w' : World Tables) :
  create qd cd w = (Throw e, w') ->
  committed w' = committed w /\ tx w' = None /\
  exists e0 w1,
    create_body qd cd (mkWorld (committed w) (Some (committed w)) (trace w ++ [EvBegin]))
      = (Throw e0, w1) /\
    ((is_Some (tx w1) /\ e = e0 /\
      trace w' = trace w1 ++ [EvRollback; EvLog "Error creando cotización"]) \/
     (commit_was_refused w1 /\ e = rollback_after_commit /\ w' = w1)).
Proof.
  unfold create, bind at 1, sequelize_transaction. intros Hc.
  apply (rollback_handler _ (fun _ => "Error creando cotización") (fun e => e)) in Hc
    as (e0 & w1 & Hb & Hcm & Ht & Hcase);
    [|apply create_body_fails_settled|simpl; eauto].
  split; [exact Hcm|]. split; [exact Ht|]. exists e0, w1. split; [exact Hb|exact Hcase].
Qed.

Lemma update_failure_rolls_back (qd : UpdateQuoteDto) (cd : CustomerDto)
  (w : World Tables) (e : Error) (w' : World Tables) :
  update qd cd w = (Throw e, w') ->
  committed w' = committed w /\ tx w' = None /\
  exists e0 w1,
    update_body qd cd (mkWorld (committed w) (Some (committed w)) (trace w ++ [EvBegin]))
      = (Throw e0, w1) /\
    ((is_Some (tx w1) /\ e = e0 /\
      trace w' = trace w1 ++ [EvRollback; EvLog "Error actualizando cotización"]) \/
     (commit_was_refused w1 /\ e = rollback_after_commit /\ w' = w1)).
Proof.
  unfold update, bind at 1, sequelize_transaction. intros Hc.
  apply (rollback_handler _ (fun _ => "Error actualizando cotización") (fun e => e)) in Hc
    as (e0 & w1 & Hb & Hcm & Ht & Hcase);
    [|apply update_body_fails_settled|simpl; eauto].
  split; [exact Hcm|]. split; [exact Ht|]. exists e0, w1. split; [exact Hb|exact Hcase].
Qed.

(** ** QuoteService.create and update: the claims *)

(** C1. A create request whose item list is empty fails with the
    validation error, and nothing is written: the only statements issued are
    the opening of the transaction and its rollback, the committed tables
    (customers, quotes, quote items) are those from before the call, and no
    transaction stays open. *)
Theorem create_empty_items_rejected (qd : CreateQuoteDto) (cd : CustomerDto)
  (w : World Tables) :
  items qd = val [] ->
  exists e w',
    create qd cd w = (Throw e, w') /\
    error_kind e = ValidationError /\
    committed w' = committed w /\
    tx w' = None /\
    trace w' = trace w ++ [EvBegin; EvRollback; EvLog "Error creando cotización"].
Proof.
  intros Hitems.
  eexists _, _. split.
  - unfold create, create_body, check_items, bind, try_catch, sequelize_transaction.
    rewrite Hitems; simpl. reflexivity.
  - simpl. repeat split; try reflexivity.
    rewrite <- !app_assoc; reflexivity.
Qed.

(** C4, as amended. When the shop slug resolves to no shop, [create] never
    inserts a quote row (neither committed nor in the working copy of the
    transaction); whenever it returns, the result is the status-400
    message, and it does return it whenever the item list is not the empty
    list and the customer step, whatever it has to do, does not throw. *)
Theorem create_unknown_shop (qd : CreateQuoteDto) (cd : CustomerDto)
  (w : World Tables) (o : Outcome Response) (w' : World Tables) :
  ShopModel_findOne (shopSlug qd) = Return None ->
  create qd cd w = (o, w') ->
  (forall r, o = Return r -> r = Message 400 "Parece que la tienda no existe!") /\
  committed w' = committed w /\
  (forall t, tx w' = Some t -> quotes t = quotes (committed w)) /\
  (items qd <> val [] ->
   (exists cid w1,
      resolve_customer cd
        (mkWorld (committed w) (Some (committed w)) (trace w ++ [EvBegin]))
      = (Return cid, w1)) ->
   o = Return (Message 400 "Parece que la tienda no existe!")).
Proof.
  intros Hshop Hc.
  assert (Hreturns : items qd <> val [] ->
    (exists cid w1,
       resolve_customer cd
         (mkWorld (committed w) (Some (committed w)) (trace w ++ [EvBegin]))
       = (Return cid, w1)) ->
    o = Return (Message 400 "Parece que la tienda no existe!")).
  { intros Hitems (cid & w1 & Hres). revert Hc.
    unfold create, bind at 1, sequelize_transaction, try_catch.
    unfold create_body, bind at 1, check_items.
    assert (Hz : length_is_zero (items qd) = false).
    { destruct (items qd) as [| |[|it its]]; try reflexivity. congruence. }
    rewrite Hz. cbn [ret]. unfold bind at 1. cbn [fst snd]. rewrite Hres.
    unfold bind, query. rewrite Hshop. intros [= <- _]. reflexivity. }
  destruct o as [r|e].
  - pose proof Hc as Hinv. apply create_return_inv in Hinv
      as [[-> _]|(shop & ? & ? & ? & ? & Hs & _)]; [|congruence].
    split; [intros r [= <-]; reflexivity|].
    revert Hc. unfold create, bind at 1, sequelize_transaction, try_catch.
    set (w0 := mkWorld (committed w) (Some (committed w)) (trace w ++ [EvBegin])).
    destruct (create_body qd cd w0) as [[r0|e] w1] eqn:Hbody.
    2:{ intros Hh; exfalso; revert Hh; apply rollback_handler_throws. }
    intros [= <- <-]. revert Hbody. unfold create_body, bind at 1, check_items.
    destruct (length_is_zero (items qd)); [discriminate|]. cbn [ret].
    unfold bind at 1.
    destruct (resolve_customer cd w0) as [[cid|e] wa] eqn:Hres; [|discriminate].
    destruct (resolve_customer_frame cd w0 _ _ wa eq_refl Hres) as (Hca & ta & Hta & Hq & _).
    unfold bind at 1, query at 1. rewrite Hshop.
    intros [= Hw]; subst w1. rewrite Hca, Hta. repeat split; auto.
    intros t [= <-]; exact Hq.
  - apply create_failure_rolls_back in Hc as (Hcm & Ht & _).
    split; [discriminate|]. split; [exact Hcm|]. split; [rewrite Ht; discriminate|].
    exact Hreturns.
Qed.


Ltac not_in_tac :=
  let Hin := fresh in
  intros Hin; apply list_elem_of_In in Hin; simpl in Hin; intuition discriminate.

(** On that path the transaction is left open: [create] returns without
    rollback and without commit, whatever the customer step has written. *)
Lemma unknown_shop_leaves_transaction_open (qd : CreateQuoteDto) (cd : CustomerDto)
  (w : World Tables) (r : Response) (w' : World Tables) :
  ShopModel_findOne (shopSlug qd) = Return None ->
  create qd cd w = (Return r, w') ->
  is_Some (tx w') /\
  (EvRollback ∉ drop (length (trace w)) (trace w')) /\
  (EvCommit ∉ drop (length (trace w)) (trace w')).
Proof.
  intros Hshop. unfold create, bind at 1, sequelize_transaction, try_catch.
  set (w0 := mkWorld (committed w) (Some (committed w)) (trace w ++ [EvBegin])).
  destruct (create_body qd cd w0) as [[r0|e] w1] eqn:Hbody.
  2:{ intros Hh; exfalso; revert Hh; apply rollback_handler_throws. }
  intros [= <- <-]. revert Hbody. unfold create_body, bind at 1, check_items.
  destruct (length_is_zero (items qd)); [discriminate|]. cbn [ret].
  unfold bind at 1, resolve_customer.
  assert (Hdrop : forall evs, drop (length (trace w)) (trace w ++ evs) = evs).
  { intros evs. rewrite drop_app_length. reflexivity. }
  destruct (truthy (fullName cd) && negb (truthy (dto_customerId cd))).
  - unfold bind at 1, in_tx, on_customers; simpl.
    destruct (customerService_create cd (customers (committed w))) as [[k c1]|e];
      [|discriminate].
    unfold bind, query; simpl. rewrite Hshop. intros [= <- <-]; simpl.
    rewrite <- app_assoc, Hdrop. split; [eauto|]. split; not_in_tac.
  - destruct (truthy (personId cd)).
    + unfold bind at 1, bind at 1, in_tx, on_customers; simpl.
      destruct (customerService_update cd (customers (committed w))) as [[i c1]|e];
        [|discriminate].
      unfold bind, query; simpl. rewrite Hshop. intros [= <- <-]; simpl.
      rewrite <- app_assoc, Hdrop. split; [eauto|]. split; not_in_tac.
    + unfold bind, query; simpl. rewrite Hshop. intros [= <- <-]; simpl.
      rewrite Hdrop. split; [eauto|]. split; not_in_tac.
Qed.

(** *** The discount invariant *)

Lemma gt_zero_val (x : js Q) :
  gt_zero x = true -> exists q, x = val q /\ (0 < q)%Q.
Proof.
  destruct x as [| |q]; simpl; try discriminate.
  intros Hq. exists q; split; [reflexivity|].
  apply Qnot_le_lt. intros Hle. apply Qle_bool_iff in Hle.
  rewrite Hle in Hq. discriminate.
Qed.

Lemma or_zero_positive (q : Q) : (0 < q)%Q -> or_zero (val q) = q.
Proof.
  intros Hq; simpl. destruct (Qeq_bool q 0) eqn:He; [|reflexivity].
  apply Qeq_bool_iff in He. rewrite He in Hq. exfalso; revert Hq; apply Qlt_irrefl.
Qed.

Lemma build_discount_invariant (cid : option string) (shop : Shop)
  (qd : CreateQuoteDto) (serial : string) :
  discount_invariant (with_serialNumber serial (build cid shop qd)).
Proof.
  unfold discount_invariant; simpl.
  destruct (gt_zero (dto_discount qd)) eqn:Hgt.
  - apply gt_zero_val in Hgt as (q & -> & Hq). simpl. split.
    + intros d [= <-] Hd. rewrite Hd in Hq. exfalso; revert Hq; apply Qlt_irrefl.
    + intros _. eauto.
  - split; [reflexivity|congruence].
Qed.

Lemma updated_row_discount_invariant (old : Quote) (qd : UpdateQuoteDto)
  (cd : CustomerDto) :
  discount_invariant (updated_row old qd cd).
Proof.
  unfold discount_invariant; simpl.
  destruct (gt_zero (dto_discount qd)) eqn:Hgt.
  - apply gt_zero_val in Hgt as (q & Hv & Hq). rewrite Hv, (or_zero_positive q Hq).
    split.
    + intros d [= <-] Hd. rewrite Hd in Hq. exfalso; revert Hq; apply Qlt_irrefl.
    + intros _. eauto.
  - split; [reflexivity|congruence].
Qed.

Lemma update_customer_frame (cd : CustomerDto) (w : World Tables) (t : Tables)
  (o : Outcome unit) (w' : World Tables) :
  tx w = Some t ->
  update_customer cd w = (o, w') ->
  committed w' = committed w /\
  exists t', tx w' = Some t' /\ quotes t' = quotes t /\ quoteItems t' = quoteItems t.
Proof.
  intros Ht. unfold update_customer.
  destruct (truthy (personId cd)).
  - unfold bind, in_tx, on_customers; rewrite Ht.
    destruct (customerService_update cd (customers t)) as [[[info|] c1]|e];
      intros [= <- <-]; simpl; rewrite ?Ht; eauto 8.
  - intros [= <- <-]. rewrite Ht; eauto.
Qed.

Lemma update_return_inv (qd : UpdateQuoteDto) (cd : CustomerDto) (w : World Tables)
  (r : Response) (w' : World Tables) :
  update qd cd w = (Return r, w') ->
  exists old,
    quotes (committed w) !! dto_id qd = Some old /\
    length_gt_zero (items qd) = true /\
    quotes (committed w')
      = <[dto_id qd := updated_row old qd cd]> (quotes (committed w)) /\
    tx w' = None /\
    r = UpdatedQuote 200
          {| upd_id := dto_id qd;
             upd_serialNumber := serialNumber old;
             upd_status := dto_status qd;
             upd_customerId := dto_customerId cd;
             upd_customerName := fullName cd;
             upd_shopId := dto_shopId qd |}.
Proof.
  unfold update, bind at 1, sequelize_transaction, try_catch.
  set (w0 := mkWorld (committed w) (Some (committed w)) (trace w ++ [EvBegin])).
  destruct (update_body qd cd w0) as [[r0|e] w1] eqn:Hbody.
  2:{ intros Hh; exfalso; revert Hh; apply rollback_handler_throws. }
  intros [= -> ->].
  revert Hbody. unfold update_body.
  unfold bind at 1.
  destruct (update_customer cd w0) as [[[]|e] wa] eqn:Hcust; [|discriminate].
  destruct (update_customer_frame cd w0 _ _ wa eq_refl Hcust) as (Hca & ta & Hta & Hq & _).
  unfold bind at 1, read_tx, findByPk. rewrite Hta, Hq. cbn [committed w0].
  destruct (quotes (committed w) !! dto_id qd) as [old|] eqn:Hold; [|discriminate].
  unfold bind at 1, in_tx at 1, instance_update. rewrite Hta.
  destruct (quote_update _ _ _); [discriminate|].
  unfold bind at 1, replace_items.
  destruct (length_gt_zero (items qd)); [|discriminate].
  unfold in_tx, on_items. cbn [tx quoteItems customers quotes].
  destruct (quoteItemService_updateItems _ _ _) as [[[] i]|e]; [|discriminate].
  unfold bind, commit, ret. cbn [tx].
  destruct (commit_refused _); [discriminate|].
  intros [= <- <-]. exists old. cbn. rewrite Hq. auto 10.
Qed.

(** C6. After a successful [create] (status 201) and after a successful
    [update] (status 200) the committed row of the document satisfies the
    discount invariant: its discount type is null whenever its discount is
    zero, and non-null only if the discount is positive. *)
Theorem discount_type_invariant :
  (forall (qd : CreateQuoteDto) (cd : CustomerDto) (w : World Tables) status s w',
     create qd cd w = (Return (NewQuote status s), w') ->
     exists row, quotes (committed w') !! new_id s = Some row /\ discount_invariant row)
  /\
  (forall (qd : UpdateQuoteDto) (cd : CustomerDto) (w : World Tables) status s w',
     update qd cd w = (Return (UpdatedQuote status s), w') ->
     exists row, quotes (committed w') !! dto_id qd = Some row /\ discount_invariant row).
Proof.
  split.
  - intros qd cd w status s w' Hc.
    apply create_return_inv in Hc as [[? _]|(shop & cid & c1 & serial & k & _ & _ & _ & _ & Hq & _ & _ & Hr)];
      [discriminate|].
    injection Hr as -> ->; simpl.
    rewrite Hq, lookup_insert_eq. eauto using build_discount_invariant.
  - intros qd cd w status s w' Hu.
    apply update_return_inv in Hu as (old & _ & _ & Hq & _ & _).
    rewrite Hq, lookup_insert_eq. eauto using updated_row_discount_invariant.
Qed.

Lemma truthy_present (x : js string) : truthy x = true <-> present x.
Proof.
  unfold present. destruct x as [| |s]; simpl.
  - split; [discriminate|]. intros (s & [=] & _).
  - split; [discriminate|]. intros (s & [=] & _).
  - destruct (String.eqb_spec s "") as [->|Hs]; simpl.
    + split; [discriminate|]. intros (s & [= <-] & Hs). congruence.
    + split; [eauto|reflexivity].
Qed.

Lemma truthy_absent (x : js string) : truthy x = false <-> absent x.
Proof.
  unfold absent. destruct x as [| |s]; simpl.
  - split; auto.
  - split; auto.
  - destruct (String.eqb_spec s "") as [->|Hs]; simpl.
    + split; auto.
    + split; [discriminate|]. intros [[=]|[[=]|[= ->]]]. congruence.
Qed.

(** C10. After a successful [create] the committed row's [customerId], which
    is also the one reported, is the id of the customer just created when
    [customerData] has a fullName and no customerId; in every other case no
    customer is created and it is the supplied customerId, or null when
    none is supplied. With a personId (and no new customer) the customer
    update is executed and its result is not attached: with only a
    personId supplied the row's [customerId] is null. *)
Theorem create_customer_id (qd : CreateQuoteDto) (cd : CustomerDto)
  (w : World Tables) status (s : NewQuoteSummary) (w' : World Tables) :
  create qd cd w = (Return (NewQuote status s), w') ->
  exists row,
    quotes (committed w') !! new_id s = Some row /\
    new_customerId s = customerId row /\
    (present (fullName cd) -> absent (dto_customerId cd) ->
     exists k,
       customerService_create cd (customers (committed w))
         = Return (k, customers (committed w')) /\
       customerId row = Some k) /\
    (~ (present (fullName cd) /\ absent (dto_customerId cd)) ->
     (forall c, dto_customerId cd = val c -> customerId row = Some c) /\
     (dto_customerId cd = undefined \/ dto_customerId cd = null ->
      customerId row = None) /\
     (present (personId cd) ->
      exists info,
        customerService_update cd (customers (committed w))
          = Return (info, customers (committed w'))) /\
     (absent (personId cd) -> customers (committed w') = customers (committed w))).
Proof.
  intros Hc.
  apply create_return_inv in Hc
    as [[? _]|(shop & cid & c1 & serial & k & _ & Hres & _ & _ & Hq & Hcu & _ & Hr)];
    [discriminate|].
  injection Hr as -> ->; simpl. subst c1.
  exists (with_serialNumber serial (build cid shop qd)).
  rewrite Hq, lookup_insert_eq. simpl.
  split; [reflexivity|]. split; [reflexivity|].
  revert Hres. unfold resolved_customer.
  assert (Hrest : cid = nullish_or_null (dto_customerId cd) ->
    (if truthy (personId cd)
     then exists info,
            customerService_update cd (customers (committed w))
              = Return (info, customers (committed w'))
     else customers (committed w') = customers (committed w)) ->
    (forall c, dto_customerId cd = val c -> cid = Some c) /\
    (dto_customerId cd = undefined \/ dto_customerId cd = null -> cid = None) /\
    (present (personId cd) ->
     exists info,
       customerService_update cd (customers (committed w))
         = Return (info, customers (committed w'))) /\
    (absent (personId cd) -> customers (committed w') = customers (committed w))).
  { intros Hcid Hperson.
    split; [intros c Hc; rewrite Hcid, Hc; reflexivity|].
    split; [intros [Hu|Hu]; rewrite Hcid, Hu; reflexivity|].
    split.
    - intros Hp. apply truthy_present in Hp. rewrite Hp in Hperson. exact Hperson.
    - intros Ha. apply truthy_absent in Ha. rewrite Ha in Hperson. exact Hperson. }
  destruct (truthy (fullName cd) && negb (truthy (dto_customerId cd))) eqn:Hnew.
  - apply andb_prop in Hnew as [Hname Hid]. apply negb_true_iff in Hid.
    intros (k0 & Hcreate & ->). split.
    + intros _ _. eauto.
    + intros Hnot. exfalso. apply Hnot. split.
      * apply truthy_present; exact Hname.
      * apply truthy_absent; exact Hid.
  - intros Hres. split.
    + intros Hp Ha. apply truthy_present in Hp. apply truthy_absent in Ha.
      rewrite Hp, Ha in Hnew. discriminate.
    + intros _. apply Hrest.
      * destruct (truthy (personId cd)); apply Hres.
      * destruct (truthy (personId cd)); apply Hres.
Qed.


(** C8, as amended. An [update] of a document id that does not exist fails
    with a NotFound error; an [update] of an existing document with an empty
    item list fails with the validation error (the existence check runs
    first); both provided the statements before the check do not fail on
    their own. Every [update] that throws leaves the committed tables
    unchanged and no transaction open. *)
Theorem update_rejections (qd : UpdateQuoteDto) (cd : CustomerDto) (w : World Tables) :
  (quotes (committed w) !! dto_id qd = None ->
   customer_update_returns cd (committed w) ->
   exists e w',
     update qd cd w = (Throw e, w') /\ error_kind e = NotFound /\
     committed w' = committed w /\ tx w' = None)
  /\
  (forall old,
     quotes (committed w) !! dto_id qd = Some old ->
     items qd = val [] ->
     customer_update_found cd (committed w) ->
     quote_update (dto_id qd) (updated_row old qd cd) (quotes (committed w)) = None ->
     exists e w',
       update qd cd w = (Throw e, w') /\ error_kind e = ValidationError /\
       committed w' = committed w /\ tx w' = None)
  /\
  (forall e w',
     update qd cd w = (Throw e, w') -> committed w' = committed w /\ tx w' = None).
Proof.
  split; [|split].
  - intros Hmissing Hcust.
    unfold update, update_body, update_customer, bind, try_catch, sequelize_transaction.
    unfold in_tx, read_tx, findByPk, on_customers.
    destruct (truthy (personId cd)) eqn:Hp; simpl.
    + destruct Hcust as [?|(info & c1 & ->)]; [congruence|].
      destruct info; simpl; rewrite ?Hmissing; simpl; eauto 10.
    + rewrite Hmissing; simpl; eauto 10.
  - intros old Hold Hitems Hcust Hupdate.
    unfold update, update_body, update_customer, replace_items, bind, try_catch,
      sequelize_transaction.
    unfold in_tx, read_tx, findByPk, instance_update, on_customers.
    rewrite Hitems.
    destruct (truthy (personId cd)) eqn:Hp; simpl.
    + destruct Hcust as [?|(info & c1 & ->)]; [congruence|].
      simpl; rewrite Hold; simpl; rewrite Hupdate; simpl; eauto 10.
    + rewrite Hold; simpl; rewrite Hupdate; simpl; eauto 10.
  - intros e w' Hu. apply update_failure_rolls_back in Hu as (? & ? & _); auto.
Qed.


End QuoteProperties.

(** ** UserService.register and the surfacing of database errors *)

Section UserProperties.
Import UserService.
Context `{UserService.Collaborators}.

Lemma keeps_open_try_catch {T A} (body : M T A) (handler : Error -> M T A) :
  keeps_open body -> (forall e, keeps_open (handler e)) ->
  keeps_open (try_catch body handler).
Proof.
  intros Hb Hh w Hw; unfold try_catch.
  destruct (Hb w Hw) as [Hc Ho].
  destruct (body w) as [[a|e] w1]; simpl in *; auto.
  destruct (Hh e w1 Ho) as [Hc' Ho']; split; congruence.
Qed.

Lemma getRoleName_keeps_open (id : string) : keeps_open (getRoleName id).
Proof.
  unfold getRoleName. apply keeps_open_try_catch; [|intros e]; keeps_open_tac.
Qed.

Lemma register_body_fails_settled (userData : CreateUserDto) :
  fails_settled (register_body userData).
Proof.
  unfold register_body.
  apply fails_settled_bind; [keeps_open_tac|intros [person_id|]].
  - apply fails_settled_bind; [keeps_open_tac|intros [user_id|]].
    + apply fails_settled_bind; [apply getRoleName_keeps_open|intros roleName].
      apply fails_settled_commit_ret.
    + apply fails_settled_of_fails_open, fails_open_of_keeps_open; keeps_open_tac.
  - apply fails_settled_of_fails_open, fails_open_of_keeps_open; keeps_open_tac.
Qed.

(** A [register] that throws has committed nothing and leaves no
    transaction open. Its body has failed: with the transaction open, and
    then it throws the body's error after [duplicate_user]; or at a COMMIT
    the database refused, and then it throws the error of [rollback()]. *)
Lemma register_failure (userData : CreateUserDto) (w : World Tables) (e : Error)
  (w' : World Tables) :
  register userData w = (Throw e, w') ->
  committed w' = committed w /\ tx w' = None /\
  exists e0 w1,
    register_body userData
      (mkWorld (committed w) (Some (committed w)) (trace w ++ [EvBegin]))
      = (Throw e0, w1) /\
    ((is_Some (tx w1) /\ e = duplicate_user e0 /\
      trace w' = trace w1 ++ [EvRollback; EvLog "***************** Error creando user: "])
     \/ (commit_was_refused w1 /\ e = rollback_after_commit /\ w' = w1)).
Proof.
  unfold register, bind at 1, sequelize_transaction. intros Hc.
  apply (rollback_handler _ (fun _ => "***************** Error creando user: ")
           duplicate_user) in Hc
    as (e0 & w1 & Hb & Hcm & Ht & Hcase);
    [|apply register_body_fails_settled|simpl; eauto].
  split; [exact Hcm|]. split; [exact Ht|]. exists e0, w1. split; [exact Hb|exact Hcase].
Qed.

Lemma duplicate_user_spec (e0 : Error) :
  (is_unique_violation e0 = true ->
   message (duplicate_user e0)
     = "Ya existe un usuario con este email o número de documento" /\
   parent_code (duplicate_user e0) = parent_code e0) /\
  (is_unique_violation e0 = false -> duplicate_user e0 = e0).
Proof.
  unfold duplicate_user. destruct (is_unique_violation e0); split; intros; auto; discriminate.
Qed.

End UserProperties.

Section Surfacing.
Import UserService QuoteService.
Context `{UserService.Collaborators} `{QuoteService.Collaborators}.

End Surfacing.

(** ** BillingItemService: stock deduction and its reversal *)

Section BillingProperties.
Import BillingItemService.
Context `{BillingItemService.Collaborators}.

Lemma negative_false (q : Q) : negative q = false <-> (0 <= q)%Q.
Proof.
  unfold negative. rewrite negb_false_iff. apply Qle_bool_iff.
Qed.

Lemma negative_true (q : Q) : negative q = true <-> (q < 0)%Q.
Proof.
  unfold negative. rewrite negb_true_iff. split.
  - intros Hb. apply Qnot_le_lt. intros Hle. apply Qle_bool_iff in Hle. congruence.
  - intros Hlt. destruct (Qle_bool 0 q) eqn:Hb; [|reflexivity].
    apply Qle_bool_iff in Hb. exfalso. apply (Qlt_not_le _ _ Hlt Hb).
Qed.

(** C7. Let the quantity on hand of the stock item of the item's (variant,
    stock) be non-negative, as section 3 has it. Creating a billing item
    with deduction enabled, when the stock covers its quantity, lowers the
    quantity of that stock item by the item's quantity and touches no
    other stock item; cancelling it for the same stock raises the quantity
    by the same amount, which is the quantity from before the creation.
    When the stock does not cover the quantity the creation fails and the
    stock is as before. *)
Theorem create_then_cancel_restores_stock (data : CreateBillingItemDto)
  (w : World Tables) (t : Tables) (item : StockItem) :
  let key := (productVariantId data, stockId data) in
  tx w = Some t ->
  stockItems t !! key = Some item ->
  (0 <= stock_quantity item)%Q ->
  (exists r i, billingItemModel_create data (billingItems t) = Return (r, i)) ->
  ((quantity data <= stock_quantity item)%Q ->
   exists r w1 t1 item1 w2 t2 item2,
     create data true w = (Return r, w1) /\ tx w1 = Some t1 /\
     stockItems t1 !! key = Some item1 /\
     (stock_quantity item1 == stock_quantity item - quantity data)%Q /\
     (forall k, k <> key -> stockItems t1 !! k = stockItems t !! k) /\
     cancel data (stockId data) w1 = (Return tt, w2) /\ tx w2 = Some t2 /\
     stockItems t2 !! key = Some item2 /\
     (stock_quantity item2 == stock_quantity item1 + quantity data)%Q /\
     (stock_quantity item2 == stock_quantity item)%Q /\
     (forall k, k <> key -> stockItems t2 !! k = stockItems t !! k))
  /\
  ((stock_quantity item < quantity data)%Q ->
   exists w1 t1,
     create data true w = (Throw insufficient_stock, w1) /\ tx w1 = Some t1 /\
     stockItems t1 = stockItems t).
Proof.
  intros key Ht Hitem Hstock (r & i & Hcreate). split.
  - intros Hcovers.
    assert (Hpos : negative (stock_quantity item + - quantity data) = false).
    { apply negative_false. apply -> Qle_minus_iff. exact Hcovers. }
    assert (Hback : negative (stock_quantity item + - quantity data + quantity data)
                    = false).
    { apply negative_false.
      apply (Qle_trans _ _ _ Hstock). apply Qle_lteq. right. ring. }
    eexists r, _, _, _, _, _, _.
    split.
    { unfold create, try_catch, bind, in_tx, on_items, updateQuantity.
      rewrite Ht, Hcreate. simpl. fold key. rewrite Hitem. simpl. rewrite Hpos.
      rewrite andb_false_r. reflexivity. }
    split; [reflexivity|].
    split; [apply lookup_insert_eq|].
    split; [simpl; ring|].
    split; [intros k Hk; simpl; apply lookup_insert_ne; congruence|].
    split.
    { unfold cancel, try_catch, bind, in_tx, updateQuantity, with_stockId. simpl.
      fold key. rewrite lookup_insert_eq. simpl. rewrite Hback.
      rewrite andb_false_r. reflexivity. }
    split; [reflexivity|].
    split; [simpl; apply lookup_insert_eq|].
    split; [simpl; ring|].
    split; [simpl; ring|].
    intros k Hk; simpl. rewrite !lookup_insert_ne by congruence. reflexivity.
  - intros Hshort.
    assert (Hneg : negative (stock_quantity item + - quantity data) = true).
    { apply negative_true. apply Qnot_le_lt. intros Hle.
      apply <- Qle_minus_iff in Hle. apply (Qlt_not_le _ _ Hshort Hle). }
    assert (Hdelta : negative (- quantity data) = true).
    { apply negative_true. apply Qnot_le_lt. intros Hle.
      apply (Qlt_not_le _ _ Hshort). apply (Qle_trans _ 0); [|exact Hstock].
      apply Qopp_le_compat in Hle. rewrite Qopp_involutive in Hle. exact Hle. }
    eexists _, _. split.
    { unfold create, try_catch, bind, in_tx, on_items, updateQuantity.
      rewrite Ht, Hcreate. simpl. fold key. rewrite Hitem. simpl.
      rewrite Hneg, Hdelta. simpl. reflexivity. }
    split; reflexivity.
Qed.
End BillingProperties.

(** ** getMonthlySales: the discount rule under the SUM *)

Section SalesProperties.
Import MonthlySales.
Local Open Scope Q_scope.

Lemma Number_sql_sum_cons (x : option Q) (xs : list (option Q)) :
  Number (sql_sum (x :: xs)) == Number x + Number (sql_sum xs).
Proof.
  simpl. destruct x as [a|], (sql_sum xs) as [b|]; simpl; ring.
Qed.

Lemma Number_sql_sum_app (xs ys : list (option Q)) :
  Number (sql_sum (xs ++ ys)) == Number (sql_sum xs) + Number (sql_sum ys).
Proof.
  induction xs as [|x xs IH].
  - simpl. ring.
  - rewrite <- app_comm_cons, !Number_sql_sum_cons, IH. ring.
Qed.

Lemma sum_scaled (k : Q) (its : list BillingItem) :
  Number (sql_sum (map (fun it => sql_op Qmult (totalPrice it) (Some k)) its))
  == fold_right (fun it acc => Number (totalPrice it) + acc) 0 its * k.
Proof.
  induction its as [|it its IH].
  - simpl. ring.
  - rewrite map_cons, Number_sql_sum_cons, IH. simpl.
    destruct (totalPrice it); simpl; ring.
Qed.

Lemma sum_null (its : list BillingItem) :
  sql_sum (map (fun it => sql_op Qmult (totalPrice it) None) its) = None.
Proof.
  induction its as [|it its IH]; simpl; [reflexivity|].
  rewrite IH. destruct (totalPrice it); reflexivity.
Qed.

Lemma sum_plain (its : list BillingItem) :
  Number (sql_sum (map totalPrice its))
  == fold_right (fun it acc => Number (totalPrice it) + acc) 0 its.
Proof.
  induction its as [|it its IH].
  - simpl. ring.
  - rewrite map_cons, Number_sql_sum_cons, IH. simpl. ring.
Qed.

(** C2, as amended. What a document adds to the monthly sales is the sum of
    its line-item totals under the discount rule, without shipping:
    base * (1 - discount / 100) for PERCENTAGE, base * (1 - discount /
    subtotal) for FIXED (nothing when the stored subtotal is zero), base
    otherwise. When the stored subtotal is the sum of the line items this
    is the [discounted] value of the specification. *)
Theorem document_sales_rule (b : Billing) (d s : Q) :
  discount b = Some d ->
  subtotal b = Some s ->
  Number (document_sales b) == code_discounted (base b) s (discountType b) d /\
  (s == base b ->
   Number (document_sales b) == spec_discounted (base b) (discountType b) d).
Proof.
  intros Hd Hs.
  assert (Hcode : Number (document_sales b)
                  == code_discounted (base b) s (discountType b) d).
  { unfold document_sales, code_discounted, discounted_price, base.
    rewrite Hd, Hs.
    destruct (is_type (discountType b) "PERCENTAGE").
    - simpl. apply sum_scaled.
    - destruct (is_type (discountType b) "FIXED").
      + simpl. destruct (Qeq_bool s 0).
        * simpl. rewrite sum_null. reflexivity.
        * simpl. apply sum_scaled.
      + rewrite (map_ext _ totalPrice) by reflexivity. apply sum_plain. }
  split; [exact Hcode|].
  intros Hsb. rewrite Hcode. unfold code_discounted, spec_discounted.
  destruct (is_type (discountType b) "PERCENTAGE"); [reflexivity|].
  destruct (is_type (discountType b) "FIXED"); [|reflexivity].
  destruct (Qeq_bool s 0) eqn:Hz.
  - apply Qeq_bool_iff in Hz. rewrite Hz in Hsb.
    assert (Hb0 : Qeq_bool (base b) 0 = true) by (apply Qeq_bool_iff; symmetry; exact Hsb).
    rewrite Hb0. exact Hsb.
  - assert (Hb0 : Qeq_bool (base b) 0 = false).
    { destruct (Qeq_bool (base b) 0) eqn:Hb; [|reflexivity].
      apply Qeq_bool_iff in Hb. rewrite <- Hsb in Hb.
      apply Qeq_bool_iff in Hb. congruence. }
    rewrite Hb0, Hsb. reflexivity.
Qed.


Lemma filter_group_all (m : Z) (c : string) (b : Billing) (its : list BillingItem) :
  Forall (fun it => createdMonth it = m /\ currency it = c) its ->
  List.filter (in_group m c) (map (pair b) its) = map (pair b) its.
Proof.
  induction 1 as [|it its [Hm Hc] _ IH]; simpl; [reflexivity|].
  unfold in_group at 1; simpl. rewrite Hm, Hc, Z.eqb_refl, String.eqb_refl; simpl.
  rewrite IH. reflexivity.
Qed.

(** The SUM of a group is the sum of what each selected document adds,
    when each document's items fall in that group. *)
Lemma group_total_by_document (startOfYear endOfYear m : Z) (c : string)
  (billings : list Billing) :
  Forall (fun b => Forall (fun it => createdMonth it = m /\ currency it = c)
                     (joined_items b)) billings ->
  Number (group_total (rows startOfYear endOfYear billings) m c)
  == fold_right
       (fun b acc =>
          (if selected startOfYear endOfYear b then Number (document_sales b) else 0)
          + acc)
       0 billings.
Proof.
  unfold group_total, rows.
  induction 1 as [|b bs Hb _ IH]; simpl; [reflexivity|].
  rewrite List.filter_app, map_app, Number_sql_sum_app, IH.
  apply Qplus_inj_r.
  destruct (selected startOfYear endOfYear b); [|reflexivity].
  rewrite filter_group_all by exact Hb.
  rewrite map_map. reflexivity.
Qed.

End SalesProperties.

(** ** HTTP handlers and the permission path *)

Section HttpProperties.
Import Http.
Context {T : Type}.

(** C9. The health-check route is a second place where an error is dropped:
    when [sequelize.authenticate()] rejects, the handler logs the error and
    returns without sending a response or passing the error on. *)
Theorem ping_swallows_error (e : Error) (w : World T) :
  ping (Throw e) w
  = (Return NoResponse, mkWorld (committed w) (tx w) (trace w ++ [EvLog (message e)])).
Proof. reflexivity. Qed.

Lemma ping_answers_when_healthy (w : World T) :
  exists body, ping (Return tt) w = (Return (Sent 200 body), w).
Proof. eexists; reflexivity. Qed.

(** The controllers pass what their service throws to [next]. *)
Lemma controller_forwards_error (service_create : M T string) (e : Error)
  (w w1 : World T) :
  service_create w = (Throw e, w1) ->
  ProductCategoryController_create service_create w = (Return (Next e), w1).
Proof.
  intros Hs. unfold ProductCategoryController_create, try_catch, bind. rewrite Hs.
  reflexivity.
Qed.
End HttpProperties.

Section PermissionProperties.
Import UserService.
Context `{UserService.Collaborators}.

(** [setPermissions] never throws. *)
Lemma setPermissions_never_throws (dto : SetPermissionsDto) (w : World Tables) :
  exists r w', setPermissions dto w = (Return r, w').
Proof.
  unfold setPermissions, try_catch, bind, query, unguarded, console_error, emit, ret.
  destruct (userModel_findByPk (userId dto) (committed w)) as [[user|]|e]; simpl; eauto.
  destruct (setExtraPermissions user (extraPermissions dto) (committed w)) as [[[]|e] t];
    simpl; eauto.
  destruct (length_of (extraPermissions dto)); simpl; eauto.
Qed.

(** A failure while assigning the permissions becomes the status-500
    result; what the assignment wrote before it failed stays written. *)
Lemma setPermissions_failure_is_500 (dto : SetPermissionsDto) (w : World Tables)
  (user : string) (e : Error) (t' : Tables) :
  userModel_findByPk (userId dto) (committed w) = Return (Some user) ->
  setExtraPermissions user (extraPermissions dto) (committed w) = (Throw e, t') ->
  setPermissions dto w
  = (Return (Message 500 "Error asignando permisos de usuario"),
     mkWorld t' (tx w) (trace w ++ [EvLog (message e)])).
Proof.
  intros Hu Hs.
  unfold setPermissions, try_catch, bind, query, unguarded. rewrite Hu, Hs.
  reflexivity.
Qed.
End PermissionProperties.

(** ** Every service method but [setPermissions] re-throws *)

Section CatalogueProperties.
Import Catalogue.
Context {T R : Type} (reply : Z -> string -> R).

(** The services modelled above run the catch blocks of the catalogue. *)
Lemma quote_create_catalogued `{QuoteService.Collaborators}
  (qd : QuoteService.CreateQuoteDto) (cd : QuoteService.CustomerDto) :
  QuoteService.create qd cd
  = (sequelize_transaction ;;
     service QuoteService.Message Quote_create (QuoteService.create_body qd cd))%js.
Proof. reflexivity. Qed.

Lemma quote_update_catalogued `{QuoteService.Collaborators}
  (qd : QuoteService.UpdateQuoteDto) (cd : QuoteService.CustomerDto) :
  QuoteService.update qd cd
  = (sequelize_transaction ;;
     service QuoteService.Message Quote_update (QuoteService.update_body qd cd))%js.
Proof. reflexivity. Qed.

Lemma user_register_catalogued `{UserService.Collaborators}
  (userData : UserService.CreateUserDto) :
  UserService.register userData
  = (sequelize_transaction ;;
     service UserService.Message User_register (UserService.register_body userData))%js.
Proof. reflexivity. Qed.

(** With the transaction still open where there is one, a service method
    whose body throws [e] throws too, unless it is [setPermissions]: the
    same error, or for [register] and [update] of users the same error
    with the duplicate message when it is a unique violation. *)
Lemma service_rethrows (op : ServiceOp) (body : M T R) (w w1 : World T) (e : Error) :
  op <> User_setPermissions ->
  body w = (Throw e, w1) ->
  is_Some (tx w1) ->
  exists e' w',
    service reply op body w = (Throw e', w') /\
    parent_code e' = parent_code e /\
    (is_unique_violation e = false -> e' = e).
Proof.
  intros Hop Hb [t Ht]. unfold service, try_catch. rewrite Hb.
  assert (Hblock : forall s m, catch_block op <> LogReturn s m)
    by (destruct op; simpl; congruence).
  destruct (catch_block op) as [log|log|log dup|s m]; simpl;
    unfold bind, rollback, console_error, emit, throw; rewrite ?Ht; simpl.
  - eauto.
  - eauto.
  - eexists _, _. split; [reflexivity|]. unfold translate.
    destruct (is_unique_violation e); simpl; split; congruence.
  - destruct (Hblock s m eq_refl).
Qed.

(** [setPermissions] turns the error of its body into the status-500
    result. *)
Lemma setPermissions_block_returns (body : M T R) (w w1 : World T) (e : Error) :
  body w = (Throw e, w1) ->
  service reply User_setPermissions body w
  = (Return (reply 500%Z "Error asignando permisos de usuario"),
     mkWorld (committed w1) (tx w1) (trace w1 ++ [EvLog (message e)])).
Proof.
  intros Hb. unfold service, try_catch. rewrite Hb. reflexivity.
Qed.

End CatalogueProperties.

(** ** The services on concrete requests *)

Module Examples.
Import QuoteService QuoteSpec Scenario.

(** C3. A create request with a new customer and a shop slug that resolves to
    no shop: the customer is inserted in the transaction, then [create]
    returns the status-400 message without rollback and without commit, so
    the transaction stays open with the customer row pending. *)
Theorem create_without_shop_keeps_transaction_open :
  let result := @create env (quote_dto "nope" [item1] 10) new_customer empty_world in
  result.1 = Return (Message 400 "Parece que la tienda no existe!") /\
  tx result.2 = Some (@mkTables env ["customer-1"] ∅ []) /\
  committed result.2 = @mkTables env [] ∅ [] /\
  trace result.2 = [EvBegin; EvStatement "customer"].
Proof. vm_compute. repeat split; reflexivity. Qed.

(** C1 on a request with no items. *)
Lemma empty_items_example :
  exists e w',
    @create env (quote_dto "manuarte" [] 10) new_customer empty_world = (Throw e, w') /\
    error_kind e = ValidationError /\
    committed w' = committed empty_world /\
    tx w' = None /\
    trace w' = trace empty_world ++ [EvBegin; EvRollback; EvLog "Error creando cotización"].
Proof.
  apply (@create_empty_items_rejected env (quote_dto "manuarte" [] 10) new_customer).
  reflexivity.
Defined.


(** C4 as stated fails: the result for an unknown shop has status 400 and is
    returned, not thrown. *)
Lemma unknown_shop_is_not_404 :
  ~ signals_NotFound
      (@create env (quote_dto "nope" [item1] 10) no_customer empty_world).1.
Proof. vm_compute. intros Heq; discriminate Heq. Qed.

(** C4 as amended, on a request that has a customer created before the
    shop is looked up. *)
Lemma unknown_shop_example :
  let result := @create env (quote_dto "nope" [item1] 10) new_customer empty_world in
  (forall r, result.1 = Return r -> r = Message 400 "Parece que la tienda no existe!") /\
  committed result.2 = committed empty_world /\
  (forall t, tx result.2 = Some t -> quotes t = quotes (committed empty_world)) /\
  result.1 = Return (Message 400 "Parece que la tienda no existe!").
Proof.
  intros result.
  destruct (@create_unknown_shop env (quote_dto "nope" [item1] 10) new_customer
              empty_world result.1 result.2 eq_refl (surjective_pairing result))
    as (Hr & Hc & Ht & Hret).
  split; [exact Hr|]. split; [exact Hc|]. split; [exact Ht|].
  apply Hret.
  - discriminate.
  - eexists _, _. vm_compute. reflexivity.
Defined.




(** C6 on a create with discount 0 and an update with discount 10. *)
Lemma discount_invariant_example :
  (exists row,
     quotes (committed
               (@create env (quote_dto "manuarte" [item1] 0) no_customer empty_world).2)
       !! "quote-1" = Some row /\
     discount_invariant row) /\
  (exists row,
     quotes (committed
               (@update env (UpdateScenario.update_dto "quote-1" [item1] 10)
                  no_customer UpdateScenario.world1).2)
       !! "quote-1" = Some row /\
     discount_invariant row).
Proof.
  split.
  - apply (proj1 (@discount_type_invariant env)
             (quote_dto "manuarte" [item1] 0) no_customer empty_world 201%Z
             (mkNewSummary "quote-1" (Some "COT-0001") (val PENDING) None None "shop-1")).
    vm_compute. reflexivity.
  - apply (proj2 (@discount_type_invariant env)
             (UpdateScenario.update_dto "quote-1" [item1] 10) no_customer
             UpdateScenario.world1 200%Z
             (mkUpdatedSummary "quote-1" (Some "COT-0001") (val PENDING) undefined
                undefined undefined)).
    vm_compute. reflexivity.
Defined.

(** C10 on a request that supplies the customerId of a customer on file
    (with its name and its person), on one that supplies only a personId,
    and on one that supplies only a name. *)
Lemma customer_id_example :
  let summary cid :=
    mkNewSummary "quote-1" (Some "COT-0001") (val PENDING) cid in
  let supplied :=
    @create env (quote_dto "manuarte" [item1] 10) known_customer known_customer_world in
  let person :=
    @create env (quote_dto "manuarte" [item1] 10) person_only known_customer_world in
  let named :=
    @create env (quote_dto "manuarte" [item1] 10) new_customer empty_world in
  (exists row,
     quotes (committed supplied.2) !! "quote-1" = Some row /\
     customerId row = Some "customer-1" /\
     exists info,
       @customerService_update env known_customer ["customer-1"]
       = Return (info, customers (committed supplied.2))) /\
  (exists row,
     quotes (committed person.2) !! "quote-1" = Some row /\
     customerId row = None /\
     exists info,
       @customerService_update env person_only ["customer-1"]
       = Return (info, customers (committed person.2))) /\
  (exists row,
     quotes (committed named.2) !! "quote-1" = Some row /\
     exists k,
       @customerService_create env new_customer []
       = Return (k, customers (committed named.2)) /\
       customerId row = Some k).
Proof.
  intros summary supplied person named.
  assert (Hnot : forall cd : CustomerDto,
            dto_customerId cd = val "customer-1" \/ fullName cd = undefined ->
            ~ (present (fullName cd) /\ absent (dto_customerId cd))).
  { intros cd [Hid|Hname] [(f & Hf & _) Ha].
    - rewrite Hid in Ha. destruct Ha as [Ha|[Ha|Ha]]; discriminate Ha.
    - rewrite Hname in Hf. discriminate Hf. }
  split; [|split].
  - destruct (@create_customer_id env (quote_dto "manuarte" [item1] 10) known_customer
                known_customer_world 201%Z
                (summary (Some "customer-1") (Some "Ana") "shop-1") supplied.2
                ltac:(vm_compute; reflexivity))
      as (row & Hrow & _ & _ & Hother).
    destruct (Hother (Hnot known_customer (or_introl eq_refl)))
      as (Hval & _ & Hperson & _).
    exists row. split; [exact Hrow|]. split; [apply Hval; reflexivity|].
    apply Hperson. exists "customer-1". split; [reflexivity|discriminate].
  - destruct (@create_customer_id env (quote_dto "manuarte" [item1] 10) person_only
                known_customer_world 201%Z (summary None None "shop-1") person.2
                ltac:(vm_compute; reflexivity))
      as (row & Hrow & _ & _ & Hother).
    destruct (Hother (Hnot person_only (or_intror eq_refl)))
      as (_ & Hnone & Hperson & _).
    exists row. split; [exact Hrow|]. split; [apply Hnone; left; reflexivity|].
    apply Hperson. exists "customer-1". split; [reflexivity|discriminate].
  - destruct (@create_customer_id env (quote_dto "manuarte" [item1] 10) new_customer
                empty_world 201%Z
                (summary (Some "customer-1") (Some "Ana") "shop-1") named.2
                ltac:(vm_compute; reflexivity))
      as (row & Hrow & _ & Hnew & _).
    exists row. split; [exact Hrow|].
    apply Hnew.
    + exists "Ana". split; [reflexivity|discriminate].
    + left. reflexivity.
Defined.

(** C8 as amended: an unknown id, and an empty item list for a known id. *)
Lemma rejected_updates_example :
  (exists e w',
     @update env (UpdateScenario.update_dto "quote-9" [item1] 10) no_customer
       UpdateScenario.world1 = (Throw e, w') /\
     error_kind e = NotFound /\
     committed w' = committed UpdateScenario.world1 /\ tx w' = None) /\
  (exists e w',
     @update env (UpdateScenario.update_dto "quote-1" [] 10) no_customer
       UpdateScenario.world1 = (Throw e, w') /\
     error_kind e = ValidationError /\
     committed w' = committed UpdateScenario.world1 /\ tx w' = None).
Proof.
  split.
  - apply (proj1 (@update_rejections env
                    (UpdateScenario.update_dto "quote-9" [item1] 10) no_customer
                    UpdateScenario.world1)).
    + vm_compute. reflexivity.
    + left. reflexivity.
  - apply (proj1 (proj2 (@update_rejections env
                    (UpdateScenario.update_dto "quote-1" [] 10) no_customer
                    UpdateScenario.world1)) UpdateScenario.stored_quote).
    + vm_compute. reflexivity.
    + reflexivity.
    + left. reflexivity.
    + reflexivity.
Defined.

(** C8 as stated fails: with an unknown id and an empty item list the error
    is NotFound, not the validation error. *)
Lemma missing_document_wins_over_empty_items :
  exists e,
    (@update env (UpdateScenario.update_dto "quote-9" [] 10) no_customer
       UpdateScenario.world1).1 = Throw e /\
    error_kind e = NotFound /\
    error_kind e <> ValidationError.
Proof.
  exists (plain_error "Cotización no encontrada").
  vm_compute. repeat split; [reflexivity..|discriminate].
Qed.

End Examples.

Module LedgerExamples.
Import BillingItemService BillingScenario.

(** C7 on a sale of 2 units out of 10, and on one of 25 out of 10. *)
Lemma stock_round_trip_example :
  (exists r w1 t1 item1 w2 t2 item2,
     @create billing_env sold true billing_world = (Return r, w1) /\ tx w1 = Some t1 /\
     stockItems t1 !! ("variant-A", "stock-1") = Some item1 /\
     (stock_quantity item1 == 10 - 2)%Q /\
     (forall k, k <> ("variant-A", "stock-1") -> stockItems t1 !! k = stockItems stock !! k) /\
     @cancel billing_env sold "stock-1" w1 = (Return tt, w2) /\ tx w2 = Some t2 /\
     stockItems t2 !! ("variant-A", "stock-1") = Some item2 /\
     (stock_quantity item2 == stock_quantity item1 + 2)%Q /\
     (stock_quantity item2 == 10)%Q /\
     (forall k, k <> ("variant-A", "stock-1") -> stockItems t2 !! k = stockItems stock !! k))
  /\
  (exists w1 t1,
     @create billing_env StockScenario.oversold true billing_world
       = (Throw (plain_error "Stock insuficiente"), w1) /\
     tx w1 = Some t1 /\ stockItems t1 = stockItems stock).
Proof.
  split.
  - apply (proj1 (@create_then_cancel_restores_stock billing_env sold billing_world stock
                    (mkStockItem 10 100 "COP") eq_refl ltac:(vm_compute; reflexivity)
                    ltac:(vm_compute; discriminate)
                    (ex_intro _ sold (ex_intro _ [sold] eq_refl)))).
    vm_compute. discriminate.
  - apply (proj2 (@create_then_cancel_restores_stock billing_env StockScenario.oversold
                    billing_world stock
                    (mkStockItem 10 100 "COP") eq_refl ltac:(vm_compute; reflexivity)
                    ltac:(vm_compute; discriminate)
                    (ex_intro _ StockScenario.oversold
                       (ex_intro _ [StockScenario.oversold] eq_refl)))).
    vm_compute. reflexivity.
Defined.

Import MonthlySales SalesScenario.

(** C2 as amended, on the billing of the specification's scenario. *)
Lemma document_sales_example :
  (Number (document_sales billing1) == 180)%Q /\
  (Number (document_sales billing1)
   == spec_discounted (base billing1) (discountType billing1) 10)%Q.
Proof.
  destruct (document_sales_rule billing1 10 200 eq_refl eq_refl) as [Hcode Hspec].
  split.
  - rewrite Hcode. vm_compute. reflexivity.
  - apply Hspec. vm_compute. reflexivity.
Defined.

(** C2 as stated fails: for the billing of the scenario the aggregation
    reports 180, the total of the specification is 185; for a FIXED
    discount of 50 on two items of 100, one of a deleted variant, it
    reports 75, neither the discounted value of the document (150) nor that
    of the item left (50). *)
Lemma monthly_sales_differ_from_total :
  (exists row,
     getMonthlySales 0 100 monthNames [billing1] = [row] /\
     monthName row = Some "Marzo" /\
     (COP row == 180)%Q /\
     (spec_total (base billing1) (discountType billing1) 10 5 == 185)%Q /\
     ~ (COP row == spec_total (base billing1) (discountType billing1) 10 5)%Q) /\
  (exists row,
     getMonthlySales 0 100 monthNames [billing2] = [row] /\
     (COP row == 75)%Q /\
     (spec_discounted 200 (discountType billing2) 50 == 150)%Q /\
     (spec_discounted (base billing2) (discountType billing2) 50 == 50)%Q /\
     ~ (COP row == spec_discounted 200 (discountType billing2) 50)%Q /\
     ~ (COP row == spec_discounted (base billing2) (discountType billing2) 50)%Q).
Proof.
  split.
  - eexists. split; [vm_compute; reflexivity|].
    vm_compute. repeat split; try reflexivity; discriminate.
  - eexists. split; [vm_compute; reflexivity|].
    vm_compute. repeat split; try reflexivity; discriminate.
Qed.
End LedgerExamples.
(** * Further properties of the services *)

(** ** QuoteService: what create, update and delete leave behind *)

Section QuoteExtras.
Import QuoteService QuoteSpec QuoteItemsSpec.
Context `{QuoteService.Collaborators}.

Lemma for_of_items_result (k : string) (its : list CreateQuoteItemDto)
  (w : World Tables) (t : Tables) (w' : World Tables) :
  tx w = Some t ->
  for_of its
    (fun item => in_tx "quote_item"
                   (on_items (quoteItemService_create (item_of_quote k item)))) w
    = (Return tt, w') ->
  exists t', tx w' = Some t' /\
    items_after k its (quoteItems t) = Some (quoteItems t').
Proof.
  revert w t; induction its as [|it its IH]; intros w t Ht; simpl.
  - intros [= <-]; eauto.
  - unfold bind at 1, in_tx at 1. rewrite Ht. unfold on_items at 1.
    change (item_of_quote k it) with (stored_item k it).
    destruct (quoteItemService_create (stored_item k it) (quoteItems t))
      as [[[] i]|e]; [|discriminate].
    intros Hrest. eapply IH in Hrest as (t' & Ht' & Hi); [|reflexivity].
    eauto.
Qed.

(** A [create] that returns the 400 message has committed nothing. *)
Lemma create_400_commits_nothing (qd : CreateQuoteDto) (cd : CustomerDto)
  (w : World Tables) (msg : string) (st : Z) (w' : World Tables) :
  create qd cd w = (Return (Message st msg), w') -> committed w' = committed w.
Proof.
  unfold create, bind at 1, sequelize_transaction, try_catch.
  set (w0 := mkWorld (committed w) (Some (committed w)) (trace w ++ [EvBegin])).
  destruct (create_body qd cd w0) as [[r0|e] w1] eqn:Hbody.
  2:{ intros Hh; exfalso; revert Hh; apply rollback_handler_throws. }
  intros [= -> ->]. revert Hbody. unfold create_body, bind at 1, check_items.
  destruct (length_is_zero (items qd)); [discriminate|]. cbn [ret].
  unfold bind at 1.
  destruct (resolve_customer cd w0) as [[cid|e] wa] eqn:Hres; [|discriminate].
  destruct (resolve_customer_frame cd w0 _ _ wa eq_refl Hres) as (Hca & _).
  unfold bind at 1, query at 1.
  destruct (ShopModel_findOne (shopSlug qd)) as [[shop|]|e]; [| |discriminate].
  2:{ intros [= _ _ <-]. exact Hca. }
  unfold bind at 1, query at 1.
  destruct (generateSerialNumber _ _) as [serial|e]; [|discriminate].
  unfold bind at 1.
  destruct (in_tx "quote" _ wa) as [[k|e] wb]; [|discriminate].
  unfold bind at 1.
  destruct (create_items qd k wb) as [[[]|e] wc]; [|discriminate].
  unfold bind, commit, ret.
  destruct (tx wc) as [tc|]; [destruct (commit_refused tc)|]; discriminate.
Qed.


(** X2. [create] changes the committed tables only when it returns the 201
    result; then it has added exactly one quote row, under a key that was
    free, with the id and the currency of the shop found by the slug (not
    those of the request), the generated serial number it reports, and
    the requester of the request, when it names one, as creator; every
    other quote is untouched. *)
Theorem create_commits_one_row (qd : CreateQuoteDto) (cd : CustomerDto)
  (w : World Tables) (o : Outcome Response) (w' : World Tables) :
  create qd cd w = (o, w') ->
  committed w' = committed w \/
  exists s shop row,
    o = Return (NewQuote 201 s) /\
    ShopModel_findOne (shopSlug qd) = Return (Some shop) /\
    quotes (committed w) !! new_id s = None /\
    quotes (committed w') !! new_id s = Some row /\
    (forall k, k <> new_id s -> quotes (committed w') !! k = quotes (committed w) !! k) /\
    shopId row = Some (shop_id shop) /\
    currency row = Some (shop_currency shop) /\
    new_shopId s = shop_id shop /\
    serialNumber row = new_serialNumber s /\
    is_Some (serialNumber row) /\
    (forall user, dto_requestedBy qd = val user -> createdBy row = Some user) /\
    (dto_requestedBy qd = null -> createdBy row = None) /\
    tx w' = None.
Proof.
  intros Hc. destruct o as [r|e].
  - pose proof Hc as Hinv. apply create_return_inv in Hinv
      as [[-> _]|(shop & cid & c1 & serial & k & Hs & _ & _ & Hk & Hq & _ & Ht & ->)].
    + left. eapply create_400_commits_nothing; eauto.
    + right. eexists _, shop, _. split; [reflexivity|]. cbn [new_id new_shopId new_serialNumber].
      rewrite Hq. split; [exact Hs|]. split; [exact Hk|].
      split; [apply lookup_insert_eq|].
      split; [intros k' Hk'; apply lookup_insert_ne; congruence|].
      simpl. repeat (split; [solve [eauto]|]).
      split; [intros user ->; reflexivity|].
      split; [intros ->; reflexivity|exact Ht].
  - left. apply create_failure_rolls_back in Hc as (Hcm & _). exact Hcm.
Qed.

(** What a [create] that returns 201 has done with the items. *)
Lemma create_201_items (qd : CreateQuoteDto) (cd : CustomerDto)
  (w : World Tables) (st : Z) (s : NewQuoteSummary) (w' : World Tables) :
  create qd cd w = (Return (NewQuote st s), w') ->
  exists it its,
    items qd = val (it :: its) /\
    items_after (new_id s) (it :: its) (quoteItems (committed w))
      = Some (quoteItems (committed w')).
Proof.
  unfold create, bind at 1, sequelize_transaction, try_catch.
  set (w0 := mkWorld (committed w) (Some (committed w)) (trace w ++ [EvBegin])).
  destruct (create_body qd cd w0) as [[r0|e] w1] eqn:Hbody.
  2:{ intros Hh; exfalso; revert Hh; apply rollback_handler_throws. }
  intros [= -> ->].
  revert Hbody. unfold create_body.
  unfold bind at 1, check_items.
  destruct (length_is_zero (items qd)) eqn:Hzero; [discriminate|]. cbn [ret].
  unfold bind at 1.
  destruct (resolve_customer cd w0) as [[cid|e] wa] eqn:Hres; [|discriminate].
  destruct (resolve_customer_frame cd w0 _ _ wa eq_refl Hres)
    as (Hca & ta & Hta & Hq & Hi).
  unfold bind at 1, query at 1.
  destruct (ShopModel_findOne (shopSlug qd)) as [[shop|]|e]; [|discriminate..].
  unfold bind at 1, query at 1.
  destruct (generateSerialNumber _ _) as [serial|e]; [|discriminate].
  unfold bind at 1, in_tx at 1. rewrite Hta. unfold save.
  destruct (quote_insert _ _) as [k|e]; [|discriminate].
  destruct (quotes ta !! k); [discriminate|].
  unfold bind at 1.
  match goal with |- context [create_items qd k ?wb] => set (wb' := wb) end.
  destruct (create_items qd k wb') as [[[]|e] wc] eqn:Hitems; [|discriminate].
  unfold create_items in Hitems.
  destruct (items qd) as [| |its]; [discriminate..|].
  eapply for_of_items_result in Hitems as (tc & Htc & Hafter); [|reflexivity].
  unfold bind, commit, ret; rewrite Htc.
  destruct (commit_refused tc); [discriminate|].
  intros [= <- <- <-]. cbn [new_id committed].
  destruct its as [|it its]; [discriminate|].
  exists it, its. split; [reflexivity|].
  cbn [quoteItems] in Hafter. rewrite <- Hi. exact Hafter.
Qed.

(** X3. A [create] that returns 201 had at least one item in its list, and
    the committed item table is the one reached by handing to
    [quoteItemService.create], in the order of the request, a row for each
    item with the item's variant, name, quantity and prices, no id, and
    the new quote's id as [quoteId]. *)
Theorem create_inserts_items_in_order (qd : CreateQuoteDto) (cd : CustomerDto)
  (w : World Tables) (st : Z) (s : NewQuoteSummary) (w' : World Tables) :
  create qd cd w = (Return (NewQuote st s), w') ->
  exists it its,
    items qd = val (it :: its) /\
    items_after (new_id s) (it :: its) (quoteItems (committed w))
      = Some (quoteItems (committed w')).
Proof. apply create_201_items. Qed.

(** X4. A [create] whose item list is missing (undefined or null) passes the
    emptiness test but never returns 201 and never commits anything;
    whenever the customer step returns, the shop is found and the quote
    row goes in, it fails at the loop over the items, after the INSERT of
    the quote, which is rolled back. *)
Theorem create_without_item_list (qd : CreateQuoteDto) (cd : CustomerDto)
  (w : World Tables) (o : Outcome Response) (w' : World Tables) :
  items qd = undefined \/ items qd = null ->
  create qd cd w = (o, w') ->
  committed w' = committed w /\
  (forall st s, o <> Return (NewQuote st s)) /\
  (forall cid w1 shop serial k,
     resolve_customer cd
       (mkWorld (committed w) (Some (committed w)) (trace w ++ [EvBegin]))
     = (Return cid, w1) ->
     ShopModel_findOne (shopSlug qd) = Return (Some shop) ->
     generateSerialNumber (build cid shop qd) (quotes (committed w)) = Return serial ->
     quote_insert (with_serialNumber serial (build cid shop qd)) (quotes (committed w))
       = Return k ->
     quotes (committed w) !! k = None ->
     (exists e, o = Throw e) /\
     tx w' = None /\
     trace w' = trace w1 ++ [EvStatement "quote"; EvRollback;
                             EvLog "Error creando cotización"]).
Proof.
  intros Hmissing Hc.
  assert (Hnot : forall st s, o <> Return (NewQuote st s)).
  { intros st s ->. apply create_201_items in Hc as (it & its & Hits & _).
    destruct Hmissing; congruence. }
  split; [|split; [exact Hnot|]].
  - destruct o as [[st msg|st s|st s]|e].
    + eapply create_400_commits_nothing; eauto.
    + destruct (Hnot st s eq_refl).
    + apply create_return_inv in Hc as [[? _]|(? & ? & ? & ? & ? & _ & _ & _ & _ & _ & _ & _ & ?)];
        discriminate.
    + apply create_failure_rolls_back in Hc as (Hcm & _). exact Hcm.
  - intros cid w1 shop serial k Hres Hshop Hserial Hinsert Hfree.
    destruct (resolve_customer_frame cd
                (mkWorld (committed w) (Some (committed w)) (trace w ++ [EvBegin]))
                (committed w) _ w1 eq_refl Hres)
      as (Hca & ta & Hta & Hq & _).
    cbn [committed] in Hca.
    revert Hc.
    unfold create, bind at 1, sequelize_transaction, try_catch.
    unfold create_body, bind at 1, check_items.
    assert (Hz : length_is_zero (items qd) = false)
      by (destruct Hmissing as [-> | ->]; reflexivity).
    rewrite Hz. cbn [ret]. unfold bind at 1. cbn [fst snd]. rewrite Hres.
    unfold bind at 1, query at 1. rewrite Hshop.
    unfold bind at 1, query at 1. rewrite Hca, Hserial.
    unfold bind at 1, in_tx at 1, save. rewrite Hta, Hq, Hinsert, Hfree.
    unfold bind at 1, create_items.
    destruct Hmissing as [-> | ->]; unfold throw, bind, rollback, console_error, emit;
      simpl; intros [= <- <-]; simpl; rewrite <- !app_assoc; eauto.
Qed.

(** X5. An [update] that returns assigns the row under the request's id and
    no other: the serial number (which it reports), the shop and the
    creator of the row stay as they were, whatever the request says; the
    customer is kept when [customerId] is undefined, cleared when it is
    null, set to the one given otherwise; and the item list of the
    request was not empty. *)
Theorem update_keeps_identity (qd : UpdateQuoteDto) (cd : CustomerDto)
  (w : World Tables) (r : Response) (w' : World Tables) :
  update qd cd w = (Return r, w') ->
  exists old row s,
    r = UpdatedQuote 200 s /\
    quotes (committed w) !! dto_id qd = Some old /\
    quotes (committed w') !! dto_id qd = Some row /\
    (forall k, k <> dto_id qd -> quotes (committed w') !! k = quotes (committed w) !! k) /\
    serialNumber row = serialNumber old /\
    upd_serialNumber s = serialNumber old /\
    shopId row = shopId old /\
    createdBy row = createdBy old /\
    (dto_customerId cd = undefined -> customerId row = customerId old) /\
    (dto_customerId cd = null -> customerId row = None) /\
    (forall c, dto_customerId cd = val c -> customerId row = Some c) /\
    (exists it its, items qd = val (it :: its)) /\
    tx w' = None.
Proof.
  intros Hu. apply update_return_inv in Hu as (old & Hold & Hitems & Hq & Ht & ->).
  exists old, (updated_row old qd cd). eexists. split; [reflexivity|].
  rewrite Hq. split; [exact Hold|]. split; [apply lookup_insert_eq|].
  split; [intros k Hk; apply lookup_insert_ne; congruence|].
  simpl. repeat (split; [reflexivity|]).
  split; [intros ->; reflexivity|].
  split; [intros ->; reflexivity|].
  split; [intros c ->; reflexivity|].
  split; [|exact Ht].
  destruct (items qd) as [| |[|it its]]; try discriminate. eauto.
Qed.

(** X6. An [update] that names a person ([personId]) whose customer the
    customer service does not find fails with 'Cliente no encontrado',
    whether or not the document exists, and changes nothing. *)
Theorem update_unknown_customer (qd : UpdateQuoteDto) (cd : CustomerDto)
  (w : World Tables) (c1 : CustomerTable) :
  truthy (personId cd) = true ->
  customerService_update cd (customers (committed w)) = Return (None, c1) ->
  exists w',
    update qd cd w = (Throw (plain_error "Cliente no encontrado"), w') /\
    error_kind (plain_error "Cliente no encontrado") = NotFound /\
    committed w' = committed w /\ tx w' = None /\
    trace w' = trace w ++ [EvBegin; EvStatement "customer"; EvRollback;
                           EvLog "Error actualizando cotización"].
Proof.
  intros Hp Hupd.
  unfold update, update_body, update_customer, bind, try_catch, sequelize_transaction,
    in_tx, on_customers.
  rewrite Hp. simpl. rewrite Hupd. simpl.
  eexists. split; [reflexivity|]. simpl. rewrite <- !app_assoc. auto.
Qed.

(** An [update] of an id that is not in the quote table throws a NotFound
    error, when its customer step returns. *)
Lemma update_missing_throws (qd : UpdateQuoteDto) (cd : CustomerDto) (w : World Tables) :
  quotes (committed w) !! dto_id qd = None ->
  customer_update_returns cd (committed w) ->
  exists e w',
    update qd cd w = (Throw e, w') /\ error_kind e = NotFound /\
    committed w' = committed w /\ tx w' = None.
Proof.
  intros Hmissing Hcust.
  unfold update, update_body, update_customer, bind, try_catch, sequelize_transaction.
  unfold in_tx, read_tx, findByPk, on_customers.
  destruct (truthy (personId cd)) eqn:Hp; simpl.
  - destruct Hcust as [?|(info & c1 & ->)]; [congruence|].
    destruct info; simpl; rewrite ?Hmissing; simpl; eauto 10.
  - rewrite Hmissing; simpl; eauto 10.
Qed.

(** X23. An [update] that returns has written the customer and the items
    through their services, once each: the item list of the request, which
    is not empty, was handed to [quoteItemService.updateItems] with the
    request's id, and the committed item table is its result; the customer
    table is the result of [customerService.update] when the request names
    a person, and untouched otherwise. *)
Theorem update_replaces_items (qd : UpdateQuoteDto) (cd : CustomerDto)
  (w : World Tables) (r : Response) (w' : World Tables) :
  update qd cd w = (Return r, w') ->
  (exists it its,
     items qd = val (it :: its) /\
     quoteItemService_updateItems (it :: its) (dto_id qd) (quoteItems (committed w))
       = Return (tt, quoteItems (committed w'))) /\
  (if truthy (personId cd)
   then exists info,
          customerService_update cd (customers (committed w))
            = Return (Some info, customers (committed w'))
   else customers (committed w') = customers (committed w)).
Proof.
  unfold update, bind at 1, sequelize_transaction, try_catch.
  set (w0 := mkWorld (committed w) (Some (committed w)) (trace w ++ [EvBegin])).
  destruct (update_body qd cd w0) as [[r0|e] w1] eqn:Hbody.
  2:{ intros Hh; exfalso; revert Hh; apply rollback_handler_throws. }
  intros [= -> ->].
  revert Hbody. unfold update_body.
  unfold bind at 1.
  destruct (update_customer cd w0) as [[[]|e] wa] eqn:Hcust; [|discriminate].
  assert (Hcustomers :
    exists ta, tx wa = Some ta /\ quotes ta = quotes (committed w) /\
               quoteItems ta = quoteItems (committed w) /\
               if truthy (personId cd)
               then exists info,
                      customerService_update cd (customers (committed w))
                        = Return (Some info, customers ta)
               else customers ta = customers (committed w)).
  { revert Hcust. unfold update_customer.
    destruct (truthy (personId cd)).
    - unfold bind, in_tx, on_customers. cbn [tx w0].
      destruct (customerService_update cd (customers (committed w)))
        as [[[info|] c1]|e]; intros [= <-]; simpl; eauto 8.
    - intros [= <-]. simpl. eauto 8. }
  destruct Hcustomers as (ta & Hta & Hq & Hi & Hc).
  unfold bind at 1, read_tx, findByPk. rewrite Hta, Hq.
  destruct (quotes (committed w) !! dto_id qd) as [old|] eqn:Hold; [|discriminate].
  unfold bind at 1, in_tx at 1, instance_update. rewrite Hta.
  destruct (quote_update _ _ _); [discriminate|].
  unfold bind at 1, replace_items.
  destruct (items qd) as [| |[|it its]] eqn:Hits; try discriminate.
  unfold in_tx, on_items. cbn [tx quoteItems customers quotes length_gt_zero elements_of].
  rewrite Hi.
  destruct (quoteItemService_updateItems _ _ _) as [[[] i]|e] eqn:Hupd; [|discriminate].
  unfold bind, commit, ret. cbn [tx].
  destruct (commit_refused _); [discriminate|].
  intros [= <- <-]. cbn. split.
  - exists it, its. split; [reflexivity|exact Hupd].
  - exact Hc.
Qed.

End QuoteExtras.

Section QuoteDeletionExtras.
Import QuoteService QuoteSpec QuoteDeletion.
Context `{QuoteDeletion.Schema}.

Lemma delete_result (k : string) (w : World Tables) :
  destroy_error k (quotes (committed w)) = None ->
  delete k w =
    match quotes (committed w) !! k with
    | Some _ =>
        (Return (Message 200 "Cotización eliminada con éxito"),
         mkWorld (mkTables (customers (committed w))
                    (base.delete k (quotes (committed w)))
                    (on_delete_items k (quoteItems (committed w))))
           (tx w) (trace w ++ [EvStatement "quote"]))
    | None =>
        (Return (Message 404 "Cotización no encontrada"),
         mkWorld (committed w) (tx w) (trace w ++ [EvStatement "quote"]))
    end.
Proof.
  intros Herr. unfold delete, try_catch, bind, autocommit, destroy. rewrite Herr.
  destruct (quotes (committed w) !! k); reflexivity.
Qed.

(** X7. [delete] answers 200 exactly when the id is in the quote table, and
    then that row is gone, the other quotes and the customers are
    untouched; for an id that is not there it answers 404 and the tables
    are unchanged. (When the DELETE itself passes.) *)
Theorem delete_removes_one_row (k : string) (w : World Tables) :
  destroy_error k (quotes (committed w)) = None ->
  exists r w',
    delete k w = (Return r, w') /\
    quotes (committed w') !! k = None /\
    (forall j, j <> k -> quotes (committed w') !! j = quotes (committed w) !! j) /\
    customers (committed w') = customers (committed w) /\
    tx w' = tx w /\
    (response_status r = 200%Z <-> is_Some (quotes (committed w) !! k)) /\
    (response_status r = 404%Z <-> quotes (committed w) !! k = None) /\
    (quotes (committed w) !! k = None -> committed w' = committed w).
Proof.
  intros Herr. rewrite (delete_result k w Herr).
  destruct (quotes (committed w) !! k) as [q|] eqn:Hk.
  - eexists _, _. split; [reflexivity|]. simpl.
    split; [apply lookup_delete_eq|].
    split; [intros j Hj; apply lookup_delete_ne; congruence|].
    repeat split; eauto; try discriminate; try (intros [? ?]; discriminate).
  - eexists _, _. split; [reflexivity|]. simpl.
    split; [exact Hk|].
    repeat split; eauto; try discriminate; try (intros [? ?]; discriminate).
Qed.


(** X9. Deleting the quote a [create] has just returned answers 200 and
    gives back the quote table from before the [create]. *)
Theorem delete_after_create (qd : CreateQuoteDto) (cd : CustomerDto)
  (w w1 : World Tables) (st : Z) (s : NewQuoteSummary) :
  create qd cd w = (Return (NewQuote st s), w1) ->
  destroy_error (new_id s) (quotes (committed w1)) = None ->
  exists w2,
    delete (new_id s) w1
      = (Return (Message 200 "Cotización eliminada con éxito"), w2) /\
    quotes (committed w2) = quotes (committed w).
Proof.
  intros Hc Herr. rewrite (delete_result _ w1 Herr).
  apply create_return_inv in Hc
    as [[? _]|(shop & cid & c1 & serial & k & _ & _ & _ & Hk & Hq & _ & _ & Hr)];
    [discriminate|].
  injection Hr as -> ->. cbn [new_id]. rewrite Hq, lookup_insert_eq.
  eexists. split; [reflexivity|]. simpl. apply delete_insert_id. exact Hk.
Qed.

End QuoteDeletionExtras.

(** ** UserService: registration, maintenance and permissions *)

Section UserExtras.
Import UserService.
Context `{UserService.Collaborators}.

(** X10. Registering a user whose role id finds no role creates nothing: the
    person and the user are inserted in the transaction, the role lookup
    throws 'Rol no encontrado' (logged by [getRoleName], then by
    [register]), and the rollback drops both rows. *)
Theorem register_unknown_role (userData : CreateUserDto) (w : World Tables)
  (person user : string) (t1 t2 : Tables) :
  personModel_create (fullName userData) (dni userData) (committed w)
    = Return (Some person, t1) ->
  userModel_create userData person t1 = Return (Some user, t2) ->
  roleModel_findByPk (roleId userData) (committed w) = Return None ->
  exists w',
    register userData w = (Throw (plain_error "Rol no encontrado"), w') /\
    committed w' = committed w /\ tx w' = None /\
    trace w' = trace w ++ [EvBegin; EvStatement "person"; EvStatement "user";
                           EvLog "Rol no encontrado"; EvRollback;
                           EvLog "***************** Error creando user: "].
Proof.
  intros Hp Hu Hr.
  unfold register, register_body, getRoleName, bind, try_catch, sequelize_transaction,
    in_tx, query.
  simpl. rewrite Hp. simpl. rewrite Hu. simpl. rewrite Hr. simpl.
  eexists. split; [reflexivity|]. simpl. rewrite <- !app_assoc. auto.
Qed.

(** X11. A [register] that returns has either committed exactly the person
    insert followed by the user insert, the user linked to the new person,
    and answers 201 with the ids of both and the name of the role found,
    the transaction closed; or it answers 500 'Error creando usuario'
    because an insert gave no instance, and then nothing is committed and
    the transaction is left open, neither committed nor rolled back. *)
Theorem register_commits_person_and_user (userData : CreateUserDto) (w : World Tables)
  (r : Response) (w' : World Tables) :
  register userData w = (Return r, w') ->
  (exists u t1,
     r = Registered 201 u "Usuario registrado con éxito" /\
     personModel_create (fullName userData) (dni userData) (committed w)
       = Return (Some (reg_personId u), t1) /\
     userModel_create userData (reg_personId u) t1
       = Return (Some (reg_id u), committed w') /\
     roleModel_findByPk (roleId userData) (committed w)
       = Return (Some (reg_roleName u)) /\
     tx w' = None /\
     reg_email u = email userData /\ reg_dni u = dni userData)
  \/
  (r = Message 500 "Error creando usuario" /\
   committed w' = committed w /\ is_Some (tx w') /\
   ((exists t1,
       personModel_create (fullName userData) (dni userData) (committed w)
         = Return (None, t1)) \/
    (exists person t1 t2,
       personModel_create (fullName userData) (dni userData) (committed w)
         = Return (Some person, t1) /\
       userModel_create userData person t1 = Return (None, t2)))).
Proof.
  unfold register, bind at 1, sequelize_transaction, try_catch.
  set (w0 := mkWorld (committed w) (Some (committed w)) (trace w ++ [EvBegin])).
  destruct (register_body userData w0) as [[r0|e] w1] eqn:Hbody.
  2:{ intros Hh; exfalso; revert Hh; apply rollback_handler_throws. }
  intros [= -> ->]. revert Hbody.
  unfold register_body, getRoleName, bind, try_catch, in_tx, query, commit. simpl.
  destruct (personModel_create _ _ _) as [[[person|] t1]|e] eqn:Hp; simpl;
    try discriminate.
  - destruct (userModel_create _ _ _) as [[[user|] t2]|e] eqn:Hu; simpl;
      try discriminate.
    + destruct (roleModel_findByPk _ _) as [[role|]|e]; simpl; try discriminate.
      destruct (commit_error t2); simpl; [discriminate|].
      intros [= <- <-]. left. simpl. eauto 10.
    + intros [= <- <-]. right. simpl.
      split; [reflexivity|]. split; [reflexivity|]. split; [eauto|].
      right. eauto.
  - intros [= <- <-]. right. simpl.
    split; [reflexivity|]. split; [reflexivity|]. split; [eauto|].
    left. eauto.
Qed.

(** X12. [setPermissions] never throws and always answers with a status and
    a message. The status is 404 exactly when the user is not found, with
    nothing written. Otherwise the committed tables are what
    [setExtraPermissions] leaves, also when it fails on the way: the
    status is 500 when the lookup or the assignment fails, and also after
    an assignment that went through when the list is undefined or null;
    it is 200 for a list, with a message that tells the empty list from
    the others. *)
Theorem setPermissions_outcomes (dto : SetPermissionsDto) (w : World Tables) :
  exists st msg w',
    setPermissions dto w = (Return (Message st msg), w') /\
    tx w' = tx w /\
    ((st = 404%Z /\ userModel_findByPk (userId dto) (committed w) = Return None
      /\ committed w' = committed w) \/
     (st = 500%Z /\ msg = "Error asignando permisos de usuario" /\
      ((committed w' = committed w /\
        exists e, userModel_findByPk (userId dto) (committed w) = Throw e) \/
       (exists user o,
          userModel_findByPk (userId dto) (committed w) = Return (Some user) /\
          setExtraPermissions user (extraPermissions dto) (committed w)
            = (o, committed w') /\
          ((exists e, o = Throw e) \/
           (o = Return tt /\
            (extraPermissions dto = undefined \/ extraPermissions dto = null))))))
     \/
     (st = 200%Z /\
      exists user permissions,
        userModel_findByPk (userId dto) (committed w) = Return (Some user) /\
        extraPermissions dto = val permissions /\
        setExtraPermissions user (val permissions) (committed w)
          = (Return tt, committed w') /\
        msg = match permissions with
              | [] => "Permisos eliminados con éxito"
              | _ :: _ => "Permisos actualizados con éxito"
              end)).
Proof.
  unfold setPermissions, try_catch, bind, query, unguarded, console_error, emit, ret.
  destruct (userModel_findByPk (userId dto) (committed w)) as [[user|]|e] eqn:Hu.
  - destruct (setExtraPermissions user (extraPermissions dto) (committed w))
      as [[[]|e] t] eqn:Hs.
    + destruct (extraPermissions dto) as [| |permissions] eqn:Hlist; simpl.
      * eexists _, _, _. split; [reflexivity|]. split; [reflexivity|].
        right; left. split; [reflexivity|]. split; [reflexivity|].
        right. exists user, (Return tt). split; [assumption || reflexivity|].
        split; [exact Hs|]. right. auto.
      * eexists _, _, _. split; [reflexivity|]. split; [reflexivity|].
        right; left. split; [reflexivity|]. split; [reflexivity|].
        right. exists user, (Return tt). split; [assumption || reflexivity|].
        split; [exact Hs|]. right. auto.
      * eexists _, _, _. split; [reflexivity|]. split; [reflexivity|].
        right; right. split; [reflexivity|].
        exists user, permissions. split; [assumption || reflexivity|].
        split; [reflexivity|]. split; [exact Hs|].
        destruct permissions; reflexivity.
    + eexists _, _, _. split; [reflexivity|]. split; [reflexivity|].
      right; left. split; [reflexivity|]. split; [reflexivity|].
      right. exists user, (Throw e). split; [assumption || reflexivity|].
      split; [exact Hs|]. left. eauto.
  - eexists _, _, _. split; [reflexivity|]. split; [reflexivity|]. left.
    repeat split; assumption || reflexivity.
  - eexists _, _, _. split; [reflexivity|]. split; [reflexivity|].
    right; left. split; [reflexivity|]. split; [reflexivity|].
    left. split; [reflexivity|]. exists e. assumption || reflexivity.
Qed.

End UserExtras.

Section UserMaintenanceExtras.
Import UserService UserMaintenance.
Context `{UserMaintenance.Models}.

Lemma user_delete_body_fails_settled (personId : string) :
  fails_settled (delete_body personId).
Proof.
  unfold delete_body.
  apply fails_settled_bind; [keeps_open_tac|intros _].
  apply fails_settled_bind; [keeps_open_tac|intros n].
  destruct (n =? 1)%Z.
  - apply fails_settled_commit_ret.
  - apply fails_settled_of_fails_open, fails_open_of_keeps_open; keeps_open_tac.
Qed.


Lemma user_update_body_fails_settled (userData : UpdateUserDto) :
  fails_settled (update_body userData).
Proof.
  unfold update_body.
  apply fails_settled_bind; [keeps_open_tac|intros person].
  apply fails_settled_bind; [keeps_open_tac|intros user].
  destruct user as [user|], person as [person|];
    try solve [apply fails_settled_of_fails_open, fails_open_of_keeps_open;
               keeps_open_tac].
  apply fails_settled_bind; [keeps_open_tac|intros _].
  apply fails_settled_bind; [keeps_open_tac|intros _].
  apply fails_settled_bind; [apply getRoleName_keeps_open|intros roleName].
  apply fails_settled_commit_ret.
Qed.


(** X15. [getAssignablePermissions] answers with permissions only for a
    user whose role is found: when the name of the role is not 'cajero' the
    status is 204 and no permission is given; when it is, the status is
    200 and the permissions are those of the permission table whose name
    passes the filter. Whatever is given has a name that contains
    "product", "customer" or "direct-enter" (in any case), does not
    contain "search", and is not 'customer-delete'. Nothing is written. *)
Theorem assignable_permissions_are_filtered (userId : string) (w : World Tables)
  (st : Z) (ps : list Permission) (w' : World Tables) :
  getAssignablePermissions userId w = (Return (Assignable st ps), w') ->
  (exists roleId roleName,
     user_roleId userId (committed w) = Return (Some roleId) /\
     roleModel_findByPk roleId (committed w) = Return (Some roleName) /\
     (roleName <> "cajero" -> st = 204%Z /\ ps = []) /\
     (roleName = "cajero" ->
      st = 200%Z /\
      exists rows, permission_rows (committed w) = Return rows /\
                   ps = List.filter (fun p => assignable (permission_name p)) rows)) /\
  Forall (fun p =>
            permission_name p <> "customer-delete" /\
            ilike "search" (permission_name p) = false /\
            (ilike "product" (permission_name p) = true \/
             ilike "customer" (permission_name p) = true \/
             ilike "direct-enter" (permission_name p) = true)) ps /\
  w' = w.
Proof.
  unfold getAssignablePermissions, try_catch, bind, query. simpl.
  destruct (user_roleId userId (committed w)) as [[role|]|e] eqn:Huser; simpl;
    try discriminate.
  unfold getRoleName, try_catch, bind, query. simpl.
  destruct (roleModel_findByPk role (committed w)) as [[roleName|]|e] eqn:Hfound; simpl;
    try discriminate.
  destruct (String.eqb_spec roleName "cajero") as [Hrole|Hrole]; simpl.
  - destruct (permission_rows (committed w)) as [rows|e]; simpl; [|discriminate].
    intros [= <- <- <-]. split.
    { exists role, roleName. split; [assumption || reflexivity|].
      split; [assumption || reflexivity|].
      split; [intros Hne; contradiction|]. intros _. eauto. }
    split; [|reflexivity].
    apply Forall_forall. intros p Hp. apply list_elem_of_In in Hp.
    apply List.filter_In in Hp as [_ Ha].
    unfold assignable in Ha. apply andb_true_iff in Ha as [Hex Hne].
    apply negb_true_iff in Hne. apply String.eqb_neq in Hne.
    unfold cajero_items in Hex. simpl in Hex.
    rewrite orb_false_r in Hex.
    split; [exact Hne|].
    destruct (ilike "search" (permission_name p)); simpl in Hex.
    + rewrite !andb_false_r in Hex. discriminate.
    + split; [reflexivity|]. rewrite !andb_true_r in Hex.
      apply orb_true_iff in Hex as [?|Hex]; [auto|].
      apply orb_true_iff in Hex as [?|?]; auto.
  - intros [= <- <- <-]. split.
    { exists role, roleName. split; [assumption || reflexivity|].
      split; [assumption || reflexivity|].
      split; [auto|]. intros Heq; contradiction. }
    split; [constructor|reflexivity].
Qed.

End UserMaintenanceExtras.
(** ** getMonthlySales: the report as a table *)

Section SalesTable.
Import MonthlySales SalesSpec.

Lemma dedup_In (x : string) (l : list string) : In x (dedup l) <-> In x l.
Proof.
  induction l as [|y l IH]; simpl; [tauto|].
  rewrite List.filter_In, IH, negb_true_iff, String.eqb_neq.
  destruct (String.eqb_spec y x); intuition congruence.
Qed.

Lemma dedup_NoDup (l : list string) : List.NoDup (dedup l).
Proof.
  induction l as [|y l IH]; simpl; constructor.
  - rewrite List.filter_In, negb_true_iff, String.eqb_neq. tauto.
  - apply List.NoDup_filter, IH.
Qed.

Lemma set_value_fresh (c : string) (v : Q) (values : list (string * Q)) :
  ~ In c (map fst values) -> set_value c v values = values ++ [(c, v)].
Proof.
  induction values as [|[c' v'] values IH]; simpl; [reflexivity|].
  intros Hc. destruct (String.eqb_spec c' c) as [->|_]; [tauto|].
  rewrite IH by tauto. reflexivity.
Qed.

Lemma inject_Z_eqb (m m' : Z) : Qeq_bool (inject_Z m) (inject_Z m') = (m =? m')%Z.
Proof.
  destruct (Z.eqb_spec m m') as [->|Hne].
  - apply Qeq_bool_iff. reflexivity.
  - destruct (Qeq_bool (inject_Z m) (inject_Z m')) eqn:Hq; [|reflexivity].
    apply Qeq_bool_iff in Hq. unfold Qeq in Hq. simpl in Hq. lia.
Qed.

(** An entry that starts with month [m] is the entry of [m] and of no
    other month. *)
Lemma is_month_entry (m m' : Z) (values : list (string * Q)) :
  is_month m' (("month", inject_Z m) :: values) = (m =? m')%Z.
Proof. unfold is_month. simpl. apply inject_Z_eqb. Qed.

(** Setting a currency that is not 'month' and not yet in the entry. *)
Lemma assign_month_entry (m : Z) (c : string) (v : Q) (values : list (string * Q)) :
  c <> "month" -> ~ In c (map fst values) ->
  assign c v (("month", inject_Z m) :: values)
  = ("month", inject_Z m)
    :: values ++ (if negb (String.eqb c "__proto__") then [(c, v)] else []).
Proof.
  intros Hmonth Hfresh. unfold assign.
  destruct (String.eqb c "__proto__"); cbn [negb].
  - rewrite app_nil_r. reflexivity.
  - cbn [set_value].
    assert (Hne : String.eqb "month" c = false) by (apply String.eqb_neq; congruence).
    rewrite Hne, set_value_fresh by exact Hfresh. reflexivity.
Qed.

Lemma add_sale_fresh (m : Z) (c : string) (v : option Q) (acc : list MonthData) :
  Forall (fun entry => is_month m entry = false) acc ->
  add_sale (mkRaw m c v) acc = acc ++ [assign c (Number v) [("month", inject_Z m)]].
Proof.
  induction 1 as [|entry acc Hm _ IH]; simpl; [reflexivity|].
  rewrite Hm. simpl in IH. rewrite IH. reflexivity.
Qed.

Lemma add_sale_last (m : Z) (c : string) (v : option Q) (acc : list MonthData)
  (entry : MonthData) :
  Forall (fun entry => is_month m entry = false) acc ->
  is_month m entry = true ->
  add_sale (mkRaw m c v) (acc ++ [entry]) = acc ++ [assign c (Number v) entry].
Proof.
  intros Hacc Hentry. induction Hacc as [|entry' acc Hm _ IH]; simpl.
  - rewrite Hentry. reflexivity.
  - rewrite Hm. simpl in IH. rewrite IH. reflexivity.
Qed.

(** The rows of one month, folded into an accumulator that already ends
    with the entry of that month. *)
Lemma fold_month_tail (m : Z) (total : string -> option Q) (cs : list string)
  (acc : list MonthData) (values : list (string * Q)) :
  Forall (fun entry => is_month m entry = false) acc ->
  List.NoDup (map fst values ++ cs) ->
  ~ In "month" cs ->
  fold_left (fun acc item => add_sale item acc)
    (map (fun c => mkRaw m c (total c)) cs)
    (acc ++ [("month", inject_Z m) :: values])
  = acc ++ [("month", inject_Z m)
            :: values
               ++ map (fun c => (c, Number (total c)))
                    (List.filter (fun c => negb (String.eqb c "__proto__")) cs)].
Proof.
  intros Hacc. revert values.
  induction cs as [|c cs IH]; intros values Hnd Hmonth; simpl.
  - rewrite app_nil_r. reflexivity.
  - rewrite (add_sale_last m c (total c) acc _ Hacc)
      by (rewrite is_month_entry; apply Z.eqb_refl).
    pose proof (List.NoDup_remove _ _ _ Hnd) as [Hnd' Hc].
    rewrite assign_month_entry;
      [|intros ->; apply Hmonth; left; reflexivity
       |intros Hin; apply Hc, in_or_app; auto].
    destruct (negb (String.eqb c "__proto__")).
    + rewrite IH.
      * rewrite <- app_assoc. reflexivity.
      * rewrite map_app, <- app_assoc. exact Hnd.
      * intros Hin. apply Hmonth. right. exact Hin.
    + rewrite app_nil_r. apply IH; [exact Hnd'|].
      intros Hin. apply Hmonth. right. exact Hin.
Qed.

(** The rows of one month, folded into an accumulator without that month. *)
Lemma fold_month (m : Z) (total : string -> option Q) (cs : list string)
  (acc : list MonthData) :
  Forall (fun entry => is_month m entry = false) acc ->
  List.NoDup cs ->
  ~ In "month" cs ->
  fold_left (fun acc item => add_sale item acc)
    (map (fun c => mkRaw m c (total c)) cs) acc
  = match cs with
    | [] => acc
    | _ :: _ =>
        acc ++ [("month", inject_Z m)
                :: map (fun c => (c, Number (total c)))
                     (List.filter (fun c => negb (String.eqb c "__proto__")) cs)]
    end.
Proof.
  intros Hacc Hnd Hmonth. destruct cs as [|c cs]; [reflexivity|].
  cbn [map fold_left].
  rewrite (add_sale_fresh m c (total c) acc Hacc).
  rewrite (assign_month_entry m c (Number (total c)) []);
    [|intros ->; apply Hmonth; left; reflexivity|intros []].
  apply List.NoDup_cons_iff in Hnd as [Hc Hnd].
  assert (Hrest : ~ In "month" cs) by (intros Hin; apply Hmonth; right; exact Hin).
  cbn [List.filter]. destruct (negb (String.eqb c "__proto__")); cbn [app].
  - refine (fold_month_tail m total cs acc [(c, Number (total c))] Hacc _ Hrest).
    simpl. constructor; assumption.
  - exact (fold_month_tail m total cs acc [] Hacc Hnd Hrest).
Qed.

Lemma is_month_month_entry (rs : list (Billing * BillingItem)) (m m' : Z) :
  is_month m' (month_entry rs m) = (m =? m')%Z.
Proof. apply is_month_entry. Qed.

Lemma fold_months (rs : list (Billing * BillingItem)) (ms : list Z)
  (acc : list MonthData) :
  (forall m, ~ In "month" (currencies_of rs m)) ->
  List.NoDup ms ->
  Forall (fun entry => forall m, In m ms -> is_month m entry = false) acc ->
  fold_left (fun acc item => add_sale item acc)
    (flat_map (fun m => map (fun c => mkRaw m c (group_total rs m c))
                          (currencies_of rs m)) ms) acc
  = acc ++ map (month_entry rs)
             (List.filter (fun m => match currencies_of rs m with [] => false | _ => true end) ms).
Proof.
  intros Hcur. revert acc. induction ms as [|m ms IH]; intros acc Hnd Hacc; simpl.
  - rewrite app_nil_r. reflexivity.
  - rewrite fold_left_app.
    assert (Hm : Forall (fun entry => is_month m entry = false) acc).
    { eapply Forall_impl; [exact Hacc|]. simpl. intros entry Hn. apply Hn. left.
      reflexivity. }
    rewrite (fold_month m (group_total rs m) (currencies_of rs m) acc Hm
               (dedup_NoDup _) (Hcur m)).
    apply List.NoDup_cons_iff in Hnd as [Hm' Hnd].
    assert (Hacc' : Forall (fun entry => forall m, In m ms -> is_month m entry = false) acc).
    { eapply Forall_impl; [exact Hacc|]. simpl. intros entry Hn m0 Hin. apply Hn.
      right. exact Hin. }
    destruct (currencies_of rs m) as [|c cs] eqn:Hc.
    + apply IH; [exact Hnd|exact Hacc'].
    + rewrite IH; [|exact Hnd|].
      * rewrite <- app_assoc. simpl. unfold month_entry at 2. rewrite Hc. reflexivity.
      * apply Forall_app. split; [exact Hacc'|].
        constructor; [|constructor].
        intros m0 Hin. rewrite is_month_entry. apply Z.eqb_neq.
        intros ->. contradiction.
Qed.

Lemma get_value_map (c : string) (g : string -> Q) (cs : list string) :
  get_value c (map (fun c' => (c', g c')) cs)
  = if existsb (String.eqb c) cs then Some (g c) else None.
Proof.
  induction cs as [|c' cs IH]; simpl; [reflexivity|].
  rewrite (String.eqb_sym c c').
  destruct (String.eqb_spec c' c) as [->|_]; [reflexivity|exact IH].
Qed.

Lemma filter_none {A : Type} (f : A -> bool) (l : list A) :
  (forall x, In x l -> f x = false) -> List.filter f l = [].
Proof.
  induction l as [|x l IH]; intros Hf; simpl; [reflexivity|].
  rewrite (Hf x) by (left; reflexivity). apply IH. intros y Hy. apply Hf. right. exact Hy.
Qed.

Lemma group_total_no_currency (rs : list (Billing * BillingItem)) (m : Z) (c : string) :
  ~ In c (currencies_of rs m) -> group_total rs m c = None.
Proof.
  intros Hex. unfold group_total.
  assert (Hempty : List.filter (in_group m c) rs = []).
  { apply filter_none. intros r Hr. unfold in_group.
    destruct (createdMonth r.2 =? m)%Z eqn:Hm; [|reflexivity]. simpl.
    destruct (String.eqb_spec (currency r.2) c) as [Hc|]; [|reflexivity].
    exfalso. apply Hex.
    unfold currencies_of. apply dedup_In. rewrite <- Hc.
    apply (List.in_map (fun r => currency r.2)). apply List.filter_In. auto. }
  rewrite Hempty. reflexivity.
Qed.

(** What the report reads under a currency that is neither 'month' nor
    '__proto__'. *)
Lemma value_of_group (rs : list (Billing * BillingItem)) (m : Z) (c : string) :
  c <> "month" -> c <> "__proto__" ->
  value_or_zero (get_value c (month_entry rs m)) = Number (group_total rs m c).
Proof.
  intros Hmonth Hproto. unfold month_entry. cbn [get_value].
  destruct (String.eqb_spec "month" c) as [Heq|_]; [congruence|].
  rewrite (get_value_map c (fun c => Number (group_total rs m c))).
  destruct (existsb (String.eqb c) _) eqn:Hex; [reflexivity|].
  rewrite group_total_no_currency; [reflexivity|].
  intros Hin. apply Bool.not_true_iff_false in Hex. apply Hex.
  apply List.existsb_exists. exists c. split; [|apply String.eqb_refl].
  apply List.filter_In. split; [exact Hin|].
  apply negb_true_iff, String.eqb_neq. exact Hproto.
Qed.

Lemma Qred_whole (z : Z) : Qred (z # 1) = z # 1.
Proof.
  unfold Qred.
  pose proof (Z.ggcd_gcd z 1) as Hg.
  pose proof (Z.ggcd_correct_divisors z 1) as Hd.
  destruct (Z.ggcd z 1) as [g [aa bb]]. simpl in *.
  rewrite Z.gcd_1_r in Hg. subst g. destruct Hd as [Ha Hb].
  rewrite Z.mul_1_l in Ha, Hb. subst. reflexivity.
Qed.

(** The name the report gives to the entry of a month. *)
Lemma month_name_entry (monthNames : list string) (rs : list (Billing * BillingItem))
  (m : Z) :
  (1 <= m)%Z ->
  month_name monthNames (month_entry rs m) = monthNames !! Z.to_nat (m - 1).
Proof.
  intros Hm. unfold month_name, month_entry. cbn [get_value String.eqb Ascii.eqb Bool.eqb].
  unfold index_of.
  assert (Hred : Qred (inject_Z m - 1) = inject_Z (m - 1)).
  { unfold Qminus, Qplus, Qopp, inject_Z. cbn [Qnum Qden Pos.mul].
    rewrite Qred_whole. f_equal. lia. }
  rewrite Hred. cbn [Qnum Qden inject_Z Pos.eqb andb].
  destruct (Z.leb_spec 0 (m - 1)); [reflexivity|lia].
Qed.

Lemma has_currencies (rs : list (Billing * BillingItem)) (m : Z) :
  match currencies_of rs m with [] => false | _ => true end = has_sales rs m.
Proof.
  unfold currencies_of, has_sales.
  induction rs as [|r rs IH]; simpl; [reflexivity|].
  destruct (createdMonth r.2 =? m)%Z; simpl; [reflexivity|exact IH].
Qed.

Lemma months_NoDup : List.NoDup months.
Proof.
  unfold months. apply NoDup_ListNoDup. apply NoDup_fmap_2; [apply _|].
  apply NoDup_ListNoDup, List.seq_NoDup.
Qed.

Lemma months_range (m : Z) : In m months <-> (1 <= m <= 12)%Z.
Proof.
  unfold months. rewrite List.in_map_iff. split.
  - intros (n & <- & Hn). apply List.in_seq in Hn. lia.
  - intros Hm. exists (Z.to_nat m). split; [lia|]. apply List.in_seq. lia.
Qed.

(** The joined rows are items of the billings. *)
Lemma rows_In (startOfYear endOfYear : Z) (billings : list Billing)
  (r : Billing * BillingItem) :
  In r (rows startOfYear endOfYear billings) ->
  In r.1 billings /\ In r.2 (billingItems r.1).
Proof.
  unfold rows. rewrite List.in_flat_map. intros (b & Hb & Hr).
  destruct (selected startOfYear endOfYear b); [|destruct Hr].
  apply List.in_map_iff in Hr as (it & <- & Hit). simpl.
  apply List.filter_In in Hit as [Hit _]. auto.
Qed.

Lemma no_month_currency (startOfYear endOfYear : Z) (billings : list Billing) :
  (forall b it, In b billings -> In it (billingItems b) -> currency it <> "month") ->
  forall m, ~ In "month" (currencies_of (rows startOfYear endOfYear billings) m).
Proof.
  intros Hcur m Hin. unfold currencies_of in Hin. apply (proj1 (dedup_In _ _)) in Hin.
  apply List.in_map_iff in Hin as (r & Hc & Hr).
  apply List.filter_In in Hr as [Hr _]. apply rows_In in Hr as [Hb Hit].
  exact (Hcur _ _ Hb Hit Hc).
Qed.

(** The [reduce] over the rows of the query gives one entry per month
    with a joined row, in ascending order. *)
Lemma formattedSales_rawSales (startOfYear endOfYear : Z) (billings : list Billing) :
  (forall b it, In b billings -> In it (billingItems b) -> currency it <> "month") ->
  formattedSales (rawSales startOfYear endOfYear billings)
  = map (month_entry (rows startOfYear endOfYear billings))
      (List.filter (has_sales (rows startOfYear endOfYear billings)) months).
Proof.
  intros Hcur. unfold formattedSales, rawSales. fold months.
  rewrite (fold_months (rows startOfYear endOfYear billings) months []
             (no_month_currency startOfYear endOfYear billings Hcur) months_NoDup)
    by constructor.
  rewrite app_nil_l, (List.filter_ext _ _ (has_currencies _)). reflexivity.
Qed.


(** X17. When no billing item has the currency 'month', a month whose
    joined rows are all in currencies other than COP and USD still gets
    its line in the report, with COP 0 and USD 0. *)
Theorem other_currencies_give_zero_line (startOfYear endOfYear : Z)
  (monthNames : list string) (billings : list Billing) (m : Z) :
  (forall b it, In b billings -> In it (billingItems b) -> currency it <> "month") ->
  (1 <= m <= 12)%Z ->
  has_sales (rows startOfYear endOfYear billings) m = true ->
  (forall r, In r (rows startOfYear endOfYear billings) ->
             createdMonth r.2 = m ->
             currency r.2 <> "COP" /\ currency r.2 <> "USD") ->
  In {| monthName := monthNames !! Z.to_nat (m - 1); COP := 0; USD := 0 |}
     (getMonthlySales startOfYear endOfYear monthNames billings).
Proof.
  intros Hnomonth Hm Hsales Hcur. unfold getMonthlySales.
  rewrite (formattedSales_rawSales _ _ _ Hnomonth), map_map.
  apply List.in_map_iff. exists m. split.
  - rewrite month_name_entry by lia.
    rewrite !value_of_group by discriminate.
    assert (Hnone : forall c, c = "COP" \/ c = "USD" ->
              group_total (rows startOfYear endOfYear billings) m c = None).
    { intros c Hc. unfold group_total. rewrite filter_none; [reflexivity|].
      intros r Hr. unfold in_group.
      destruct (createdMonth r.2 =? m)%Z eqn:Hrm; [|reflexivity]. simpl.
      apply Z.eqb_eq in Hrm. destruct (Hcur r Hr Hrm) as [Hcop Husd].
      apply String.eqb_neq. destruct Hc as [-> | ->]; assumption. }
    rewrite !Hnone by auto. reflexivity.
  - apply List.filter_In. split; [apply months_range; exact Hm|exact Hsales].
Qed.

(** X18. The report of a year leaves out every billing created later than
    00:00 of 31 December: [new Date(currentYear + 1, 0, 0)], the upper
    bound of the BETWEEN, is the start of the last day of the year, one
    day before the start of the next year. *)
Theorem last_day_of_year_is_left_out (currentYear : Z) (monthNames : list string)
  (b : Billing) (billings : list Billing) :
  (ReportYear.startOfYear (currentYear + 1) - ReportYear.msPerDay < createdDate b)%Z ->
  getMonthlySales (ReportYear.startOfYear currentYear) (ReportYear.endOfYear currentYear)
    monthNames (b :: billings)
  = getMonthlySales (ReportYear.startOfYear currentYear)
      (ReportYear.endOfYear currentYear) monthNames billings.
Proof.
  intros Hlate. unfold getMonthlySales, rawSales.
  assert (Hrows : rows (ReportYear.startOfYear currentYear)
                    (ReportYear.endOfYear currentYear) (b :: billings)
                  = rows (ReportYear.startOfYear currentYear)
                      (ReportYear.endOfYear currentYear) billings).
  { unfold rows at 1. simpl. fold (rows (ReportYear.startOfYear currentYear)
                    (ReportYear.endOfYear currentYear) billings).
    assert (Hsel : selected (ReportYear.startOfYear currentYear)
                     (ReportYear.endOfYear currentYear) b = false).
    { unfold selected.
      assert (Hle : (createdDate b <=? ReportYear.endOfYear currentYear)%Z = false).
      { apply Z.leb_gt. revert Hlate.
        unfold ReportYear.endOfYear, ReportYear.startOfYear, ReportYear.january,
          ReportYear.msPerDay. lia. }
      rewrite Hle, Bool.andb_false_r. reflexivity. }
    rewrite Hsel. reflexivity. }
  rewrite Hrows. reflexivity.
Qed.

End SalesTable.

(** ** The billing items and the stock *)

Section BillingExtras.
Import BillingItemService.
Context `{BillingItemService.Collaborators}.

(** X19. [create] without deduction never touches the stock: in an open
    transaction it issues the one INSERT of the billing item and returns
    the new item, or logs once and re-throws what the INSERT threw; the
    stock items of the transaction are as before, and nothing is
    committed. *)
Theorem create_without_deduction (data : CreateBillingItemDto) (w : World Tables)
  (t : Tables) :
  tx w = Some t ->
  exists o w' t',
    create data false w = (o, w') /\
    committed w' = committed w /\
    tx w' = Some t' /\
    stockItems t' = stockItems t /\
    match billingItemModel_create data (billingItems t) with
    | Return (item, i) =>
        o = Return item /\ billingItems t' = i /\
        trace w' = trace w ++ [EvStatement "billing_item"]
    | Throw e =>
        o = Throw e /\ t' = t /\
        trace w' = trace w ++ [EvLog "Error creando items de factura"]
    end.
Proof.
  intros Ht. unfold create, try_catch, bind, in_tx, on_items. rewrite Ht.
  destruct (billingItemModel_create data (billingItems t)) as [[item i]|e]; simpl.
  - eexists _, _, _. split; [reflexivity|]. simpl. repeat split; reflexivity.
  - eexists _, _, _. split; [reflexivity|]. simpl. rewrite Ht. repeat split; reflexivity.
Qed.

(** X20. [create] and [cancel] leave the end of the transaction to their
    caller: run in an open transaction they neither commit nor roll back,
    whether they return or throw, so the committed tables are as before
    and the transaction is still open. *)
Theorem billing_items_leave_transaction_open (data : CreateBillingItemDto)
  (deductFromStock : bool) (stock : string) (w : World Tables) :
  is_Some (tx w) ->
  (committed (create data deductFromStock w).2 = committed w /\
   is_Some (tx (create data deductFromStock w).2)) /\
  (committed (cancel data stock w).2 = committed w /\
   is_Some (tx (cancel data stock w).2)).
Proof.
  intros Hw. split.
  - assert (Hk : keeps_open (create data deductFromStock)).
    { unfold create. apply keeps_open_try_catch.
      - apply keeps_open_bind; [apply keeps_open_in_tx|].
        intros item. destruct deductFromStock; simpl.
        + apply keeps_open_bind; [apply keeps_open_in_tx|].
          intros _. apply keeps_open_ret.
        + apply keeps_open_ret.
      - intros e. apply keeps_open_bind; [apply keeps_open_emit|].
        intros _. apply keeps_open_throw. }
    exact (Hk w Hw).
  - assert (Hk : keeps_open (cancel data stock)).
    { unfold cancel. apply keeps_open_try_catch.
      - apply keeps_open_in_tx.
      - intros e. apply keeps_open_bind; [apply keeps_open_emit|].
        intros _. apply keeps_open_throw. }
    exact (Hk w Hw).
Qed.

(** X21. [create] with deduction for an item that has no stock row under
    (variant, stock) throws the stock error after the INSERT of the billing
    item: the new row stays pending in the caller's transaction, the stock
    is untouched, and the failure is logged once. *)
Theorem create_without_stock_row (data : CreateBillingItemDto) (w : World Tables)
  (t : Tables) (item : BillingItem) (i : ItemTable) :
  tx w = Some t ->
  billingItemModel_create data (billingItems t) = Return (item, i) ->
  stockItems t !! (productVariantId data, stockId data) = None ->
  create data true w
  = (Throw stock_item_not_found,
     mkWorld (committed w) (Some (mkTables i (stockItems t)))
       (trace w ++ [EvStatement "billing_item";
                    EvLog "Error creando items de factura"])).
Proof.
  intros Ht Hcreate Hstock.
  unfold create, try_catch, bind, in_tx, on_items, updateQuantity.
  rewrite Ht, Hcreate. simpl. rewrite Hstock. simpl.
  rewrite <- app_assoc. reflexivity.
Qed.

End BillingExtras.

(** ** The top sales of a month *)

Section TopSalesExtras.
Import TopSales.
Context {T : Type}.
Variables (monthNames : list string) (parseFloat : string -> JsNumber).
Variables (LocalTZA : Z) (plus : Z -> JsNumber -> JsNumber).
Variable getGroup : string -> option Z -> option Z -> M T (list GroupRow).

Lemma truncate_whole (q : Q) (z : Z) : (q == inject_Z z)%Q -> truncate q = z.
Proof.
  unfold Qeq, truncate. simpl. intros Hq. rewrite Z.mul_1_r in Hq. rewrite Hq.
  apply Z.quot_mul. discriminate.
Qed.

Lemma DayWithinYear_bounds (leap : bool) (m : Z) :
  (0 <= m < 12)%Z -> (0 <= DayWithinYear leap m <= 335)%Z.
Proof.
  intros Hm. unfold DayWithinYear.
  assert (Hcases : (m = 0 \/ m = 1 \/ m = 2 \/ m = 3 \/ m = 4 \/ m = 5 \/ m = 6 \/
                    m = 7 \/ m = 8 \/ m = 9 \/ m = 10 \/ m = 11)%Z) by lia.
  destruct leap;
    repeat (destruct Hcases as [->|Hcases]; [simpl; lia|]); subst; simpl; lia.
Qed.

(** The first of a month of a year between -271820 and 275759 is within
    the range of time values, in every time zone. *)
Lemma first_of_month_is_valid (ym mn : Z) :
  (-271820 <= ym <= 275759)%Z -> (0 <= mn < 12)%Z ->
  (Z.abs LocalTZA <= ReportYear.msPerDay)%Z ->
  (Z.abs ((ReportYear.DayFromYear ym + DayWithinYear (isLeapYear ym) mn)
          * ReportYear.msPerDay - LocalTZA) <=? maxTime)%Z = true.
Proof.
  intros Hy Hm Htz. apply Z.leb_le.
  pose proof (DayWithinYear_bounds (isLeapYear ym) mn Hm) as Hd.
  unfold ReportYear.DayFromYear, ReportYear.msPerDay, maxTime in *.
  pose proof (Z.div_mod (ym - 1969) 4 ltac:(lia)).
  pose proof (Z.mod_pos_bound (ym - 1969) 4 ltac:(lia)).
  pose proof (Z.div_mod (ym - 1901) 100 ltac:(lia)).
  pose proof (Z.mod_pos_bound (ym - 1901) 100 ltac:(lia)).
  pose proof (Z.div_mod (ym - 1601) 400 ltac:(lia)).
  pose proof (Z.mod_pos_bound (ym - 1601) 400 ltac:(lia)).
  lia.
Qed.


End TopSalesExtras.

(** ** The further properties on concrete requests *)

Module QuoteExamples.
Import QuoteService QuoteSpec QuoteItemsSpec QuoteDeletion Scenario UpdateScenario
  DeletionScenario.


(** X2 on a create that returns 201. *)
Lemma one_row_example :
  let created := @create env (quote_dto "manuarte" [item1] 10) no_customer empty_world in
  exists s row,
    created.1 = Return (NewQuote 201 s) /\
    quotes (committed empty_world) !! new_id s = None /\
    quotes (committed created.2) !! new_id s = Some row /\
    (forall k, k <> new_id s ->
       quotes (committed created.2) !! k = quotes (committed empty_world) !! k) /\
    shopId row = Some "shop-1" /\
    currency row = Some COP /\
    new_shopId s = "shop-1" /\
    serialNumber row = new_serialNumber s /\
    is_Some (serialNumber row) /\
    createdBy row = Some "user-1" /\
    tx created.2 = None.
Proof.
  intros created.
  destruct (@create_commits_one_row env (quote_dto "manuarte" [item1] 10) no_customer
              empty_world created.1 created.2 (surjective_pairing created))
    as [Hsame|(s & shop & row & Hr & Hshop & Hfree & Hrow & Hothers & Hsid & Hcur
               & Hnew & Hserial & Hsome & Hcreator & _ & Htx)].
  - apply (f_equal (fun t => quotes t !! "quote-1")) in Hsame.
    vm_compute in Hsame. discriminate Hsame.
  - injection Hshop as <-.
    exists s, row. repeat (split; [assumption|]).
    split; [apply Hcreator; reflexivity|exact Htx].
Defined.

(** X3 on the same create. *)
Lemma items_in_order_example :
  exists it its,
    val [item1] = val (it :: its) /\
    @items_after env "quote-1" (it :: its) []
    = Some [mkItem undefined (val "variant-A") "A" 2 100 200 (val "quote-1")].
Proof.
  apply (@create_inserts_items_in_order env (quote_dto "manuarte" [item1] 10)
           no_customer empty_world 201%Z
           (mkNewSummary "quote-1" (Some "COT-0001") (val PENDING) None None "shop-1")
           (@create env (quote_dto "manuarte" [item1] 10) no_customer empty_world).2).
  vm_compute. reflexivity.
Defined.

(** X4 on a request that has no [items] at all and a customer to create. *)
Lemma no_item_list_example :
  let created := @create env no_item_list new_customer empty_world in
  committed created.2 = committed empty_world /\
  (forall st s, created.1 <> Return (NewQuote st s)) /\
  (exists e, created.1 = Throw e) /\
  tx created.2 = None /\
  trace created.2 = [EvBegin; EvStatement "customer"; EvStatement "quote"; EvRollback;
                     EvLog "Error creando cotización"].
Proof.
  intros created.
  destruct (@create_without_item_list env no_item_list new_customer empty_world
              created.1 created.2 (or_introl eq_refl) (surjective_pairing created))
    as (Hc & Hn & Hthrow).
  split; [exact Hc|]. split; [exact Hn|].
  apply (Hthrow (Some "customer-1")
           (mkWorld (@mkTables env [] ∅ []) (Some (@mkTables env ["customer-1"] ∅ []))
              [EvBegin; EvStatement "customer"])
           (mkShop "shop-1" COP) "COT-0001" "quote-1");
    vm_compute; reflexivity.
Defined.

(** X5 on three updates of a quote owned by a customer: one that leaves
    the customer out, one that clears it, one that names another. *)
Lemma update_identity_example :
  let kept := @update env (update_dto "quote-1" [item1] 10) no_customer world2 in
  let cleared := @update env (update_dto "quote-1" [item1] 10) cleared_customer world2 in
  let changed := @update env (update_dto "quote-1" [item1] 10) other_customer world2 in
  (exists row,
     quotes (committed kept.2) !! "quote-1" = Some row /\
     customerId row = Some "customer-1" /\
     serialNumber row = Some "COT-0001" /\ shopId row = Some "shop-1" /\
     createdBy row = Some "user-1") /\
  (exists row,
     quotes (committed cleared.2) !! "quote-1" = Some row /\ customerId row = None) /\
  (exists row,
     quotes (committed changed.2) !! "quote-1" = Some row /\
     customerId row = Some "customer-2").
Proof.
  intros kept cleared changed.
  assert (Hold : forall old, quotes (committed world2) !! "quote-1" = Some old ->
                             old = owned_quote).
  { intros old Hold. vm_compute in Hold. injection Hold as <-. reflexivity. }
  split; [|split].
  - destruct (@update_keeps_identity env (update_dto "quote-1" [item1] 10) no_customer
                world2
                (UpdatedQuote 200
                   (mkUpdatedSummary "quote-1" (Some "COT-0001") (val PENDING) undefined
                      undefined undefined))
                kept.2 ltac:(vm_compute; reflexivity))
      as (old & row & s & _ & Hstored & Hrow & _ & Hserial & _ & Hshop & Hcreator
          & Hkeep & _).
    apply Hold in Hstored. subst old.
    exists row. split; [exact Hrow|]. split; [apply Hkeep; reflexivity|].
    auto.
  - destruct (@update_keeps_identity env (update_dto "quote-1" [item1] 10)
                cleared_customer world2
                (UpdatedQuote 200
                   (mkUpdatedSummary "quote-1" (Some "COT-0001") (val PENDING) null
                      undefined undefined))
                cleared.2 ltac:(vm_compute; reflexivity))
      as (old & row & s & _ & _ & Hrow & _ & _ & _ & _ & _ & _ & Hclear & _).
    exists row. split; [exact Hrow|apply Hclear; reflexivity].
  - destruct (@update_keeps_identity env (update_dto "quote-1" [item1] 10)
                other_customer world2
                (UpdatedQuote 200
                   (mkUpdatedSummary "quote-1" (Some "COT-0001") (val PENDING)
                      (val "customer-2") undefined undefined))
                changed.2 ltac:(vm_compute; reflexivity))
      as (old & row & s & _ & _ & Hrow & _ & _ & _ & _ & _ & _ & _ & Hset & _).
    exists row. split; [exact Hrow|apply Hset; reflexivity].
Defined.

(** X6 on an update that names a person without a customer. *)
Lemma unknown_customer_example :
  exists w',
    @update env (update_dto "quote-1" [item1] 10) ghost world1
      = (Throw (plain_error "Cliente no encontrado"), w') /\
    error_kind (plain_error "Cliente no encontrado") = NotFound /\
    committed w' = committed world1 /\ tx w' = None /\
    trace w' = trace world1 ++ [EvBegin; EvStatement "customer"; EvRollback;
                                EvLog "Error actualizando cotización"].
Proof.
  apply (@update_unknown_customer env (update_dto "quote-1" [item1] 10) ghost world1
           ["customer-1"]).
  - reflexivity.
  - vm_compute. reflexivity.
Defined.

(** X7 on the stored quote. *)
Lemma delete_example :
  exists r w',
    @delete env schema "quote-1" world1 = (Return r, w') /\
    quotes (committed w') !! "quote-1" = None /\
    (forall j, j <> "quote-1" ->
       quotes (committed w') !! j = quotes (committed world1) !! j) /\
    customers (committed w') = customers (committed world1) /\
    tx w' = tx world1 /\
    (response_status r = 200%Z <-> is_Some (quotes (committed world1) !! "quote-1")) /\
    (response_status r = 404%Z <-> quotes (committed world1) !! "quote-1" = None) /\
    (quotes (committed world1) !! "quote-1" = None -> committed w' = committed world1).
Proof.
  apply (@delete_removes_one_row env schema "quote-1" world1). reflexivity.
Defined.


(** X9: a quote is created, then deleted. *)
Lemma delete_created_example :
  let created := @create env (quote_dto "manuarte" [item1] 10) no_customer empty_world in
  exists w2,
    @delete env schema "quote-1" created.2
      = (Return (Message 200 "Cotización eliminada con éxito"), w2) /\
    quotes (committed w2) = quotes (committed empty_world).
Proof.
  intros created.
  apply (@delete_after_create env schema (quote_dto "manuarte" [item1] 10) no_customer
           empty_world created.2 201%Z
           (mkNewSummary "quote-1" (Some "COT-0001") (val PENDING) None None "shop-1")).
  - vm_compute. reflexivity.
  - reflexivity.
Defined.

(** X23 on the update of the stored quote by a known person. *)
Lemma replaced_items_example :
  let updated := @update env (update_dto "quote-1" [item1] 10) person_only world1 in
  (exists it its,
     val [item1] = val (it :: its) /\
     @quoteItemService_updateItems env (it :: its) "quote-1" [item1]
       = Return (tt, quoteItems (committed updated.2))) /\
  (exists info,
     @customerService_update env person_only ["customer-1"]
       = Return (Some info, customers (committed updated.2))).
Proof.
  intros updated.
  apply (@update_replaces_items env (update_dto "quote-1" [item1] 10) person_only
           world1
           (UpdatedQuote 200
              (mkUpdatedSummary "quote-1" (Some "COT-0001") (val PENDING) undefined
                 undefined undefined))
           updated.2).
  vm_compute. reflexivity.
Defined.

End QuoteExamples.

Module UserExamples.
Import UserService UserMaintenance UserScenario MaintenanceScenario.

(** X10 on a registration against an empty role table. *)
Lemma unknown_role_example :
  exists w',
    @register no_role user_dto (mkWorld [] None [])
      = (Throw (plain_error "Rol no encontrado"), w') /\
    committed w' = [] /\ tx w' = None /\
    trace w' = [] ++ [EvBegin; EvStatement "person"; EvStatement "user";
                      EvLog "Rol no encontrado"; EvRollback;
                      EvLog "***************** Error creando user: "].
Proof.
  apply (@register_unknown_role no_role user_dto (mkWorld [] None [])
           "person-1" "user-1" ["person-1"] ["person-1"; "user-1"]);
    reflexivity.
Defined.

(** X11 on a registration that passes, and on one whose INSERT of the user
    gives no instance. *)
Lemma registered_example :
  let done := @register registered user_dto (user_world _) in
  let failed := @register no_instance user_dto (mkWorld [] None []) in
  (done.1
   = Return (UserService.Registered 201
               (mkRegistered "user-1" "ana@example.com" "role-1" "shop-1" "cajero"
                  "person-1" "Ana" "1020")
               "Usuario registrado con éxito") /\
   committed done.2 = ["person-1"; "user-1"] /\ tx done.2 = None) /\
  (failed.1 = Return (UserService.Message 500 "Error creando usuario") /\
   committed failed.2 = [] /\ is_Some (tx failed.2)).
Proof.
  intros done failed. split.
  - destruct (@register_commits_person_and_user registered user_dto (user_world _)
                (UserService.Registered 201
                   (mkRegistered "user-1" "ana@example.com" "role-1" "shop-1" "cajero"
                      "person-1" "Ana" "1020")
                   "Usuario registrado con éxito")
                done.2 ltac:(vm_compute; reflexivity))
      as [(u & t1 & Hr & Hperson & Huser & _ & Htx & _)|(Hr & _)];
      [|discriminate Hr].
    split; [vm_compute; reflexivity|].
    split; [vm_compute; reflexivity|exact Htx].
  - destruct (@register_commits_person_and_user no_instance user_dto
                (mkWorld [] None [])
                (UserService.Message 500 "Error creando usuario")
                failed.2 ltac:(vm_compute; reflexivity))
      as [(u & t1 & Hr & _)|(Hr & Hc & Htx & _)]; [discriminate Hr|].
    split; [vm_compute; reflexivity|]. split; [exact Hc|exact Htx].
Defined.



(** X15 on the permissions a cashier can be given, and on an
    administrator. *)
Lemma assignable_example :
  let cashier :=
    @getAssignablePermissions registered models "user-1" staff_world in
  let administrator :=
    @getAssignablePermissions administrators (models_of (Some "admin") None) "user-1"
      administrators_world in
  cashier.1
  = Return (Assignable 200
              [mkPermission "1" "product-create"; mkPermission "4" "Customer-Update"]) /\
  administrator.1 = Return (Assignable 204 []).
Proof.
  intros cashier administrator. split.
  - destruct (@assignable_permissions_are_filtered registered models "user-1"
                staff_world 200%Z
                [mkPermission "1" "product-create"; mkPermission "4" "Customer-Update"]
                cashier.2 ltac:(vm_compute; reflexivity))
      as ((roleId & roleName & _ & Hrole & _ & Hcashier) & _).
    injection Hrole as <-. destruct (Hcashier eq_refl) as (_ & rows & Hrows & Hps).
    vm_compute. reflexivity.
  - destruct (@assignable_permissions_are_filtered administrators
                (models_of (Some "admin") None) "user-1" administrators_world
                204%Z [] administrator.2 ltac:(vm_compute; reflexivity))
      as ((roleId & roleName & _ & Hrole & Hother & _) & _).
    injection Hrole as <-. destruct (Hother ltac:(discriminate)) as [_ _].
    vm_compute. reflexivity.
Defined.

End UserExamples.

Module ReportExamples.
Import MonthlySales SalesScenario ReportScenario.


(** X17 on a year whose only sale is in euros. *)
Lemma euro_month_example :
  In {| monthName := Some "Marzo"; COP := 0; USD := 0 |}
     (getMonthlySales 0 100 monthNames [euro_billing]).
Proof.
  apply (other_currencies_give_zero_line 0 100 monthNames [euro_billing] 3).
  - intros b it [<-|[]] [<-|[]]. discriminate.
  - lia.
  - reflexivity.
  - intros r [<-|[]] _. split; discriminate.
Defined.

(** X18 on a billing paid at noon of 31 December 2024. *)
Lemma new_years_eve_example :
  getMonthlySales (ReportYear.startOfYear 2024) (ReportYear.endOfYear 2024)
    monthNames [new_years_eve; billing1]
  = getMonthlySales (ReportYear.startOfYear 2024) (ReportYear.endOfYear 2024)
      monthNames [billing1].
Proof.
  apply (last_day_of_year_is_left_out 2024 monthNames new_years_eve [billing1]).
  vm_compute. reflexivity.
Defined.

End ReportExamples.

Module BillingExamples.
Import BillingItemService BillingScenario StockScenario.

(** X19 on an item billed without deduction. *)
Lemma no_deduction_example :
  exists o w' t',
    @create billing_env sold false billing_world = (o, w') /\
    committed w' = committed billing_world /\
    tx w' = Some t' /\
    stockItems t' = stockItems stock /\
    o = Return sold /\ billingItems t' = [sold] /\
    trace w' = trace billing_world ++ [EvStatement "billing_item"].
Proof.
  apply (@create_without_deduction billing_env sold billing_world stock).
  reflexivity.
Defined.

(** X20 on an item billed with deduction, then cancelled. *)
Lemma open_transaction_example :
  (committed (@create billing_env sold true billing_world).2 = committed billing_world /\
   is_Some (tx (@create billing_env sold true billing_world).2)) /\
  (committed (@cancel billing_env sold "stock-1" billing_world).2
   = committed billing_world /\
   is_Some (tx (@cancel billing_env sold "stock-1" billing_world).2)).
Proof.
  apply (@billing_items_leave_transaction_open billing_env sold true "stock-1"
           billing_world).
  eexists. reflexivity.
Defined.

(** X21 on an item whose variant is not in the stock. *)
Lemma no_stock_row_example :
  @create billing_env unstocked true billing_world
  = (Throw (plain_error "Item de stock no encontrado"),
     mkWorld (committed billing_world)
       (Some (@mkTables billing_env [unstocked] (stockItems stock)))
       (trace billing_world ++ [EvStatement "billing_item";
                                EvLog "Error creando items de factura"])).
Proof.
  apply (@create_without_stock_row billing_env unstocked billing_world stock
           unstocked [unstocked]).
  - reflexivity.
  - reflexivity.
  - vm_compute. reflexivity.
Defined.

End BillingExamples.

Module TopSalesExamples.
Import TopSales TopSalesScenario.

End TopSalesExamples.
